(** * pypi-typing: the typed-distribution classifier and the new-package detector

  A shallow embedding of [scripts/parse_pypi.py] and
  [scripts/detect_projects.py], with the properties of their specification.

  Python [str] values are byte strings (UTF-8), Python [int]s are [Z],
  awaited network calls are nodes of a task tree whose continuation receives
  the reply, and exceptions are an explicit outcome of a task. *)

From Stdlib Require Import ZArith String Ascii List Bool Lia Permutation Sorted.
From stdpp Require Import base tactics option list strings gmap sets pretty.

Local Open Scope string_scope.
Local Open Scope Z_scope.
Local Open Scope list_scope.

(* ===================================================================== *)
(** ** Python string primitives used by the scripts *)
(* ===================================================================== *)

Module PyStr.

Definition slash : ascii := "/"%char.
Definition dot : ascii := "."%char.

(** [s.split(sep)] for a one-character separator: never the empty list. *)
Fixpoint split (sep : ascii) (s : string) : list string :=
  match s with
  | EmptyString => [EmptyString]
  | String c s' =>
      if Ascii.eqb c sep then EmptyString :: split sep s'
      else match split sep s' with
           | [] => [String c EmptyString]
           | x :: xs => String c x :: xs
           end
  end.

(** [s.rfind(c)]: the highest index of [c] in [s], or [-1]. *)
Fixpoint rfind (c : ascii) (s : string) : Z :=
  match s with
  | EmptyString => -1
  | String a s' =>
      let r := rfind c s' in
      if 0 <=? r then r + 1 else if Ascii.eqb a c then 0 else -1
  end.

Definition len (s : string) : Z := Z.of_nat (String.length s).

(** [s[i:]] for [0 <= i]. *)
Definition slice_from (i : Z) (s : string) : string :=
  String.substring (Z.to_nat i) (String.length s - Z.to_nat i)%nat s.

(** [s.endswith(t)] *)
Definition endswith (s t : string) : bool :=
  (String.length t <=? String.length s)%nat
  && String.eqb
       (String.substring (String.length s - String.length t)%nat
                         (String.length t) s) t.

End PyStr.

(* ===================================================================== *)
(** ** pathlib: pure POSIX paths *)
(* ===================================================================== *)

Module Pathlib.

(** A parsed path: the root (["" ], ["/"] or ["//"]) and the components
    after it.  Two paths are equal when both agree, which is the equality
    of their string forms. *)
Record Path := mkPath { root : string; parts : list string }.

#[global] Instance Path_eq_dec : EqDecision Path.
Proof. solve_decision. Defined.

(** [posixpath.splitroot] *)
Definition splitroot (p : string) : string * string :=
  match p with
  | String c1 rest1 =>
      if Ascii.eqb c1 PyStr.slash then
        match rest1 with
        | String c2 rest2 =>
            if Ascii.eqb c2 PyStr.slash then
              match rest2 with
              | String c3 _ =>
                  if Ascii.eqb c3 PyStr.slash then ("/", rest1)
                  else ("//", rest2)
              | EmptyString => ("//", rest2)
              end
            else ("/", rest1)
        | EmptyString => ("/", rest1)
        end
      else ("", p)
  | EmptyString => ("", p)
  end.

Definition keep_component (x : string) : bool :=
  negb (String.eqb x "") && negb (String.eqb x ".").

(** [Path(s)]: empty and ["."] components are dropped. *)
Definition Path_of (s : string) : Path :=
  let '(r, rel) := splitroot s in
  mkPath r (List.filter keep_component (PyStr.split PyStr.slash rel)).

(** [p.name]: the final component, [""] when there is none. *)
Definition name (p : Path) : string := List.last (parts p) "".

(** [p.suffix]: from the last dot of the name, unless that dot is the first
    or the last character. *)
Definition suffix_of_name (nm : string) : string :=
  let i := PyStr.rfind PyStr.dot nm in
  if (0 <? i) && (i <? PyStr.len nm - 1) then PyStr.slice_from i nm else "".

Definition suffix (p : Path) : string := suffix_of_name (name p).

(** [p.parent]: the path without its final component; a path without
    components is its own parent. *)
Definition parent (p : Path) : Path := mkPath (root p) (List.removelast (parts p)).

(** The proper prefixes of a component list, shortest first. *)
Fixpoint proper_prefixes (l : list string) : list (list string) :=
  match l with
  | [] => []
  | x :: l' => [] :: List.map (cons x) (proper_prefixes l')
  end.

(** [p.parents]: the logical ancestors, nearest first. *)
Definition parents (p : Path) : list Path :=
  List.map (mkPath (root p)) (List.rev (proper_prefixes (parts p))).

(** [d in p.parents] *)
Definition in_parents (d p : Path) : bool := bool_decide (d ∈ parents p).

End Pathlib.

(* ===================================================================== *)
(** ** urllib.parse.quote *)
(* ===================================================================== *)

Module Urllib.

Definition in_range (lo hi : ascii) (c : ascii) : bool :=
  (N_of_ascii lo <=? N_of_ascii c)%N && (N_of_ascii c <=? N_of_ascii hi)%N.

(** The characters [quote] never escapes, and its default [safe="/"]. *)
Definition always_safe (c : ascii) : bool :=
  in_range "A" "Z" c || in_range "a" "z" c || in_range "0" "9" c
  || Ascii.eqb c "_" || Ascii.eqb c "." || Ascii.eqb c "-" || Ascii.eqb c "~".

Definition hex_digit (n : N) : ascii :=
  match n with
  | 0 => "0" | 1 => "1" | 2 => "2" | 3 => "3" | 4 => "4" | 5 => "5"
  | 6 => "6" | 7 => "7" | 8 => "8" | 9 => "9" | 10 => "A" | 11 => "B"
  | 12 => "C" | 13 => "D" | 14 => "E" | _ => "F"
  end%N%char.

Definition percent_encode (c : ascii) : string :=
  let n := N_of_ascii c in
  String "%" (String (hex_digit (n / 16)%N) (String (hex_digit (n mod 16)%N) "")).

Fixpoint quote (s : string) : string :=
  match s with
  | EmptyString => ""
  | String c s' =>
      if always_safe c || Ascii.eqb c PyStr.slash then String c (quote s')
      else percent_encode c +:+ quote s'
  end.

End Urllib.

(* ===================================================================== *)
(** ** Archive members as the scanner sees them *)
(* ===================================================================== *)

Module Zipfile.

(** [zipfile.ZipInfo]: the stored name, the uncompressed size and the
    answer of [is_dir()]. *)
Record ZipInfo := mkZipInfo { filename : string; file_size : Z; is_dir : bool }.

End Zipfile.

Module Tarfile.

(** [tarfile.TarInfo]: the member name, its size and the answer of
    [isfile()]. *)
Record TarInfo := mkTarInfo { name : string; size : Z; isfile : bool }.

(** [TarInfo.path] is an alias of [TarInfo.name]. *)
Definition path (t : TarInfo) : string := name t.

End Tarfile.

(* ===================================================================== *)
(** ** The package index and the HTTP session *)
(* ===================================================================== *)

Module PypiApi.

(** One entry of [j["releases"][version]]. *)
Record Release := mkRelease { url : string; packagetype : string; filename : string }.

(** The part of the JSON document the script reads: [j["releases"]] and
    [j["info"]["version"]]. *)
Record Metadata := mkMetadata { releases : gmap string (list Release); version : string }.

End PypiApi.

Module Aiohttp.

(** The bytes of a response body, as the two archive readers see them:
    [None] when the reader rejects the bytes. *)
Record Body := mkBody {
  as_zip : option (list Zipfile.ZipInfo);
  as_tar_gz : option (list Tarfile.TarInfo)
}.

(** A received response: its status, what [response.json()] yields when the
    body is the expected document, and what [response.read()] yields. *)
Record Response := mkResponse {
  status : Z;
  json : option PypiApi.Metadata;
  read : Body
}.

(** What awaiting [session.get(url)] and reading the response produces: a
    response, or a transport failure. *)
Inductive Reply :=
| Received (r : Response)
| Failed (reason : string).

End Aiohttp.

(* ===================================================================== *)
(** ** Built-ins: stable sort by key, last element, formatting *)
(* ===================================================================== *)

Module Builtins.

Section Sorted.
Context {A K : Type} (key : A -> K) (leb : K -> K -> bool).

(** [x] goes in front of the first element whose key is not smaller. *)
Fixpoint insert_by (x : A) (l : list A) : list A :=
  match l with
  | [] => [x]
  | y :: l' => if leb (key x) (key y) then x :: y :: l' else y :: insert_by x l'
  end.

(** [sorted(l, key=key)]: ascending in the key, and stable: elements with
    equal keys keep the order they have in [l]. *)
Fixpoint sorted (l : list A) : list A :=
  match l with
  | [] => []
  | x :: l' => insert_by x (sorted l')
  end.

End Sorted.

(** [False < True] *)
Definition bool_leb (a b : bool) : bool := implb a b.

(** [l[-1]]: [None] stands for the [IndexError] of an empty list. *)
Definition last_item {A} (l : list A) : option A := List.last (List.map Some l) None.

(** [l[:n]] for [0 <= n]. *)
Definition slice_to {A} (n : Z) (l : list A) : list A := take (Z.to_nat n) l.

(** [str(b)] and [repr] of [True], [False] and [None]. *)
Definition repr_bool (b : bool) : string := if b then "True" else "False".

Definition repr_option_bool (o : option bool) : string :=
  match o with Some b => repr_bool b | None => "None" end.

End Builtins.

(* ===================================================================== *)
(** ** scripts/parse_pypi.py *)
(* ===================================================================== *)

Module ParsePypi.

Definition PYPI_JSON_URL (package : string) : string :=
  "https://pypi.org/pypi/" +:+ package +:+ "/json".

Record PypiReleaseDownload := mkDownload {
  distribution : string;
  url : string;
  packagetype : string;
  filename : string
}.

(** *** The archive scan *)

Inductive Source :=
| ZipFile (infolist : list Zipfile.ZipInfo)
| TarFile (members : list Tarfile.TarInfo).

Definition py_file_suffixes : list string := [".py"; ".pyi"].

Definition zip_keep (zip_info : Zipfile.ZipInfo) : bool :=
  negb (Zipfile.is_dir zip_info)
  && negb (String.eqb (Pathlib.name (Pathlib.Path_of (Zipfile.filename zip_info))) "__init__.py"
           && (Zipfile.file_size zip_info =? 0)).

Definition tar_keep (tar_info : Tarfile.TarInfo) : bool :=
  Tarfile.isfile tar_info
  && negb (String.eqb (Pathlib.name (Pathlib.Path_of (Tarfile.name tar_info))) "__init__.py"
           && (Tarfile.size tar_info =? 0)).

(** The generator [path_iter] of either branch. *)
Definition path_iter (source : Source) : list Pathlib.Path :=
  match source with
  | ZipFile infolist =>
      List.map (fun zip_info => Pathlib.Path_of (Zipfile.filename zip_info))
               (List.filter zip_keep infolist)
  | TarFile members =>
      List.map (fun tar_info => Pathlib.Path_of (Tarfile.path tar_info))
               (List.filter tar_keep members)
  end.

Definition has_py_suffix (path : Pathlib.Path) : bool :=
  bool_decide (Pathlib.suffix path ∈ py_file_suffixes).

(** The classification loop, threading the two lists it appends to. *)
Fixpoint classify (paths : list Pathlib.Path)
    (py_typed_dirs all_python_files : list Pathlib.Path)
  : list Pathlib.Path * list Pathlib.Path :=
  match paths with
  | [] => (py_typed_dirs, all_python_files)
  | path :: rest =>
      if has_py_suffix path then
        classify rest py_typed_dirs (all_python_files ++ [path])
      else if String.eqb (Pathlib.name path) "py.typed" then
        classify rest (py_typed_dirs ++ [Pathlib.parent path]) all_python_files
      else classify rest py_typed_dirs all_python_files
  end.

(** [any(py_typed_dir in path.parents for py_typed_dir in py_typed_dirs)] *)
Definition covered (py_typed_dirs : list Pathlib.Path) (path : Pathlib.Path) : bool :=
  List.existsb (fun py_typed_dir => Pathlib.in_parents py_typed_dir path) py_typed_dirs.

(** The final loop: the first uncovered file returns [False]. *)
Fixpoint check_all (py_typed_dirs all_python_files : list Pathlib.Path) : bool :=
  match all_python_files with
  | [] => true
  | path :: rest =>
      if negb (covered py_typed_dirs path) then false
      else check_all py_typed_dirs rest
  end.

Definition all_py_files_in_source_are_in_py_typed_dirs (source : Source) : bool :=
  let '(py_typed_dirs, all_python_files) := classify (path_iter source) [] [] in
  match py_typed_dirs with
  | [] => false
  | _ :: _ =>
      match all_python_files with
      | [] => false
      | _ :: _ => check_all py_typed_dirs all_python_files
      end
  end.

(** *** Exceptions, effects and tasks *)

Inductive Exn :=
| AssertionError (msg : string)
| ClientResponseError (status : Z)
| ClientConnectionError (reason : string)
| ContentTypeError
| KeyError (key : string)
| IndexError
| BadZipFile
| ReadError.

Inductive Result (A : Type) :=
| Ok (a : A)
| Raised (e : Exn).
Arguments Ok {A} a.
Arguments Raised {A} e.

Inductive Level := INFO | WARNING | ERROR.

(** One line of the output table. *)
Record Row := mkRow {
  package : string;
  has_py_typed : bool;
  has_types_package : option bool
}.

(** A coroutine of the script, unfolded: it returns, raises, awaits a GET
    and continues with the reply, appends a row to the output table, or
    emits a log record. *)
Inductive Task (A : Type) :=
| Ret (a : A)
| Raise (e : Exn)
| Get (url : string) (k : Aiohttp.Reply -> Task A)
| AppendCsv (row : Row) (k : Task A)
| Log (level : Level) (msg : string) (k : Task A).
Arguments Ret {A} a.
Arguments Raise {A} e.
Arguments Get {A} url k.
Arguments AppendCsv {A} row k.
Arguments Log {A} level msg k.

Fixpoint bind {A B} (t : Task A) (f : A -> Task B) : Task B :=
  match t with
  | Ret a => f a
  | Raise e => Raise e
  | Get url k => Get url (fun reply => bind (k reply) f)
  | AppendCsv row k => AppendCsv row (bind k f)
  | Log level msg k => Log level msg (bind k f)
  end.

(** [try: t  except Exception as e: h e] *)
Fixpoint try_except {A} (t : Task A) (h : Exn -> Task A) : Task A :=
  match t with
  | Ret a => Ret a
  | Raise e => h e
  | Get url k => Get url (fun reply => try_except (k reply) h)
  | AppendCsv row k => AppendCsv row (try_except k h)
  | Log level msg k => Log level msg (try_except k h)
  end.

Notation "x <- t ;; k" := (bind t (fun x => k))
  (at level 100, t at next level, right associativity, only parsing).

Definition lift {A} (r : Result A) : Task A :=
  match r with Ok a => Ret a | Raised e => Raise e end.

(** [await session.get(url)], the response read to its end. *)
Definition session_get (url : string) : Task Aiohttp.Response :=
  Get url (fun reply =>
    match reply with
    | Aiohttp.Received response => Ret response
    | Aiohttp.Failed reason => Raise (ClientConnectionError reason)
    end).

(** [response.raise_for_status()] *)
Definition raise_for_status (response : Aiohttp.Response) : Result unit :=
  if 400 <=? Aiohttp.status response
  then Raised (ClientResponseError (Aiohttp.status response)) else Ok tt.

(** [await response.json()] *)
Definition response_json (response : Aiohttp.Response) : Result PypiApi.Metadata :=
  match Aiohttp.json response with
  | Some j => Ok j
  | None => Raised ContentTypeError
  end.

(** *** The release resolver *)

Definition is_wheel (x : PypiApi.Release) : bool :=
  String.eqb (PypiApi.packagetype x) "bdist_wheel".

(** [sorted(rels, key=lambda x: bool(x["packagetype"] == "bdist_wheel"))[-1]] *)
Definition select_release (rels : list PypiApi.Release) : option PypiApi.Release :=
  Builtins.last_item (Builtins.sorted is_wheel Builtins.bool_leb rels).

Definition resolve (package : string) (j : PypiApi.Metadata) : Result PypiReleaseDownload :=
  let releases := PypiApi.releases j in
  let version := PypiApi.version j in
  match releases !! version with
  | None => Raised (KeyError version)
  | Some rels =>
      match select_release rels with
      | None => Raised IndexError
      | Some release_info =>
          Ok {| distribution := package;
                url := PypiApi.url release_info;
                packagetype := PypiApi.packagetype release_info;
                filename := PypiApi.filename release_info |}
      end
  end.

Definition fetch_latest_pypi_release (package : string) : Task PypiReleaseDownload :=
  response <- session_get (PYPI_JSON_URL (Urllib.quote package)) ;;
  _ <- lift (raise_for_status response) ;;
  j <- lift (response_json response) ;;
  lift (resolve package j).

(** *** The classifier orchestrator *)

(** [repr(s)] of a string without quotes or escapes. *)
Definition repr_str (s : string) : string := "'" +:+ s +:+ "'".

Definition open_zip (body : Aiohttp.Body) : Result Source :=
  match Aiohttp.as_zip body with
  | Some infolist => Ok (ZipFile infolist)
  | None => Raised BadZipFile
  end.

Definition open_tar_gz (body : Aiohttp.Body) : Result Source :=
  match Aiohttp.as_tar_gz body with
  | Some members => Ok (TarFile members)
  | None => Raised ReadError
  end.

Definition scan_with (opened : Result Source) : Result bool :=
  match opened with
  | Ok zf => Ok (all_py_files_in_source_are_in_py_typed_dirs zf)
  | Raised e => Raised e
  end.

(** The part of [release_contains_py_typed] after the download. *)
Definition scan_release (release_to_download : PypiReleaseDownload)
    (body : Aiohttp.Body) : Result bool :=
  let packagetype := packagetype release_to_download in
  if String.eqb packagetype "bdist_wheel" then
    if PyStr.endswith (filename release_to_download) ".whl"
    then scan_with (open_zip body)
    else Raised (AssertionError EmptyString)
  else if String.eqb packagetype "sdist" then
    if PyStr.endswith (filename release_to_download) ".tar.gz" then
      scan_with (open_tar_gz body)
    else if PyStr.endswith (filename release_to_download) ".zip" then
      scan_with (open_zip body)
    else
      Raised (AssertionError
        ("Package file " +:+ repr_str (filename release_to_download)
         +:+ " does not end with '.tar.gz' or '.zip'"))
  else
    Raised (AssertionError
      ("Unknown package type for " +:+ distribution release_to_download
       +:+ ": " +:+ repr_str packagetype)).

Definition release_contains_py_typed (release_to_download : PypiReleaseDownload)
  : Task bool :=
  response <- session_get (url release_to_download) ;;
  lift (scan_release release_to_download (Aiohttp.read response)).

Definition is_typed_package (package : string) : Task bool :=
  latest_release <- fetch_latest_pypi_release package ;;
  release_contains_py_typed latest_release.

(** [str(e)], as far as the log line shows it. *)
Definition str_exn (e : Exn) : string :=
  match e with
  | AssertionError msg => msg
  | ClientResponseError status => pretty status
  | ClientConnectionError reason => reason
  | ContentTypeError => "unexpected mimetype"
  | KeyError key => repr_str key
  | IndexError => "list index out of range"
  | BadZipFile => "File is not a zip file"
  | ReadError => "not a gzip file"
  end.

Definition has_types_stub_package (package : string) : Task (option bool) :=
  let stub_package := "types-" +:+ package in
  let url := PYPI_JSON_URL (Urllib.quote stub_package) in
  try_except
    (response <- session_get url ;;
     if Aiohttp.status response =? 200 then Ret (Some true)
     else if Aiohttp.status response =? 404 then Ret (Some false)
     else
       Log WARNING
         ("Unexpected status " +:+ pretty (Aiohttp.status response)
          +:+ " when checking " +:+ stub_package)
         (Ret None))
    (fun e =>
       Log WARNING
         ("Error checking types stub for " +:+ package +:+ ": " +:+ str_exn e)
         (Ret None)).

Definition progress (i total : Z) : string :=
  "[" +:+ pretty i +:+ "/" +:+ pretty total +:+ "]".

(** The [try] block of [process_package]: the two values it assigns. *)
Definition classify_package (pkg : string) : Task (bool * option bool) :=
  has_py_typed <- is_typed_package pkg ;;
  if negb has_py_typed then
    has_types_package <- has_types_stub_package pkg ;;
    Ret (has_py_typed, has_types_package)
  else Ret (has_py_typed, None).

Definition process_package (pkg : string) (i total : Z) : Task unit :=
  outcome <- try_except
      (r <- classify_package pkg ;; Ret (Some r))
      (fun _ => Log ERROR (progress i total +:+ " Error processing " +:+ pkg) (Ret None)) ;;
  match outcome with
  | None => Ret tt
  | Some (has_py_typed, has_types_package) =>
      AppendCsv (mkRow pkg has_py_typed has_types_package)
        (Log INFO
           (progress i total +:+ " Result for " +:+ pkg
            +:+ ": has_py_typed=" +:+ Builtins.repr_bool has_py_typed
            +:+ " has_types_package=" +:+ Builtins.repr_option_bool has_types_package)
           (Ret tt))
  end.

(** *** The world a run acts on *)

(** The requests issued so far, each with the package whose task issued it;
    the output table ([None]: the file does not exist yet); the log. *)
Record World := mkWorld {
  requests : list (string * string);
  output_file : option (list Row);
  log : list (Level * string)
}.

Definition rows (w : World) : list Row := default [] (output_file w).

(** [append_result_to_csv]: the header is written with the first row. *)
Definition append_result_to_csv (row : Row) (w : World) : World :=
  mkWorld (requests w) (Some (rows w ++ [row])) (log w).

Definition record_request (owner url : string) (w : World) : World :=
  mkWorld (requests w ++ [(owner, url)]) (output_file w) (log w).

Definition logging (level : Level) (msg : string) (w : World) : World :=
  mkWorld (requests w) (output_file w) (log w ++ [(level, msg)]).

(** One task run to its end; [net n url] is the reply to the request [url]
    issued when [n] requests have been issued before it. *)
Fixpoint run {A} (net : nat -> string -> Aiohttp.Reply) (owner : string)
    (t : Task A) (w : World) : Result A * World :=
  match t with
  | Ret a => (Ok a, w)
  | Raise e => (Raised e, w)
  | Get url k =>
      run net owner (k (net (length (requests w)) url)) (record_request owner url w)
  | AppendCsv row k => run net owner k (append_result_to_csv row w)
  | Log level msg k => run net owner k (logging level msg w)
  end.

(** *** The batch *)

Fixpoint get_package_names_loop (num : Z) (rows : list string)
    (max_count : option Z) (packages : list string) : list string :=
  match rows with
  | [] => packages
  | project :: rest =>
      if match max_count with None => true | Some m => num <=? m end
      then get_package_names_loop (num + 1) rest max_count (packages ++ [project])
      else packages
  end.

(** The input file is given by its [project] column. *)
Definition get_package_names (file : list string) (max_count : option Z) : list string :=
  get_package_names_loop 0 file max_count [].

Definition load_processed_packages (w : World) : gset string :=
  match output_file w with
  | None => ∅
  | Some table => foldl (fun processed row => processed ∪ {[ package row ]}) ∅ table
  end.

(** The tasks of a batch, each with the package it was created for. *)
Definition Pool := list (string * Task unit).

Record Spawned := mkSpawned {
  skipped : Z;
  tasks : Pool;
  skip_log : list (Level * string)
}.

(** The loop of [main] over [enumerate(packages, start=1)]. *)
Fixpoint spawn (processed : gset string) (total : Z) (i : Z)
    (packages : list string) (st : Spawned) : Spawned :=
  match packages with
  | [] => st
  | pkg :: rest =>
      if bool_decide (pkg ∈ processed) then
        spawn processed total (i + 1) rest
          (mkSpawned (skipped st + 1) (tasks st)
             (skip_log st ++ [(INFO, progress i total +:+ " Skipping " +:+ pkg
                                     +:+ " (already processed)")]))
      else
        spawn processed total (i + 1) rest
          (mkSpawned (skipped st) (tasks st ++ [(pkg, process_package pkg i total)])
             (skip_log st))
  end.

Definition main_spawn (file : list string) (w : World) : Spawned :=
  let packages := get_package_names file (Some 100) in
  let processed := load_processed_packages w in
  let total := Z.of_nat (length packages) in
  spawn processed total 1 packages (mkSpawned 0 [] []).

(** The state in which [asyncio.gather] takes over. *)
Definition main_start (file : list string) (w : World) : Pool * World :=
  let s := main_spawn file w in
  (tasks s, mkWorld (requests w) (output_file w) (log w ++ skip_log s)).

Definition has_raised {A} (t : Task A) : bool :=
  match t with Raise _ => true | _ => false end.

Definition has_returned {A} (t : Task A) : bool :=
  match t with Ret _ => true | _ => false end.

(** One task advances by one effect.  A GET may be answered by any reply. *)
Inductive task_step (owner : string) : Task unit -> World -> Task unit -> World -> Prop :=
| step_get url k reply w :
    task_step owner (Get url k) w (k reply) (record_request owner url w)
| step_append row k w :
    task_step owner (AppendCsv row k) w k (append_result_to_csv row w)
| step_log level msg k w :
    task_step owner (Log level msg k) w k (logging level msg w).

(** [asyncio.gather]: any task of the pool may advance, in any order, as
    long as no task has raised; an exception that leaves a task ends the
    batch, and the tasks still pending advance no further. *)
Inductive pool_step : Pool * World -> Pool * World -> Prop :=
| pool_step_at i owner t t' w w' (pool : Pool) :
    pool !! i = Some (owner, t) ->
    Forall (fun ot => has_raised (snd ot) = false) pool ->
    task_step owner t w t' w' ->
    pool_step (pool, w) (<[i := (owner, t')]> pool, w').

(** The tasks one after the other, each run to its end: one schedule. *)
Fixpoint run_pool (net : nat -> string -> Aiohttp.Reply) (pool : Pool) (w : World)
  : Pool * World :=
  match pool with
  | [] => ([], w)
  | (owner, t) :: rest =>
      let '(r, w1) := run net owner t w in
      match r with
      | Ok a => let '(rest', w2) := run_pool net rest w1 in ((owner, Ret a) :: rest', w2)
      | Raised e => ((owner, Raise e) :: rest, w1)
      end
  end.

(** The last log record of [main], written once every task has returned. *)
Definition main_finish (file : list string) (w0 w1 : World) : World :=
  let s := main_spawn file w0 in
  let total := Z.of_nat (length (get_package_names file (Some 100))) in
  logging INFO
    ("=== Finished: processed " +:+ pretty (total - skipped s)
     +:+ ", skipped " +:+ pretty (skipped s) +:+ " ===") w1.

(** [main] under the schedule that runs the tasks one after the other;
    [Raised] when a task raised and ended the batch. *)
Definition main_seq (net : nat -> string -> Aiohttp.Reply) (file : list string)
    (w : World) : Result unit * World :=
  let '(pool, w0) := main_start file w in
  let '(pool', w1) := run_pool net pool w0 in
  match List.find (fun ot => has_raised (snd ot)) pool' with
  | Some (_, Raise e) => (Raised e, w1)
  | _ => (Ok tt, main_finish file w w1)
  end.

End ParsePypi.

(* ===================================================================== *)
(** ** scripts/detect_projects.py *)
(* ===================================================================== *)

Module DetectProjects.

Definition nl : string := String "010"%char EmptyString.

(** Projects not found on PyPI. *)
Definition NON_EXISTENT_PROJECTS : gset string := {[ "aaaaaaaaa"; "pyairports" ]}.

(** A row of [csv.DictReader]: a column missing from a short row is present
    with the value [None]. *)
Definition CsvRow := gmap string (option string).

Definition cell (column_name : string) (row : CsvRow) : option string :=
  match row !! column_name with
  | Some (Some v) => if String.eqb v EmptyString then None else Some v
  | _ => None
  end.

Definition get_names_from_csv (file_obj : list CsvRow) (column_name : string)
  : gset string :=
  list_to_set (omap (cell column_name) file_obj).

(** An entry of [gh issue list --json title,number,labels]. *)
Record Issue := mkIssue { title : string; number : Z; labels : list string }.

(** The [gh] invocation that ends [create_or_update_issue]. *)
Inductive GhCommand :=
| IssueEdit (number : string) (body : string)
| IssueCreate (title : string) (body : string) (label : string).

Definition issue_title : string := "🚀 New PyPI projects missing from local dataset".

Definition max_display : Z := 20.

(** [sorted(packages)]: strings compare by code point, which for UTF-8
    strings is the order of their bytes. *)
Definition sorted_packages (packages : gset string) : list string :=
  Builtins.sorted (fun x : string => x) String.leb (elements packages).

Definition issue_header (count : Z) : string :=
  pretty count +:+ " new package" +:+ (if count =? 1 then EmptyString else "s")
  +:+ " were found  in "
  +:+ "[top-pypi-packages](https://github.com/hugovk/top-pypi-packages/blob/main/top-pypi-packages.csv) "
  +:+ "that are missing from our dataset." +:+ nl +:+ nl.

(** The loop [for pkg in displayed: issue_body += ...]. *)
Fixpoint add_lines (issue_body : string) (displayed : list string) : string :=
  match displayed with
  | [] => issue_body
  | pkg :: rest => add_lines (issue_body +:+ "- " +:+ pkg +:+ nl) rest
  end.

Definition compose_body (packages : gset string) : string :=
  let count := Z.of_nat (size packages) in
  let displayed := Builtins.slice_to max_display (sorted_packages packages) in
  let hidden_count := count - max_display in
  let issue_body := add_lines (issue_header count) displayed in
  if 0 <? hidden_count
  then issue_body +:+ nl +:+ "... and " +:+ pretty hidden_count +:+ " more."
  else issue_body.

Definition is_tracked (issue : Issue) : bool :=
  String.eqb (title issue) issue_title && bool_decide ("new package" ∈ labels issue).

Definition create_or_update_issue (packages : gset string) (issues : list Issue)
  : GhCommand :=
  let issue_body := compose_body packages in
  match List.find is_tracked issues with
  | Some existing_issue => IssueEdit (pretty (number existing_issue)) issue_body
  | None => IssueCreate issue_title issue_body "new package, enhancement"
  end.

(** [main] with the two tables already read and the exclusion set as a
    parameter: the set it computes, and the command it runs, if any. *)
Definition new_packages (original local excluded : gset string) : gset string :=
  original ∖ local ∖ excluded.

Definition main_with (excluded : gset string) (remote_csv local_csv : list CsvRow)
    (issues : list Issue) : option GhCommand :=
  let original := get_names_from_csv remote_csv "project" in
  let local := get_names_from_csv local_csv "package" in
  let new_packages := new_packages original local excluded in
  if bool_decide (new_packages ≠ ∅)
  then Some (create_or_update_issue new_packages issues)
  else None.

Definition main : list CsvRow -> list CsvRow -> list Issue -> option GhCommand :=
  main_with NON_EXISTENT_PROJECTS.

End DetectProjects.

(* ===================================================================== *)
(** ** The vocabulary of the specification *)
(* ===================================================================== *)

Module Spec.

Import ParsePypi.

(** The file entries of an archive, directories and other non-files left
    out: stored path and size. *)
Definition files (source : Source) : list (string * Z) :=
  match source with
  | ZipFile infolist =>
      List.map (fun z => (Zipfile.filename z, Zipfile.file_size z))
               (List.filter (fun z => negb (Zipfile.is_dir z)) infolist)
  | TarFile members =>
      List.map (fun t => (Tarfile.name t, Tarfile.size t))
               (List.filter Tarfile.isfile members)
  end.

Definition file_name (f : string * Z) : string := Pathlib.name (Pathlib.Path_of (fst f)).

(** A zero-size [__init__.py]. *)
Definition is_placeholder_init (f : string * Z) : bool :=
  String.eqb (file_name f) "__init__.py" && (snd f =? 0).

(** The parents of the files named [py.typed]. *)
Definition marker_dirs (source : Source) : list Pathlib.Path :=
  List.map (fun f => Pathlib.parent (Pathlib.Path_of (fst f)))
           (List.filter (fun f => String.eqb (file_name f) "py.typed") (files source)).

(** The files with suffix [.py] or [.pyi], placeholder inits excluded. *)
Definition source_files (source : Source) : list Pathlib.Path :=
  List.filter has_py_suffix
    (List.map (fun f => Pathlib.Path_of (fst f))
              (List.filter (fun f => negb (is_placeholder_init f)) (files source))).

(** [d] is an ancestor of [p]: the same root, and the components of [d] are
    those of [p] with at least the last one removed. *)
Definition is_ancestor (d p : Pathlib.Path) : Prop :=
  Pathlib.root d = Pathlib.root p
  /\ exists rest, rest <> [] /\ Pathlib.parts p = Pathlib.parts d ++ rest.

(** Every source file lies under some marker directory. *)
Definition all_covered (source : Source) : Prop :=
  forall p, In p (source_files source) ->
    exists d, In d (marker_dirs source) /\ is_ancestor d p.

(** [source'] is [source] with one file entry more, stored as [f] with
    size [sz], at any position. *)
Inductive adds_file : Source -> string -> Z -> Source -> Prop :=
| adds_zip pre post e :
    Zipfile.is_dir e = false ->
    adds_file (ZipFile (pre ++ post)) (Zipfile.filename e) (Zipfile.file_size e)
              (ZipFile (pre ++ e :: post))
| adds_tar pre post e :
    Tarfile.isfile e = true ->
    adds_file (TarFile (pre ++ post)) (Tarfile.name e) (Tarfile.size e)
              (TarFile (pre ++ e :: post)).

(** The two lists the scan of the evaluator builds. *)
Definition scanned_dirs (source : Source) : list Pathlib.Path :=
  fst (classify (path_iter source) [] []).

Definition scanned_files (source : Source) : list Pathlib.Path :=
  snd (classify (path_iter source) [] []).

(** A path the classification loop takes for a marker file. *)
Definition is_marker (p : Pathlib.Path) : bool :=
  negb (has_py_suffix p) && String.eqb (Pathlib.name p) "py.typed".

(** The source files and the marker directories of a list of file entries. *)
Definition files_sources (fl : list (string * Z)) : list Pathlib.Path :=
  List.filter has_py_suffix
    (List.map (fun f => Pathlib.Path_of (fst f))
              (List.filter (fun f => negb (is_placeholder_init f)) fl)).

Definition files_markers (fl : list (string * Z)) : list Pathlib.Path :=
  List.map (fun f => Pathlib.parent (Pathlib.Path_of (fst f)))
           (List.filter (fun f => String.eqb (file_name f) "py.typed") fl).

(** The download record the resolver builds from a release descriptor. *)
Definition download_of (package : string) (r : PypiApi.Release) : PypiReleaseDownload :=
  mkDownload package (PypiApi.url r) (PypiApi.packagetype r) (PypiApi.filename r).

(** Release descriptors for the examples. *)
Definition sdist_release : PypiApi.Release :=
  PypiApi.mkRelease "https://files.example/p-1.0.tar.gz" "sdist" "p-1.0.tar.gz".
Definition wheel_release : PypiApi.Release :=
  PypiApi.mkRelease "https://files.example/p-1.0-py3-none-any.whl" "bdist_wheel"
                    "p-1.0-py3-none-any.whl".
Definition egg_release : PypiApi.Release :=
  PypiApi.mkRelease "https://files.example/p-1.0-py2.7.egg" "bdist_egg" "p-1.0-py2.7.egg".

(** *** Effects of tasks *)

Inductive Event :=
| EvGet (url : string)
| EvRow (row : Row)
| EvLog (level : Level) (msg : string).

(** Every effect [t] can perform satisfies [E] and every outcome it can end
    with satisfies [Q], whatever the replies to its requests. *)
Fixpoint holds {A} (E : Event -> Prop) (Q : Result A -> Prop) (t : Task A) : Prop :=
  match t with
  | Ret a => Q (Ok a)
  | Raise e => Q (Raised e)
  | Get url k => E (EvGet url) /\ forall reply, holds E Q (k reply)
  | AppendCsv row k => E (EvRow row) /\ holds E Q k
  | Log level msg k => E (EvLog level msg) /\ holds E Q k
  end.

(** No row is written. *)
Definition no_row (ev : Event) : Prop :=
  match ev with EvRow _ => False | _ => True end.

(** Rows are written for [pkg] only. *)
Definition rows_for (pkg : string) (ev : Event) : Prop :=
  match ev with EvRow row => package row = pkg | _ => True end.

(** No constraint on the outcome. *)
Definition anything {A} (r : Result A) : Prop := True.

Definition returns_unit (r : Result unit) : Prop := r = Ok tt.

(** A task of the batch: created for a package that is not in [processed],
    it writes rows for that package only and never raises. *)
Definition task_ok (processed : gset string) (ot : string * Task unit) : Prop :=
  (fst ot ∉ processed) /\ holds (rows_for (fst ot)) returns_unit (snd ot).

(** What a batch has done to the world [w0] it started from: it appended
    rows and issued requests, none of them for a processed package, and it
    logged. *)
Definition extends (processed : gset string) (w0 w : World) : Prop :=
  exists appended issued,
    rows w = rows w0 ++ appended
    /\ (appended = [] -> output_file w = output_file w0)
    /\ requests w = requests w0 ++ issued
    /\ Forall (fun row => package row ∉ processed) appended
    /\ Forall (fun q : string * string => fst q ∉ processed) issued.

(** The task a result stands for once it is over. *)
Definition finished {A} (r : Result A) : Task A :=
  match r with Ok a => Ret a | Raised e => Raise e end.

(** The verdict of the stub lookup on a reply. *)
Definition stub_verdict (reply : Aiohttp.Reply) : option bool :=
  match reply with
  | Aiohttp.Received response =>
      if Aiohttp.status response =? 200 then Some true
      else if Aiohttp.status response =? 404 then Some false
      else None
  | Aiohttp.Failed _ => None
  end.

Definition stub_url (package : string) : string :=
  PYPI_JSON_URL (Urllib.quote ("types-" +:+ package)).

(** The log record of a failed package. *)
Definition error_line (pkg : string) (i total : Z) : Level * string :=
  (ERROR, progress i total +:+ " Error processing " +:+ pkg).

(** The filename ends in none of the recognised archive suffixes. *)
Definition unrecognised (filename : string) : Prop :=
  PyStr.endswith filename ".whl" = false
  /\ PyStr.endswith filename ".zip" = false
  /\ PyStr.endswith filename ".tar.gz" = false.

(** *** A small index for the examples

    Three packages: [typed] ships a wheel whose module lies under a marker,
    [untyped] ships a source distribution without a marker and has no stub
    distribution, [odd] ships only a Windows installer. *)

Definition typed_wheel : PypiApi.Release :=
  PypiApi.mkRelease "https://files.example/typed-1.0-py3-none-any.whl" "bdist_wheel"
                    "typed-1.0-py3-none-any.whl".
Definition typed_sdist : PypiApi.Release :=
  PypiApi.mkRelease "https://files.example/typed-1.0.tar.gz" "sdist" "typed-1.0.tar.gz".
Definition untyped_sdist : PypiApi.Release :=
  PypiApi.mkRelease "https://files.example/untyped-2.1.tar.gz" "sdist" "untyped-2.1.tar.gz".
Definition odd_installer : PypiApi.Release :=
  PypiApi.mkRelease "https://files.example/odd-0.3.win32.exe" "bdist_wininst"
                    "odd-0.3.win32.exe".

Definition no_body : Aiohttp.Body := Aiohttp.mkBody None None.

Definition metadata_reply (version : string) (rels : list PypiApi.Release) : Aiohttp.Reply :=
  Aiohttp.Received
    (Aiohttp.mkResponse 200 (Some (PypiApi.mkMetadata {[ version := rels ]} version)) no_body).

Definition archive_reply (body : Aiohttp.Body) : Aiohttp.Reply :=
  Aiohttp.Received (Aiohttp.mkResponse 200 None body).

Definition status_reply (status : Z) : Aiohttp.Reply :=
  Aiohttp.Received (Aiohttp.mkResponse status None no_body).

Definition example_net (n : nat) (url : string) : Aiohttp.Reply :=
  if String.eqb url "https://pypi.org/pypi/typed/json" then
    metadata_reply "1.0" [typed_wheel; typed_sdist]
  else if String.eqb url "https://files.example/typed-1.0-py3-none-any.whl" then
    archive_reply
      (Aiohttp.mkBody
         (Some [Zipfile.mkZipInfo "typed/" 0 true;
                Zipfile.mkZipInfo "typed/py.typed" 0 false;
                Zipfile.mkZipInfo "typed/__init__.py" 0 false;
                Zipfile.mkZipInfo "typed/core.py" 812 false;
                Zipfile.mkZipInfo "typed-1.0.dist-info/METADATA" 420 false])
         None)
  else if String.eqb url "https://pypi.org/pypi/untyped/json" then
    metadata_reply "2.1" [untyped_sdist]
  else if String.eqb url "https://files.example/untyped-2.1.tar.gz" then
    archive_reply
      (Aiohttp.mkBody None
         (Some [Tarfile.mkTarInfo "untyped-2.1" 0 false;
                Tarfile.mkTarInfo "untyped-2.1/setup.py" 230 true;
                Tarfile.mkTarInfo "untyped-2.1/untyped/__init__.py" 0 true;
                Tarfile.mkTarInfo "untyped-2.1/untyped/impl.py" 1900 true]))
  else if String.eqb url "https://pypi.org/pypi/types-untyped/json" then
    status_reply 404
  else if String.eqb url "https://pypi.org/pypi/odd/json" then
    metadata_reply "0.3" [odd_installer]
  else if String.eqb url "https://files.example/odd-0.3.win32.exe" then
    archive_reply no_body
  else Aiohttp.Failed "Cannot connect to host".

Definition fresh_world : World := mkWorld [] None [].

(** The rows of a table, and the requests of a trace, that belong to [P]. *)
Definition rows_of (P : string) (table : list Row) : list Row :=
  List.filter (fun row => String.eqb (package row) P) table.

Definition requests_of (P : string) (trace : list (string * string)) : list (string * string) :=
  List.filter (fun q => String.eqb (fst q) P) trace.

(** The state the sequential schedule of [main] ends in. *)
Definition seq_end (net : nat -> string -> Aiohttp.Reply) (file : list string) (w : World)
  : Pool * World :=
  run_pool net (fst (main_start file w)) (snd (main_start file w)).

(** A table that already holds the row of [typed]. *)
Definition resumed_world : World := mkWorld [] (Some [mkRow "typed" true None]) [].

(** *** The issue body *)



(** Twenty-five package names [pkg00] ... [pkg24], given unsorted. *)
Definition many_packages : gset string :=
  list_to_set
    ["pkg17"; "pkg03"; "pkg24"; "pkg00"; "pkg11"; "pkg08"; "pkg21"; "pkg05"; "pkg14";
     "pkg02"; "pkg19"; "pkg09"; "pkg23"; "pkg01"; "pkg12"; "pkg06"; "pkg20"; "pkg16";
     "pkg04"; "pkg13"; "pkg22"; "pkg07"; "pkg18"; "pkg10"; "pkg15"].

(** Two small tables: the remote dataset and the local results. *)
Definition remote_table : list DetectProjects.CsvRow :=
  [ {[ "download_count" := Some "900"; "project" := Some "a" ]};
    {[ "download_count" := Some "800"; "project" := Some "b" ]};
    {[ "download_count" := Some "700"; "project" := Some "c" ]};
    {[ "download_count" := None; "project" := Some EmptyString ]} ].

Definition local_table : list DetectProjects.CsvRow :=
  [ {[ "package" := Some "a"; "has_py_typed" := Some "True";
       "has_types_package" := Some EmptyString ]} ].

(** A task writes at most one row: after a row only quiet effects follow. *)
Fixpoint writes_once {A} (t : Task A) : Prop :=
  match t with
  | Ret _ | Raise _ => True
  | Get _ k => forall reply, writes_once (k reply)
  | AppendCsv _ k => holds no_row anything k
  | Log _ _ k => writes_once k
  end.

(** The state of a batch whose tasks are for distinct packages: the rows
    appended since [w0] are for distinct packages outside [processed], each
    written by a task of the pool that writes no further row. *)
Definition once_inv (processed : gset string) (w0 : World) (st : Pool * World) : Prop :=
  Forall (task_ok processed) (fst st)
  /\ Forall (fun ot => writes_once (snd ot)) (fst st)
  /\ NoDup (fst <$> fst st)
  /\ exists appended,
       rows (snd st) = rows w0 ++ appended
       /\ NoDup (package <$> appended)
       /\ forall row, row ∈ appended ->
            (package row ∉ processed)
            /\ exists i t, fst st !! i = Some (package row, t) /\ holds no_row anything t.

End Spec.

(* ===================================================================== *)
(** ** Further vocabulary: archives, effects and schedules *)
(* ===================================================================== *)

Module More.

Import ParsePypi Spec.

(** The same members in another order. *)
Inductive same_members : Source -> Source -> Prop :=
| same_zip l l' : Permutation l l' -> same_members (ZipFile l) (ZipFile l')
| same_tar l l' : Permutation l l' -> same_members (TarFile l) (TarFile l').

(** A zip entry as a tar member: a file when it is not a directory. *)
Definition as_tar_member (z : Zipfile.ZipInfo) : Tarfile.TarInfo :=
  Tarfile.mkTarInfo (Zipfile.filename z) (Zipfile.file_size z) (negb (Zipfile.is_dir z)).

(** The directory of the archive itself, the parent of a top-level file. *)
Definition top_level : Pathlib.Path := Pathlib.mkPath EmptyString [].

(** The URL of the metadata request of a package. *)
Definition metadata_url (pkg : string) : string := PYPI_JSON_URL (Urllib.quote pkg).

(** What the resolver makes of a reply to the metadata request. *)
Definition fetch_outcome (pkg : string) (reply : Aiohttp.Reply) : Result PypiReleaseDownload :=
  match reply with
  | Aiohttp.Failed reason => Raised (ClientConnectionError reason)
  | Aiohttp.Received response =>
      if 400 <=? Aiohttp.status response
      then Raised (ClientResponseError (Aiohttp.status response))
      else match Aiohttp.json response with
           | None => Raised ContentTypeError
           | Some j => resolve pkg j
           end
  end.

(** The warnings the stub lookup logs on a reply. *)
Definition stub_warnings (package : string) (reply : Aiohttp.Reply) : list (Level * string) :=
  match reply with
  | Aiohttp.Received response =>
      if Aiohttp.status response =? 200 then []
      else if Aiohttp.status response =? 404 then []
      else [(WARNING, "Unexpected status " +:+ pretty (Aiohttp.status response)
                      +:+ " when checking " +:+ ("types-" +:+ package))]
  | Aiohttp.Failed reason =>
      [(WARNING, "Error checking types stub for " +:+ package +:+ ": " +:+ reason)]
  end.

(** The log record of a classified package. *)
Definition result_line (pkg : string) (i total : Z) (has_py_typed : bool)
    (has_types_package : option bool) : Level * string :=
  (INFO, progress i total +:+ " Result for " +:+ pkg
         +:+ ": has_py_typed=" +:+ Builtins.repr_bool has_py_typed
         +:+ " has_types_package=" +:+ Builtins.repr_option_bool has_types_package).

(** The world after a classified package: its row, then its log record. *)
Definition record_result (pkg : string) (i total : Z) (has_py_typed : bool)
    (has_types_package : option bool) (w : World) : World :=
  mkWorld (requests w)
          (Some (rows w ++ [mkRow pkg has_py_typed has_types_package]))
          (log w ++ [result_line pkg i total has_py_typed has_types_package]).

(** The world after the stub lookup of a package answered by [reply]. *)
Definition record_stub_lookup (pkg : string) (reply : Aiohttp.Reply) (w : World) : World :=
  mkWorld (requests w ++ [(pkg, stub_url pkg)]) (output_file w)
          (log w ++ stub_warnings pkg reply).

(** The tasks the loop of [main] creates for [packages], numbered from [i]. *)
Fixpoint new_tasks (processed : gset string) (total : Z) (i : Z) (packages : list string)
  : Pool :=
  match packages with
  | [] => []
  | pkg :: rest =>
      if bool_decide (pkg ∈ processed) then new_tasks processed total (i + 1) rest
      else (pkg, process_package pkg i total) :: new_tasks processed total (i + 1) rest
  end.

(** What a task of [pkg], numbered [i] of [total], still owes: on every
    path it writes a row of [pkg] and then the result record of that row,
    or it logs its error record, and only then returns. *)
Fixpoint owes (pkg : string) (i total : Z) (t : Task unit) : Prop :=
  match t with
  | Ret _ | Raise _ => False
  | Get _ k => forall reply, owes pkg i total (k reply)
  | AppendCsv row k =>
      package row = pkg
      /\ k = Log INFO
               (snd (result_line pkg i total (has_py_typed row) (has_types_package row)))
               (Ret tt)
  | Log level msg k =>
      ((level, msg) = error_line pkg i total /\ k = Ret tt) \/ owes pkg i total k
  end.

(** The rows [appended] and the records [lines] account for [pkg]: they
    hold its error record, or a row of it and the result record of that
    row. *)
Definition accounted (pkg : string) (i total : Z)
    (appended : list Row) (lines : list (Level * string)) : Prop :=
  In (error_line pkg i total) lines
  \/ exists row,
       In row appended /\ package row = pkg
       /\ In (result_line pkg i total (has_py_typed row) (has_types_package row)) lines.

(** Where the task of [pkg] stands: it still owes everything, it has
    written its row and owes the result record, or it has returned and
    the package is accounted for. *)
Definition standing (pkg : string) (i total : Z)
    (appended : list Row) (lines : list (Level * string)) (t : Task unit) : Prop :=
  owes pkg i total t
  \/ (exists row,
        In row appended /\ package row = pkg
        /\ t = Log INFO
                 (snd (result_line pkg i total (has_py_typed row) (has_types_package row)))
                 (Ret tt))
  \/ (t = Ret tt /\ accounted pkg i total appended lines).

(** The packages the loop of [main] creates tasks for, each with its
    number, counted from [i]. *)
Fixpoint new_labels (processed : gset string) (i : Z) (packages : list string)
  : list (string * Z) :=
  match packages with
  | [] => []
  | pkg :: rest =>
      if bool_decide (pkg ∈ processed) then new_labels processed (i + 1) rest
      else (pkg, i) :: new_labels processed (i + 1) rest
  end.

(** Every task of the pool stands somewhere with respect to what the batch
    has appended and logged since [w0]. *)
Definition account_inv (w0 : World) (total : Z) (labels : list (string * Z))
    (st : Pool * World) : Prop :=
  exists appended lines,
    rows (snd st) = rows w0 ++ appended
    /\ log (snd st) = log w0 ++ lines
    /\ Forall2 (fun lab ot =>
                  fst ot = fst lab
                  /\ standing (fst lab) (snd lab) total appended lines (snd ot))
               labels (fst st).

(** The order of [sorted] on strings. *)
Definition ascending (a b : string) : Prop := String.leb a b = true.

(** A string of printable ASCII characters without the single quote and
    the backslash: [repr] shows it as it is, between single quotes. *)
Definition plain_char (c : ascii) : bool :=
  let n := N_of_ascii c in
  ((32 <=? n) && (n <=? 126) && negb (n =? 39) && negb (n =? 92))%N.

Fixpoint plain (s : string) : bool :=
  match s with
  | EmptyString => true
  | String c s' => plain_char c && plain s'
  end.

(** Along every path [t] issues at most [g] requests and writes at most
    [r] rows. *)
Fixpoint within {A} (g r : nat) (t : Task A) : Prop :=
  match t with
  | Ret _ | Raise _ => True
  | Get _ k =>
      match g with O => False | S g' => forall reply, within g' r (k reply) end
  | AppendCsv _ k =>
      match r with O => False | S r' => within g r' k end
  | Log _ _ k => within g r k
  end.

(** What the tasks of a pool may still do, and what the batch has done
    since [w0]: together never more than three requests and one row for
    each task. *)
Definition budget_inv (w0 : World) (st : Pool * World) : Prop :=
  exists (budgets : list (nat * nat)) appended issued,
    Forall2 (fun ot b => within (fst b) (snd b) (snd ot)) (fst st) budgets
    /\ rows (snd st) = rows w0 ++ appended
    /\ requests (snd st) = requests w0 ++ issued
    /\ (length issued + list_sum (List.map fst budgets) <= 3 * length (fst st))%nat
    /\ (length appended + list_sum (List.map snd budgets) <= length (fst st))%nat.

End More.

(* ===================================================================== *)
(** * Properties *)
(* ===================================================================== *)

(** ** Paths *)

Module PathFacts.

Import Pathlib.

Lemma proper_prefixes_spec (l pre : list string) :
  In pre (proper_prefixes l) <-> exists rest, rest <> [] /\ l = pre ++ rest.
Proof.
  revert pre. induction l as [|x l IH]; intros pre; simpl.
  - split; [tauto|]. intros (rest & Hne & Heq).
    symmetry in Heq. apply app_eq_nil in Heq as [_ ->]. congruence.
  - split.
    + intros [<- | Hin].
      * exists (x :: l). split; [discriminate | reflexivity].
      * apply List.in_map_iff in Hin as (pre' & <- & Hin).
        apply IH in Hin as (rest & Hne & ->). exists rest. split; [assumption | reflexivity].
    + intros (rest & Hne & Heq). destruct pre as [|y pre]; [left; reflexivity|].
      right. simpl in Heq. injection Heq as <- ->.
      apply List.in_map_iff. exists pre. split; [reflexivity|].
      apply IH. exists rest. split; [assumption | reflexivity].
Qed.

(** [d in p.parents] is the ancestor relation. *)
Lemma in_parents_spec (d p : Path) :
  in_parents d p = true <-> Spec.is_ancestor d p.
Proof.
  unfold in_parents, Spec.is_ancestor, parents.
  rewrite bool_decide_eq_true, list_elem_of_In, List.in_map_iff.
  split.
  - intros (pre & <- & Hin). simpl. split; [reflexivity|].
    apply List.in_rev in Hin. apply proper_prefixes_spec in Hin. exact Hin.
  - intros (Hroot & Hrest). exists (parts d). split.
    + destruct d as [r ps]. simpl in *. congruence.
    + apply -> List.in_rev. apply proper_prefixes_spec. exact Hrest.
Qed.

(** The direct parent is among the ancestors of a path with a name. *)
Lemma parent_is_ancestor (p : Path) :
  parts p <> [] -> Spec.is_ancestor (parent p) p.
Proof.
  intros Hne. split; [reflexivity|]. simpl.
  exists [List.last (parts p) EmptyString]. split; [discriminate|].
  apply List.app_removelast_last. exact Hne.
Qed.

Lemma suffix_by_name (p q : Path) : name p = name q -> suffix p = suffix q.
Proof. unfold suffix. intros ->. reflexivity. Qed.

End PathFacts.

Example Path_of_examples :
  Pathlib.Path_of "pkg/sub/mod.py" = Pathlib.mkPath "" ["pkg"; "sub"; "mod.py"]
  /\ Pathlib.suffix (Pathlib.Path_of "pkg/sub/mod.py") = ".py"
  /\ Pathlib.parents (Pathlib.Path_of "pkg/sub/mod.py")
     = [Pathlib.mkPath "" ["pkg"; "sub"]; Pathlib.mkPath "" ["pkg"]; Pathlib.mkPath "" []]
  /\ Pathlib.parent (Pathlib.Path_of "pkg/py.typed") = Pathlib.mkPath "" ["pkg"]
  /\ Pathlib.suffix (Pathlib.Path_of "pkg/py.typed") = ".typed"
  /\ Pathlib.suffix (Pathlib.Path_of "pkg/.py") = ""
  /\ Pathlib.Path_of "/a//./b/" = Pathlib.mkPath "/" ["a"; "b"].
Proof. repeat split; reflexivity. Qed.

(** ** The archive scan and the typed-coverage evaluator *)

Module ScanFacts.

Import ParsePypi Spec.

Lemma classify_closed_form paths ds fs :
  classify paths ds fs
  = (ds ++ List.map Pathlib.parent (List.filter is_marker paths),
     fs ++ List.filter has_py_suffix paths).
Proof.
  revert ds fs. induction paths as [|p paths IH]; intros ds fs; simpl.
  - rewrite !app_nil_r. reflexivity.
  - unfold is_marker at 1. destruct (has_py_suffix p) eqn:Hpy; simpl.
    + rewrite IH, <- app_assoc. reflexivity.
    + destruct (String.eqb (Pathlib.name p) "py.typed") eqn:Hnm; rewrite IH; simpl.
      * rewrite <- app_assoc. reflexivity.
      * reflexivity.
Qed.

Lemma has_py_suffix_by_name p q :
  Pathlib.name p = Pathlib.name q -> has_py_suffix p = has_py_suffix q.
Proof. unfold has_py_suffix. intros H. rewrite (PathFacts.suffix_by_name p q H). reflexivity. Qed.

Lemma named_has_py_suffix p nm :
  Pathlib.name p = nm ->
  has_py_suffix p = bool_decide (Pathlib.suffix_of_name nm ∈ py_file_suffixes).
Proof. unfold has_py_suffix, Pathlib.suffix. intros ->. reflexivity. Qed.

Lemma marker_not_source p : Pathlib.name p = "py.typed" -> has_py_suffix p = false.
Proof. intros H. rewrite (named_has_py_suffix p _ H). reflexivity. Qed.

Lemma init_py_is_source p : Pathlib.name p = "__init__.py" -> has_py_suffix p = true.
Proof. intros H. rewrite (named_has_py_suffix p _ H). reflexivity. Qed.

Lemma init_pyi_is_source p : Pathlib.name p = "__init__.pyi" -> has_py_suffix p = true.
Proof. intros H. rewrite (named_has_py_suffix p _ H). reflexivity. Qed.

(** Both branches of [path_iter] yield the paths of the file entries that
    are not placeholder inits, in archive order. *)
Lemma path_iter_files source :
  path_iter source
  = List.map (fun f => Pathlib.Path_of (fst f))
             (List.filter (fun f => negb (is_placeholder_init f)) (files source)).
Proof.
  destruct source as [l | l]; simpl.
  - induction l as [|z l IH]; simpl; [reflexivity|].
    unfold zip_keep at 1. destruct (Zipfile.is_dir z); simpl; [exact IH|].
    unfold is_placeholder_init at 1, file_name; simpl.
    destruct (negb _); simpl; [f_equal|]; exact IH.
  - induction l as [|t l IH]; simpl; [reflexivity|].
    unfold tar_keep at 1. destruct (Tarfile.isfile t); simpl; [|exact IH].
    unfold is_placeholder_init at 1, file_name; simpl.
    destruct (negb _); simpl; [f_equal|]; exact IH.
Qed.

Lemma scanned_files_spec source : scanned_files source = source_files source.
Proof.
  unfold scanned_files, source_files.
  rewrite classify_closed_form, path_iter_files. reflexivity.
Qed.

Lemma scanned_dirs_spec source : scanned_dirs source = marker_dirs source.
Proof.
  unfold scanned_dirs, marker_dirs.
  rewrite classify_closed_form, path_iter_files. simpl.
  induction (files source) as [|f fl IH]; simpl; [reflexivity|].
  destruct (String.eqb (file_name f) "py.typed") eqn:Hnm.
  - apply String.eqb_eq in Hnm.
    assert (is_placeholder_init f = false) as ->.
    { unfold is_placeholder_init. rewrite Hnm. reflexivity. }
    simpl. unfold is_marker at 1.
    rewrite (marker_not_source _ Hnm). fold (file_name f). rewrite Hnm. simpl.
    f_equal. exact IH.
  - destruct (negb (is_placeholder_init f)); simpl; [|exact IH].
    unfold is_marker at 1. fold (file_name f). rewrite Hnm, andb_false_r. exact IH.
Qed.

Lemma covered_spec ds p :
  covered ds p = true <-> exists d, In d ds /\ is_ancestor d p.
Proof.
  unfold covered. rewrite List.existsb_exists.
  split; intros (d & Hin & H); exists d; (split; [exact Hin|]);
    apply PathFacts.in_parents_spec; exact H.
Qed.

Lemma check_all_spec ds fs :
  check_all ds fs = true <-> forall p, In p fs -> exists d, In d ds /\ is_ancestor d p.
Proof.
  induction fs as [|p fs IH]; simpl.
  - split; [intros _ q []|reflexivity].
  - destruct (covered ds p) eqn:Hc; simpl.
    + rewrite IH. split.
      * intros H q [<- | Hq]; [apply covered_spec; exact Hc | apply H; exact Hq].
      * intros H q Hq. apply H. right. exact Hq.
    + split; [discriminate|]. intros H.
      assert (covered ds p = true) as Hc' by (apply covered_spec, H; left; reflexivity).
      congruence.
Qed.

Lemma evaluator_unfold source :
  all_py_files_in_source_are_in_py_typed_dirs source
  = match scanned_dirs source, scanned_files source with
    | [], _ | _, [] => false
    | ds, fs => check_all ds fs
    end.
Proof.
  unfold all_py_files_in_source_are_in_py_typed_dirs, scanned_dirs, scanned_files.
  destruct (classify (path_iter source) [] []) as [ds fs]; simpl.
  destruct ds, fs; reflexivity.
Qed.

Lemma evaluator_spec source :
  all_py_files_in_source_are_in_py_typed_dirs source = true
  <-> marker_dirs source <> [] /\ source_files source <> [] /\ all_covered source.
Proof.
  rewrite evaluator_unfold, scanned_dirs_spec, scanned_files_spec. unfold all_covered.
  destruct (marker_dirs source) as [|d ds] eqn:Hd.
  { split; [discriminate | intros [H _]; congruence]. }
  destruct (source_files source) as [|p fs] eqn:Hf.
  { split; [discriminate | intros (_ & H & _); congruence]. }
  rewrite check_all_spec. split.
  - intros H. repeat split; [discriminate | discriminate | exact H].
  - intros (_ & _ & H). exact H.
Qed.

End ScanFacts.

(** C1. For every archive, zip or tar, the typed-coverage evaluator returns
    true if and only if there is at least one marker directory (a parent of
    a file named [py.typed]), there is at least one Python source file
    (suffix [.py] or [.pyi], zero-size [__init__.py] placeholders excluded),
    and every source file has a marker directory among its ancestors, the
    direct parent included; otherwise, in particular when one source file
    has no such ancestor, it returns false. *)
Theorem C1_evaluator_iff_covered (source : ParsePypi.Source) :
  (ParsePypi.all_py_files_in_source_are_in_py_typed_dirs source = true
   <-> Spec.marker_dirs source <> []
       /\ Spec.source_files source <> []
       /\ forall p, In p (Spec.source_files source) ->
            exists d, In d (Spec.marker_dirs source) /\ Spec.is_ancestor d p)
  /\ (forall p, In p (Spec.source_files source) ->
        (forall d, In d (Spec.marker_dirs source) -> ~ Spec.is_ancestor d p) ->
        ParsePypi.all_py_files_in_source_are_in_py_typed_dirs source = false)
  /\ (forall p, Pathlib.parts p <> [] -> Spec.is_ancestor (Pathlib.parent p) p).
Proof.
  split; [apply ScanFacts.evaluator_spec|]. split.
  - intros p Hp Hnone.
    destruct (ParsePypi.all_py_files_in_source_are_in_py_typed_dirs source) eqn:E;
      [|reflexivity].
    apply ScanFacts.evaluator_spec in E as (_ & _ & Hall).
    destruct (Hall p Hp) as (d & Hd & Hanc). destruct (Hnone d Hd Hanc).
  - apply PathFacts.parent_is_ancestor.
Qed.

Module InitFacts.

Import ParsePypi Spec.

Lemma adds_file_files src f sz src' :
  adds_file src f sz src' ->
  exists pre post, files src = pre ++ post /\ files src' = pre ++ (f, sz) :: post.
Proof.
  intros H. destruct H as [pre post e He | pre post e He]; simpl.
  - exists (List.map (fun z => (Zipfile.filename z, Zipfile.file_size z))
                     (List.filter (fun z => negb (Zipfile.is_dir z)) pre)),
           (List.map (fun z => (Zipfile.filename z, Zipfile.file_size z))
                     (List.filter (fun z => negb (Zipfile.is_dir z)) post)).
    rewrite !List.filter_app, !List.map_app. simpl. rewrite He. simpl. split; reflexivity.
  - exists (List.map (fun t => (Tarfile.name t, Tarfile.size t))
                     (List.filter Tarfile.isfile pre)),
           (List.map (fun t => (Tarfile.name t, Tarfile.size t))
                     (List.filter Tarfile.isfile post)).
    rewrite !List.filter_app, !List.map_app. simpl. rewrite He. simpl. split; reflexivity.
Qed.

Lemma source_files_eq src : source_files src = files_sources (files src).
Proof. reflexivity. Qed.

Lemma marker_dirs_eq src : marker_dirs src = files_markers (files src).
Proof. reflexivity. Qed.

Lemma files_sources_app l1 l2 :
  files_sources (l1 ++ l2) = files_sources l1 ++ files_sources l2.
Proof. unfold files_sources. rewrite List.filter_app, List.map_app, List.filter_app. reflexivity. Qed.

Lemma files_markers_app l1 l2 :
  files_markers (l1 ++ l2) = files_markers l1 ++ files_markers l2.
Proof. unfold files_markers. rewrite List.filter_app, List.map_app. reflexivity. Qed.

Lemma files_sources_init f sz :
  file_name (f, sz) = "__init__.py" ->
  files_sources [(f, sz)] = if sz =? 0 then [] else [Pathlib.Path_of f].
Proof.
  intros Hnm. unfold files_sources, is_placeholder_init. simpl. rewrite Hnm. simpl.
  destruct (sz =? 0); simpl; [reflexivity|].
  rewrite (ScanFacts.init_py_is_source (Pathlib.Path_of f) Hnm). reflexivity.
Qed.

Lemma files_markers_other f sz :
  file_name (f, sz) <> "py.typed" -> files_markers [(f, sz)] = [].
Proof.
  intros Hnm. unfold files_markers. simpl.
  apply String.eqb_neq in Hnm. rewrite Hnm. reflexivity.
Qed.

Lemma evaluator_by_lists src src' :
  scanned_dirs src' = scanned_dirs src ->
  scanned_files src' = scanned_files src ->
  all_py_files_in_source_are_in_py_typed_dirs src'
  = all_py_files_in_source_are_in_py_typed_dirs src.
Proof. intros Hd Hf. rewrite !ScanFacts.evaluator_unfold, Hd, Hf. reflexivity. Qed.

Lemma uncovered_file_fails source p :
  In p (scanned_files source) ->
  (forall d, In d (marker_dirs source) -> ~ is_ancestor d p) ->
  all_py_files_in_source_are_in_py_typed_dirs source = false.
Proof.
  intros Hp Hnone.
  destruct (all_py_files_in_source_are_in_py_typed_dirs source) eqn:E; [|reflexivity].
  apply ScanFacts.evaluator_spec in E as (_ & _ & Hall).
  rewrite ScanFacts.scanned_files_spec in Hp.
  destruct (Hall p Hp) as (d & Hd & Hanc). destruct (Hnone d Hd Hanc).
Qed.

Lemma source_file_scanned source f sz :
  In (f, sz) (files source) ->
  is_placeholder_init (f, sz) = false ->
  has_py_suffix (Pathlib.Path_of f) = true ->
  In (Pathlib.Path_of f) (scanned_files source).
Proof.
  intros Hin Hph Hpy. rewrite ScanFacts.scanned_files_spec. unfold source_files.
  apply List.filter_In. split; [|exact Hpy].
  apply List.in_map_iff. exists (f, sz). split; [reflexivity|].
  apply List.filter_In. split; [exact Hin|]. rewrite Hph. reflexivity.
Qed.

End InitFacts.

(** C2. A file named [__init__.py] is left out of the list of source files
    exactly when its size is zero.  So adding a zero-size [__init__.py] to
    an archive, wherever it lies, leaves the result of the evaluator as it
    was (true stays true), while adding an [__init__.py] of another size
    outside every marker directory's subtree makes the result false. *)
Theorem C2_zero_size_init_is_skipped
    (src : ParsePypi.Source) (f : string) (sz : Z) (src' : ParsePypi.Source) :
  Spec.adds_file src f sz src' ->
  Pathlib.name (Pathlib.Path_of f) = "__init__.py" ->
  (exists before after,
      Spec.scanned_files src = before ++ after
      /\ Spec.scanned_files src'
         = before ++ (if sz =? 0 then [] else [Pathlib.Path_of f]) ++ after)
  /\ Spec.scanned_dirs src' = Spec.scanned_dirs src
  /\ (sz = 0 ->
      ParsePypi.all_py_files_in_source_are_in_py_typed_dirs src'
      = ParsePypi.all_py_files_in_source_are_in_py_typed_dirs src)
  /\ (sz <> 0 ->
      (forall d, In d (Spec.marker_dirs src) -> ~ Spec.is_ancestor d (Pathlib.Path_of f)) ->
      ParsePypi.all_py_files_in_source_are_in_py_typed_dirs src' = false).
Proof.
  intros Hadd Hnm.
  destruct (InitFacts.adds_file_files _ _ _ _ Hadd) as (pre & post & Hsrc & Hsrc').
  assert (Hfiles : Spec.scanned_files src
                   = Spec.files_sources pre ++ Spec.files_sources post).
  { rewrite ScanFacts.scanned_files_spec, InitFacts.source_files_eq, Hsrc.
    apply InitFacts.files_sources_app. }
  assert (Hfiles' : Spec.scanned_files src'
                    = Spec.files_sources pre
                      ++ (if sz =? 0 then [] else [Pathlib.Path_of f])
                      ++ Spec.files_sources post).
  { rewrite ScanFacts.scanned_files_spec, InitFacts.source_files_eq, Hsrc'.
    replace (pre ++ (f, sz) :: post) with (pre ++ [(f, sz)] ++ post) by reflexivity.
    rewrite !InitFacts.files_sources_app, (InitFacts.files_sources_init f sz Hnm).
    reflexivity. }
  assert (Hdirs : Spec.scanned_dirs src' = Spec.scanned_dirs src).
  { rewrite !ScanFacts.scanned_dirs_spec, !InitFacts.marker_dirs_eq, Hsrc, Hsrc'.
    replace (pre ++ (f, sz) :: post) with (pre ++ [(f, sz)] ++ post) by reflexivity.
    rewrite !InitFacts.files_markers_app, InitFacts.files_markers_other; [reflexivity|].
    unfold Spec.file_name. simpl. rewrite Hnm. discriminate. }
  split; [eauto|]. split; [exact Hdirs|]. split.
  - intros ->. apply InitFacts.evaluator_by_lists; [exact Hdirs|].
    rewrite Hfiles', Hfiles. reflexivity.
  - intros Hsz Hout. apply (InitFacts.uncovered_file_fails src' (Pathlib.Path_of f)).
    + rewrite Hfiles'. apply Z.eqb_neq in Hsz. rewrite Hsz.
      apply List.in_or_app. right. left. reflexivity.
    + rewrite <- ScanFacts.scanned_dirs_spec, Hdirs, ScanFacts.scanned_dirs_spec.
      exact Hout.
Qed.

(** C10. Only the name [__init__.py] is eligible for the placeholder
    exclusion: a file of any other name with suffix [.py] or [.pyi] is a
    source file whatever its size, and so is a zero-size [__init__.pyi];
    when such an [__init__.pyi] lies outside every marker directory's
    subtree the evaluator returns false. *)
Theorem C10_init_pyi_is_not_a_placeholder (source : ParsePypi.Source) :
  (forall f sz,
      In (f, sz) (Spec.files source) ->
      Pathlib.name (Pathlib.Path_of f) <> "__init__.py" ->
      ParsePypi.has_py_suffix (Pathlib.Path_of f) = true ->
      In (Pathlib.Path_of f) (Spec.scanned_files source))
  /\ (forall f,
      In (f, 0) (Spec.files source) ->
      Pathlib.name (Pathlib.Path_of f) = "__init__.pyi" ->
      In (Pathlib.Path_of f) (Spec.scanned_files source)
      /\ ((forall d, In d (Spec.marker_dirs source) ->
             ~ Spec.is_ancestor d (Pathlib.Path_of f)) ->
          ParsePypi.all_py_files_in_source_are_in_py_typed_dirs source = false)).
Proof.
  assert (Hgen : forall f sz,
      In (f, sz) (Spec.files source) ->
      Pathlib.name (Pathlib.Path_of f) <> "__init__.py" ->
      ParsePypi.has_py_suffix (Pathlib.Path_of f) = true ->
      In (Pathlib.Path_of f) (Spec.scanned_files source)).
  { intros f sz Hin Hnm Hpy. apply (InitFacts.source_file_scanned source f sz Hin); [|exact Hpy].
    unfold Spec.is_placeholder_init, Spec.file_name. simpl.
    apply String.eqb_neq in Hnm. rewrite Hnm. reflexivity. }
  split; [exact Hgen|].
  intros f Hin Hnm.
  assert (Hscanned : In (Pathlib.Path_of f) (Spec.scanned_files source)).
  { apply (Hgen f 0 Hin).
    - rewrite Hnm. discriminate.
    - apply ScanFacts.init_pyi_is_source. exact Hnm. }
  split; [exact Hscanned|].
  intros Hout. apply (InitFacts.uncovered_file_fails source _ Hscanned Hout).
Qed.

Module ScanExamples.

Import ParsePypi.

Definition marker := Zipfile.mkZipInfo "pkg/py.typed" 0 false.
Definition module := Zipfile.mkZipInfo "pkg/sub/mod.py" 120 false.
Definition package_dir := Zipfile.mkZipInfo "pkg/" 0 true.
Definition stray := Zipfile.mkZipInfo "tests/test_mod.py" 300 false.
Definition empty_init := Zipfile.mkZipInfo "tests/__init__.py" 0 false.
Definition filled_init := Zipfile.mkZipInfo "tests/__init__.py" 17 false.
Definition empty_init_stub := Tarfile.mkTarInfo "pkg-1.0/tests/__init__.pyi" 0 true.
Definition tar_marker := Tarfile.mkTarInfo "pkg-1.0/pkg/py.typed" 0 true.
Definition tar_module := Tarfile.mkTarInfo "pkg-1.0/pkg/mod.py" 40 true.

Lemma not_ancestor_by_computation d p :
  Pathlib.in_parents d p = false -> ~ Spec.is_ancestor d p.
Proof. intros H Hanc. apply PathFacts.in_parents_spec in Hanc. congruence. Qed.

End ScanExamples.

Lemma C1_witness :
  ParsePypi.all_py_files_in_source_are_in_py_typed_dirs
    (ParsePypi.ZipFile [ScanExamples.package_dir; ScanExamples.marker; ScanExamples.module]) = true
  /\ ParsePypi.all_py_files_in_source_are_in_py_typed_dirs
       (ParsePypi.ZipFile [ScanExamples.marker; ScanExamples.module; ScanExamples.stray]) = false.
Proof.
  split.
  - apply (proj1 (C1_evaluator_iff_covered _)).
    split; [discriminate|]. split; [discriminate|].
    intros p [<- | []]. exists (Pathlib.mkPath "" ["pkg"]).
    split; [left; reflexivity|].
    apply PathFacts.in_parents_spec. reflexivity.
  - apply (proj1 (proj2 (C1_evaluator_iff_covered _)) (Pathlib.Path_of "tests/test_mod.py")).
    + right. left. reflexivity.
    + intros d [<- | []]. apply ScanExamples.not_ancestor_by_computation. reflexivity.
Defined.

Lemma C2_witness :
  ParsePypi.all_py_files_in_source_are_in_py_typed_dirs
    (ParsePypi.ZipFile [ScanExamples.marker; ScanExamples.empty_init; ScanExamples.module]) = true
  /\ ParsePypi.all_py_files_in_source_are_in_py_typed_dirs
       (ParsePypi.ZipFile [ScanExamples.marker; ScanExamples.filled_init; ScanExamples.module]) = false.
Proof.
  split.
  - destruct (C2_zero_size_init_is_skipped _ _ _ _
                (Spec.adds_zip [ScanExamples.marker] [ScanExamples.module]
                               ScanExamples.empty_init eq_refl) eq_refl)
      as (_ & _ & Hzero & _).
    etransitivity; [exact (Hzero eq_refl) | reflexivity].
  - destruct (C2_zero_size_init_is_skipped _ _ _ _
                (Spec.adds_zip [ScanExamples.marker] [ScanExamples.module]
                               ScanExamples.filled_init eq_refl) eq_refl)
      as (_ & _ & _ & Hfilled).
    apply Hfilled; [discriminate|].
    intros d [<- | []]. apply ScanExamples.not_ancestor_by_computation. reflexivity.
Defined.

Lemma C10_witness :
  ParsePypi.all_py_files_in_source_are_in_py_typed_dirs
    (ParsePypi.TarFile [ScanExamples.tar_marker; ScanExamples.tar_module;
                        ScanExamples.empty_init_stub]) = false.
Proof.
  destruct (C10_init_pyi_is_not_a_placeholder
              (ParsePypi.TarFile [ScanExamples.tar_marker; ScanExamples.tar_module;
                                  ScanExamples.empty_init_stub])) as [_ H].
  destruct (H "pkg-1.0/tests/__init__.pyi") as [_ Hfalse].
  - right. right. left. reflexivity.
  - reflexivity.
  - apply Hfalse. intros d [<- | []].
    apply ScanExamples.not_ancestor_by_computation. reflexivity.
Defined.

(** ** The release resolver *)

Module ResolverFacts.

Import ParsePypi.

Lemma last_item_snoc {A} (l : list A) (x : A) : Builtins.last_item (l ++ [x]) = Some x.
Proof.
  unfold Builtins.last_item. rewrite List.map_app. simpl. apply List.last_last.
Qed.

Lemma last_item_nil_iff {A} (l : list A) : Builtins.last_item l = None <-> l = [].
Proof.
  split; [|intros ->; reflexivity].
  destruct l as [|x l] using List.rev_ind; [reflexivity|].
  rewrite last_item_snoc. discriminate.
Qed.

Lemma last_item_app {A} (l1 l2 : list A) :
  Builtins.last_item (l1 ++ l2)
  = match Builtins.last_item l2 with
    | Some x => Some x
    | None => Builtins.last_item l1
    end.
Proof.
  destruct l2 as [|x l2] using List.rev_ind.
  - rewrite app_nil_r. reflexivity.
  - rewrite app_assoc, !last_item_snoc. reflexivity.
Qed.

Lemma last_item_In {A} (l : list A) (x : A) : Builtins.last_item l = Some x -> In x l.
Proof.
  destruct l as [|y l] using List.rev_ind; [discriminate|].
  rewrite last_item_snoc. intros [= ->]. apply List.in_or_app. right. left. reflexivity.
Qed.

Section Partition.
Context {A : Type} (key : A -> bool).

Lemma insert_by_low (x : A) (l : list A) :
  key x = false -> Builtins.insert_by key Builtins.bool_leb x l = x :: l.
Proof. intros Hx. destruct l as [|y l]; simpl; [reflexivity|]. rewrite Hx. reflexivity. Qed.

Lemma insert_by_high (x : A) (lo hi : list A) :
  key x = true ->
  Forall (fun y => key y = false) lo ->
  Forall (fun y => key y = true) hi ->
  Builtins.insert_by key Builtins.bool_leb x (lo ++ hi) = lo ++ x :: hi.
Proof.
  intros Hx Hlo Hhi. induction Hlo as [|y lo Hy Hlo IH]; simpl.
  - destruct Hhi as [|z hi Hz Hhi]; simpl; [reflexivity|]. rewrite Hx, Hz. reflexivity.
  - rewrite Hx, Hy. simpl. f_equal. exact IH.
Qed.

(** Sorting by a boolean key is the stable partition: the elements with key
    [False] in their order, then those with key [True] in theirs. *)
Lemma sorted_by_bool (l : list A) :
  Builtins.sorted key Builtins.bool_leb l
  = List.filter (fun x => negb (key x)) l ++ List.filter key l.
Proof.
  induction l as [|x l IH]; simpl; [reflexivity|].
  rewrite IH. destruct (key x) eqn:Hx; simpl.
  - apply insert_by_high; [exact Hx | |].
    + apply List.Forall_forall. intros y Hy. apply List.filter_In in Hy as [_ Hy].
      destruct (key y); [discriminate | reflexivity].
    + apply List.Forall_forall. intros y Hy. apply List.filter_In in Hy as [_ Hy]. exact Hy.
  - apply insert_by_low. exact Hx.
Qed.

Lemma filter_all (P : A -> bool) (l : list A) :
  (forall x, In x l -> P x = true) -> List.filter P l = l.
Proof.
  induction l as [|x l IH]; simpl; intros H; [reflexivity|].
  rewrite (H x (or_introl eq_refl)). f_equal. apply IH. intros y Hy. apply H. right. exact Hy.
Qed.

Lemma filter_none (P : A -> bool) (l : list A) :
  (forall x, In x l -> P x = false) -> List.filter P l = [].
Proof.
  induction l as [|x l IH]; simpl; intros H; [reflexivity|].
  rewrite (H x (or_introl eq_refl)). apply IH. intros y Hy. apply H. right. exact Hy.
Qed.

End Partition.

Lemma select_release_partition rels :
  select_release rels
  = match Builtins.last_item (List.filter is_wheel rels) with
    | Some w => Some w
    | None => Builtins.last_item (List.filter (fun x => negb (is_wheel x)) rels)
    end.
Proof. unfold select_release. rewrite sorted_by_bool. apply last_item_app. Qed.

Lemma select_release_In rels r : select_release rels = Some r -> In r rels.
Proof.
  rewrite select_release_partition.
  destruct (Builtins.last_item (List.filter is_wheel rels)) as [w|] eqn:Hw.
  - intros [= <-]. apply last_item_In in Hw. apply List.filter_In in Hw as [H _]. exact H.
  - intros H. apply last_item_In in H. apply List.filter_In in H as [H _]. exact H.
Qed.

Lemma select_release_wheel rels :
  (exists w, In w rels /\ is_wheel w = true) ->
  exists r, select_release rels = Some r /\ is_wheel r = true
            /\ Builtins.last_item (List.filter is_wheel rels) = Some r.
Proof.
  intros (w & Hin & Hw). rewrite select_release_partition.
  destruct (Builtins.last_item (List.filter is_wheel rels)) as [r|] eqn:Hr.
  - exists r. split; [reflexivity|]. split; [|reflexivity].
    apply last_item_In in Hr. apply List.filter_In in Hr as [_ H]. exact H.
  - apply last_item_nil_iff in Hr.
    assert (In w (List.filter is_wheel rels)) as Hf by (apply List.filter_In; auto).
    rewrite Hr in Hf. destruct Hf.
Qed.

Lemma select_release_no_wheel rels :
  (forall x, In x rels -> is_wheel x = false) ->
  select_release rels = Builtins.last_item rels.
Proof.
  intros Hno. rewrite select_release_partition.
  rewrite (filter_none is_wheel rels Hno). simpl.
  rewrite filter_all; [reflexivity|]. intros x Hx. rewrite (Hno x Hx). reflexivity.
Qed.

End ResolverFacts.

(** C3, as the code has it.  For every non-empty list of release
    descriptors of the latest version the resolver returns the last element
    of the list sorted stably by the boolean [packagetype = bdist_wheel]:
    the last wheel of the list when it holds a wheel, and otherwise the last
    descriptor of the list, which is a source distribution when the list
    holds nothing but wheels and source distributions.  Given
    [sdist; wheel] it selects the wheel, given [sdist] the sdist; the
    selection is a function of the list. *)
Theorem C3_resolver_prefers_last_wheel (package : string) :
  (forall (j : PypiApi.Metadata) (rels : list PypiApi.Release),
      PypiApi.releases j !! PypiApi.version j = Some rels ->
      rels <> [] ->
      exists r,
        ParsePypi.select_release rels = Some r
        /\ ParsePypi.resolve package j = ParsePypi.Ok (Spec.download_of package r)
        /\ In r rels
        /\ ((exists w, In w rels /\ ParsePypi.is_wheel w = true) ->
            ParsePypi.is_wheel r = true
            /\ Builtins.last_item (List.filter ParsePypi.is_wheel rels) = Some r)
        /\ ((forall x, In x rels -> ParsePypi.is_wheel x = false) ->
            Builtins.last_item rels = Some r
            /\ ((forall x, In x rels ->
                   PypiApi.packagetype x = "bdist_wheel" \/ PypiApi.packagetype x = "sdist") ->
                PypiApi.packagetype r = "sdist")))
  /\ (forall s w,
        PypiApi.packagetype s = "sdist" ->
        PypiApi.packagetype w = "bdist_wheel" ->
        ParsePypi.select_release [s; w] = Some w
        /\ ParsePypi.select_release [s] = Some s)
  /\ (forall rels,
        ParsePypi.select_release rels
        = Builtins.last_item (List.filter (fun x => negb (ParsePypi.is_wheel x)) rels
                              ++ List.filter ParsePypi.is_wheel rels)).
Proof.
  split; [|split].
  - intros j rels Hlookup Hne.
    assert (exists r, ParsePypi.select_release rels = Some r) as [r Hr].
    { destruct (ParsePypi.select_release rels) as [r|] eqn:E; [eauto|].
      rewrite ResolverFacts.select_release_partition in E.
      destruct (Builtins.last_item (List.filter ParsePypi.is_wheel rels)) eqn:Hw;
        [discriminate|].
      apply ResolverFacts.last_item_nil_iff in Hw, E.
      destruct rels as [|x rels]; [congruence|]. simpl in Hw, E.
      destruct (ParsePypi.is_wheel x); discriminate. }
    exists r. split; [exact Hr|]. split.
    { unfold ParsePypi.resolve. rewrite Hlookup, Hr. reflexivity. }
    split; [apply ResolverFacts.select_release_In; exact Hr|]. split.
    { intros Hw. destruct (ResolverFacts.select_release_wheel rels Hw) as (r' & Hr' & Hk & Hl).
      rewrite Hr in Hr'. injection Hr' as <-. split; assumption. }
    intros Hno. rewrite (ResolverFacts.select_release_no_wheel rels Hno) in Hr.
    split; [exact Hr|]. intros Hkinds.
    apply ResolverFacts.last_item_In in Hr.
    destruct (Hkinds r Hr) as [Hk | Hk]; [|exact Hk].
    specialize (Hno r Hr). unfold ParsePypi.is_wheel in Hno. rewrite Hk in Hno. discriminate.
  - intros s w Hs Hw. unfold ParsePypi.select_release. simpl.
    unfold ParsePypi.is_wheel. rewrite Hs, Hw. simpl. split; reflexivity.
  - intros rels. unfold ParsePypi.select_release.
    rewrite ResolverFacts.sorted_by_bool. reflexivity.
Qed.

Lemma C3_witness :
  exists r,
    ParsePypi.select_release [Spec.sdist_release; Spec.wheel_release; Spec.egg_release]
    = Some r
    /\ ParsePypi.is_wheel r = true.
Proof.
  destruct (C3_resolver_prefers_last_wheel "p") as [H _].
  destruct (H (PypiApi.mkMetadata
                 {[ "1.0" := [Spec.sdist_release; Spec.wheel_release; Spec.egg_release] ]} "1.0")
              [Spec.sdist_release; Spec.wheel_release; Spec.egg_release])
    as (r & Hr & _ & _ & Hwheel & _).
  - reflexivity.
  - discriminate.
  - exists r. split; [exact Hr|]. apply Hwheel.
    exists Spec.wheel_release. split; [right; left; reflexivity | reflexivity].
Defined.

(** C3 as the specification words it, with a source distribution as the
    fallback in every case, fails on a latest version published only as an
    egg: no wheel is present, and the selected release is not a source
    distribution. *)
Lemma C3_counterexample :
  ~ (forall rels : list PypiApi.Release, rels <> [] ->
       exists r, ParsePypi.select_release rels = Some r
                 /\ ((exists w, In w rels /\ ParsePypi.is_wheel w = true) ->
                     ParsePypi.is_wheel r = true)
                 /\ ((forall w, In w rels -> ParsePypi.is_wheel w = false) ->
                     PypiApi.packagetype r = "sdist")).
Proof.
  intros H. destruct (H [Spec.egg_release]) as (r & Hr & _ & Hsdist); [discriminate|].
  vm_compute in Hr. injection Hr as <-.
  assert (PypiApi.packagetype Spec.egg_release = "sdist") as Habs.
  { apply Hsdist. intros w [<- | []]. reflexivity. }
  discriminate Habs.
Qed.

(** ** Tasks: running them and reasoning on their effects *)

Module TaskFacts.

Import ParsePypi Spec.

Section Run.
Context (net : nat -> string -> Aiohttp.Reply) (owner : string).

Lemma run_bind {A B} (t : Task A) (f : A -> Task B) w :
  run net owner (bind t f) w
  = match run net owner t w with
    | (Ok a, w1) => run net owner (f a) w1
    | (Raised e, w1) => (Raised e, w1)
    end.
Proof.
  revert w. induction t as [a | e | url k IH | row k IH | level msg k IH]; intros w; simpl;
    try reflexivity; auto.
Qed.

Lemma run_try_except {A} (t : Task A) (h : Exn -> Task A) w :
  run net owner (try_except t h) w
  = match run net owner t w with
    | (Ok a, w1) => (Ok a, w1)
    | (Raised e, w1) => run net owner (h e) w1
    end.
Proof.
  revert w. induction t as [a | e | url k IH | row k IH | level msg k IH]; intros w; simpl;
    try reflexivity; auto.
Qed.

Lemma run_lift {A} (r : Result A) w : run net owner (lift r) w = (r, w).
Proof. destruct r; reflexivity. Qed.

Lemma run_session_get url w :
  run net owner (session_get url) w
  = (match net (length (requests w)) url with
     | Aiohttp.Received response => Ok response
     | Aiohttp.Failed reason => Raised (ClientConnectionError reason)
     end, record_request owner url w).
Proof. simpl. destruct (net _ url); reflexivity. Qed.

(** A task that writes no row leaves the output table as it is. *)
Lemma run_no_row {A} (Q : Result A -> Prop) (t : Task A) w :
  holds no_row Q t ->
  output_file (snd (run net owner t w)) = output_file w /\ Q (fst (run net owner t w)).
Proof.
  revert w. induction t as [a | e | url k IH | row k IH | level msg k IH]; intros w; simpl.
  - auto.
  - auto.
  - intros [_ Hk]. destruct (IH _ (record_request owner url w) (Hk (net (length (requests w)) url)))
      as [H1 H2]. auto.
  - intros [[] _].
  - intros [_ Hk]. destruct (IH (logging level msg w) Hk) as [H1 H2]. auto.
Qed.

End Run.

Lemma holds_mono {A} (E E' : Event -> Prop) (Q Q' : Result A -> Prop) (t : Task A) :
  (forall ev, E ev -> E' ev) -> (forall r, Q r -> Q' r) -> holds E Q t -> holds E' Q' t.
Proof.
  intros HE HQ. induction t as [a | e | url k IH | row k IH | level msg k IH]; simpl; auto.
  - intros [H1 H2]. split; auto.
  - intros [H1 H2]. split; auto.
  - intros [H1 H2]. split; auto.
Qed.

Lemma holds_bind {A B} (E : Event -> Prop) (Q : Result B -> Prop)
    (t : Task A) (f : A -> Task B) :
  holds E (fun r => match r with Ok a => holds E Q (f a) | Raised e => Q (Raised e) end) t ->
  holds E Q (bind t f).
Proof.
  induction t as [a | e | url k IH | row k IH | level msg k IH]; simpl; auto.
  - intros [H1 H2]. split; auto.
  - intros [H1 H2]. split; auto.
  - intros [H1 H2]. split; auto.
Qed.

Lemma holds_try_except {A} (E : Event -> Prop) (Q : Result A -> Prop)
    (t : Task A) (h : Exn -> Task A) :
  holds E (fun r => match r with Ok a => Q (Ok a) | Raised e => holds E Q (h e) end) t ->
  holds E Q (try_except t h).
Proof.
  induction t as [a | e | url k IH | row k IH | level msg k IH]; simpl; auto.
  - intros [H1 H2]. split; auto.
  - intros [H1 H2]. split; auto.
  - intros [H1 H2]. split; auto.
Qed.

Lemma quiet_bind {A B} (t : Task A) (f : A -> Task B) :
  holds no_row anything t -> (forall a, holds no_row anything (f a)) ->
  holds no_row anything (bind t f).
Proof.
  intros Ht Hf. apply holds_bind. revert Ht. apply holds_mono; [auto|].
  intros [a | e] _; [apply Hf | exact I].
Qed.

Lemma quiet_lift {A} (r : Result A) : holds no_row anything (lift r).
Proof. destruct r; exact I. Qed.

Lemma quiet_session_get url : holds no_row anything (session_get url).
Proof. simpl. split; [exact I|]. intros [response | reason]; exact I. Qed.

Lemma quiet_fetch package : holds no_row anything (fetch_latest_pypi_release package).
Proof.
  unfold fetch_latest_pypi_release.
  apply quiet_bind; [apply quiet_session_get|]. intros response.
  apply quiet_bind; [apply quiet_lift|]. intros _.
  apply quiet_bind; [apply quiet_lift|]. intros j. apply quiet_lift.
Qed.

Lemma quiet_release_contains r : holds no_row anything (release_contains_py_typed r).
Proof.
  unfold release_contains_py_typed.
  apply quiet_bind; [apply quiet_session_get|]. intros response. apply quiet_lift.
Qed.

Lemma quiet_is_typed_package package : holds no_row anything (is_typed_package package).
Proof.
  unfold is_typed_package. apply quiet_bind; [apply quiet_fetch|].
  intros r. apply quiet_release_contains.
Qed.

(** The stub lookup writes no row and never raises. *)
Lemma stub_lookup_returns package :
  holds no_row (fun r => exists o, r = Ok o) (has_types_stub_package package).
Proof.
  unfold has_types_stub_package. apply holds_try_except. simpl.
  split; [exact I|]. intros [response | reason]; simpl.
  - destruct (Aiohttp.status response =? 200); simpl; [eauto|].
    destruct (Aiohttp.status response =? 404); simpl; eauto.
  - split; [exact I|]. eauto.
Qed.

Lemma quiet_classify_package pkg : holds no_row anything (classify_package pkg).
Proof.
  unfold classify_package. apply quiet_bind; [apply quiet_is_typed_package|].
  intros has_py_typed. destruct (negb has_py_typed); [|exact I].
  apply quiet_bind; [|intros; exact I].
  generalize (stub_lookup_returns pkg). apply holds_mono; [auto | intros; exact I].
Qed.

(** [process_package] writes rows for its package only, and returns. *)
Lemma process_package_ok pkg i total :
  holds (rows_for pkg) returns_unit (process_package pkg i total).
Proof.
  unfold process_package. apply holds_bind, holds_try_except, holds_bind.
  generalize (quiet_classify_package pkg). apply holds_mono.
  - intros [url | row | level msg]; simpl; auto. intros [].
  - intros [[has_py_typed has_types_package] | e] _; simpl.
    + split; [reflexivity|]. split; [exact I | reflexivity].
    + split; [exact I | reflexivity].
Qed.

End TaskFacts.

(** ** The classifier orchestrator *)

Module OrchestratorFacts.

Import ParsePypi Spec.

(** A string that ends with [t] ends with the last character of [t]. *)
Lemma endswith_last s t :
  PyStr.endswith s t = true -> t <> EmptyString ->
  String.get (String.length s - 1) s = String.get (String.length t - 1) t.
Proof.
  unfold PyStr.endswith. intros H Ht.
  apply andb_true_iff in H as [Hlen Heq].
  apply Nat.leb_le in Hlen. apply String.eqb_eq in Heq.
  assert (0 < String.length t)%nat as Hpos.
  { destruct t; [congruence | simpl; lia]. }
  rewrite <- Heq at 2.
  rewrite String.substring_correct1 by lia. f_equal. lia.
Qed.

Lemma zip_is_not_tar_gz s :
  PyStr.endswith s ".zip" = true -> PyStr.endswith s ".tar.gz" = false.
Proof.
  intros Hzip. destruct (PyStr.endswith s ".tar.gz") eqn:Htar; [|reflexivity].
  apply endswith_last in Hzip; [|discriminate].
  apply endswith_last in Htar; [|discriminate].
  rewrite Hzip in Htar. discriminate Htar.
Qed.

Lemma whl_is_not_zip s :
  PyStr.endswith s ".whl" = true -> PyStr.endswith s ".zip" = false.
Proof.
  intros Hwhl. destruct (PyStr.endswith s ".zip") eqn:Hzip; [|reflexivity].
  apply endswith_last in Hwhl; [|discriminate].
  apply endswith_last in Hzip; [|discriminate].
  rewrite Hwhl in Hzip. discriminate Hzip.
Qed.

Lemma whl_is_not_tar_gz s :
  PyStr.endswith s ".whl" = true -> PyStr.endswith s ".tar.gz" = false.
Proof.
  intros Hwhl. destruct (PyStr.endswith s ".tar.gz") eqn:Htar; [|reflexivity].
  apply endswith_last in Hwhl; [|discriminate].
  apply endswith_last in Htar; [|discriminate].
  rewrite Hwhl in Htar. discriminate Htar.
Qed.

(** The scan of an archive that was opened: the verdict of the evaluator,
    which is true exactly on an archive whose source files are all
    covered. *)
Lemma scanned_verdict (result : Result bool) source :
  result = Ok (all_py_files_in_source_are_in_py_typed_dirs source) ->
  result = Ok true
  <-> marker_dirs source <> [] /\ source_files source <> [] /\ all_covered source.
Proof.
  intros ->. rewrite <- ScanFacts.evaluator_spec. split; [intros [= ->]; reflexivity|].
  intros ->. reflexivity.
Qed.

Section Run.
Context (net : nat -> string -> Aiohttp.Reply) (owner : string).

Lemma run_release_contains r w :
  run net owner (release_contains_py_typed r) w
  = (match net (length (requests w)) (url r) with
     | Aiohttp.Received response => scan_release r (Aiohttp.read response)
     | Aiohttp.Failed reason => Raised (ClientConnectionError reason)
     end, record_request owner (url r) w).
Proof.
  unfold release_contains_py_typed.
  rewrite TaskFacts.run_bind, TaskFacts.run_session_get.
  destruct (net _ (url r)); [apply TaskFacts.run_lift | reflexivity].
Qed.

Lemma run_is_typed_package pkg w :
  run net owner (is_typed_package pkg) w
  = match run net owner (fetch_latest_pypi_release pkg) w with
    | (Ok r, w1) => run net owner (release_contains_py_typed r) w1
    | (Raised e, w1) => (Raised e, w1)
    end.
Proof. unfold is_typed_package. apply TaskFacts.run_bind. Qed.

Lemma run_stub_lookup pkg w :
  let reply := net (length (requests w)) (stub_url pkg) in
  let out := run net owner (has_types_stub_package pkg) w in
  fst out = Ok (stub_verdict reply)
  /\ requests (snd out) = requests w ++ [(owner, stub_url pkg)]
  /\ output_file (snd out) = output_file w.
Proof.
  unfold has_types_stub_package, stub_url. simpl.
  destruct (net _ _) as [response | reason]; simpl.
  - destruct (Aiohttp.status response =? 200); simpl; [auto|].
    destruct (Aiohttp.status response =? 404); simpl; auto.
  - auto.
Qed.

(** When the classification raises, the task logs the error and returns. *)
Lemma run_process_failure pkg i total w e w1 :
  run net owner (is_typed_package pkg) w = (Raised e, w1) ->
  run net owner (process_package pkg i total) w
  = (Ok tt, logging ERROR (snd (error_line pkg i total)) w1).
Proof.
  intros H. unfold process_package, classify_package.
  rewrite TaskFacts.run_bind, TaskFacts.run_try_except, !TaskFacts.run_bind, H.
  reflexivity.
Qed.

(** When the scan finds no bundled typing, the stub lookup decides the
    third column of the row. *)
Lemma run_process_untyped pkg i total w w1 :
  run net owner (is_typed_package pkg) w = (Ok false, w1) ->
  exists w2,
    run net owner (process_package pkg i total) w = (Ok tt, w2)
    /\ output_file w2
       = Some (rows w1 ++ [mkRow pkg false
                             (stub_verdict (net (length (requests w1)) (stub_url pkg)))])
    /\ requests w2 = requests w1 ++ [(owner, stub_url pkg)].
Proof.
  intros H. unfold process_package, classify_package.
  rewrite TaskFacts.run_bind, TaskFacts.run_try_except, !TaskFacts.run_bind, H. simpl negb.
  cbv iota. rewrite TaskFacts.run_bind.
  destruct (run_stub_lookup pkg w1) as (Hv & Hreq & Hout).
  destruct (run net owner (has_types_stub_package pkg) w1) as [[o | e] w2] eqn:E;
    simpl in Hv, Hreq, Hout; [|discriminate].
  injection Hv as ->. simpl. eexists. split; [reflexivity|]. simpl.
  unfold rows. rewrite Hout, Hreq. auto.
Qed.

End Run.

End OrchestratorFacts.

(** C4, as the code has it.  The scan tests the package type and then the
    filename suffix.  A wheel named [.whl] and a source distribution named
    [.zip] go down the zip-entry path: the bytes are read as a zip archive
    and the verdict is that of the evaluator on its entries; a source
    distribution named [.tar.gz] goes down the tar-entry path: the verdict
    is that of the evaluator on the members of the gzipped tar archive.
    Bytes the reader rejects raise the error of the reader.  An artifact
    of any package type whose filename ends in none of the three suffixes
    raises an assertion error, and so does every other artifact that is
    none of the three pairs of type and suffix, a [.whl] file that is not
    listed as a wheel among them.  The assertion error is fatal for the
    package and nothing is retried: the artifact is requested once, the
    error is logged, no row is written and the task ends. *)
Theorem C4_dispatch_by_suffix (r : ParsePypi.PypiReleaseDownload) :
  (forall body,
      (ParsePypi.packagetype r = "bdist_wheel"
       /\ PyStr.endswith (ParsePypi.filename r) ".whl" = true)
      \/ (ParsePypi.packagetype r = "sdist"
          /\ PyStr.endswith (ParsePypi.filename r) ".zip" = true) ->
      (forall infolist,
          Aiohttp.as_zip body = Some infolist ->
          ParsePypi.scan_release r body
          = ParsePypi.Ok (ParsePypi.all_py_files_in_source_are_in_py_typed_dirs
                            (ParsePypi.ZipFile infolist))
          /\ (ParsePypi.scan_release r body = ParsePypi.Ok true
              <-> Spec.marker_dirs (ParsePypi.ZipFile infolist) <> []
                  /\ Spec.source_files (ParsePypi.ZipFile infolist) <> []
                  /\ Spec.all_covered (ParsePypi.ZipFile infolist)))
      /\ (Aiohttp.as_zip body = None ->
          ParsePypi.scan_release r body = ParsePypi.Raised ParsePypi.BadZipFile))
  /\ (forall body,
      ParsePypi.packagetype r = "sdist" ->
      PyStr.endswith (ParsePypi.filename r) ".tar.gz" = true ->
      (forall members,
          Aiohttp.as_tar_gz body = Some members ->
          ParsePypi.scan_release r body
          = ParsePypi.Ok (ParsePypi.all_py_files_in_source_are_in_py_typed_dirs
                            (ParsePypi.TarFile members))
          /\ (ParsePypi.scan_release r body = ParsePypi.Ok true
              <-> Spec.marker_dirs (ParsePypi.TarFile members) <> []
                  /\ Spec.source_files (ParsePypi.TarFile members) <> []
                  /\ Spec.all_covered (ParsePypi.TarFile members)))
      /\ (Aiohttp.as_tar_gz body = None ->
          ParsePypi.scan_release r body = ParsePypi.Raised ParsePypi.ReadError))
  /\ (Spec.unrecognised (ParsePypi.filename r)
      \/ (~ (ParsePypi.packagetype r = "bdist_wheel"
             /\ PyStr.endswith (ParsePypi.filename r) ".whl" = true)
          /\ ~ (ParsePypi.packagetype r = "sdist"
                /\ PyStr.endswith (ParsePypi.filename r) ".zip" = true)
          /\ ~ (ParsePypi.packagetype r = "sdist"
                /\ PyStr.endswith (ParsePypi.filename r) ".tar.gz" = true)) ->
      (forall body, exists msg,
          ParsePypi.scan_release r body = ParsePypi.Raised (ParsePypi.AssertionError msg))
      /\ (forall net pkg i total w w1 response,
            ParsePypi.run net pkg (ParsePypi.fetch_latest_pypi_release pkg) w
            = (ParsePypi.Ok r, w1) ->
            net (length (ParsePypi.requests w1)) (ParsePypi.url r)
            = Aiohttp.Received response ->
            ParsePypi.run net pkg (ParsePypi.process_package pkg i total) w
            = (ParsePypi.Ok tt,
               ParsePypi.mkWorld
                 (ParsePypi.requests w1 ++ [(pkg, ParsePypi.url r)])
                 (ParsePypi.output_file w1)
                 (ParsePypi.log w1 ++ [Spec.error_line pkg i total]))))
  /\ (PyStr.endswith (ParsePypi.filename r) ".whl" = true ->
      ParsePypi.packagetype r <> "bdist_wheel" ->
      forall body, exists msg,
        ParsePypi.scan_release r body = ParsePypi.Raised (ParsePypi.AssertionError msg)).
Proof.
  assert (Hzip : forall body,
             (ParsePypi.packagetype r = "bdist_wheel"
              /\ PyStr.endswith (ParsePypi.filename r) ".whl" = true)
             \/ (ParsePypi.packagetype r = "sdist"
                 /\ PyStr.endswith (ParsePypi.filename r) ".zip" = true) ->
             ParsePypi.scan_release r body
             = match Aiohttp.as_zip body with
               | Some infolist =>
                   ParsePypi.Ok (ParsePypi.all_py_files_in_source_are_in_py_typed_dirs
                                   (ParsePypi.ZipFile infolist))
               | None => ParsePypi.Raised ParsePypi.BadZipFile
               end).
  { intros body [[Hk Hs] | [Hk Hs]]; unfold ParsePypi.scan_release, ParsePypi.open_zip.
    - rewrite Hk, Hs. simpl. destruct (Aiohttp.as_zip body); reflexivity.
    - rewrite Hk, (OrchestratorFacts.zip_is_not_tar_gz _ Hs), Hs. simpl.
      destruct (Aiohttp.as_zip body); reflexivity. }
  assert (Htar : forall body,
             ParsePypi.packagetype r = "sdist" ->
             PyStr.endswith (ParsePypi.filename r) ".tar.gz" = true ->
             ParsePypi.scan_release r body
             = match Aiohttp.as_tar_gz body with
               | Some members =>
                   ParsePypi.Ok (ParsePypi.all_py_files_in_source_are_in_py_typed_dirs
                                   (ParsePypi.TarFile members))
               | None => ParsePypi.Raised ParsePypi.ReadError
               end).
  { intros body Hk Hs. unfold ParsePypi.scan_release, ParsePypi.open_tar_gz.
    rewrite Hk, Hs. simpl. destruct (Aiohttp.as_tar_gz body); reflexivity. }
  assert (Hpairs : ~ (ParsePypi.packagetype r = "bdist_wheel"
                      /\ PyStr.endswith (ParsePypi.filename r) ".whl" = true) ->
                   ~ (ParsePypi.packagetype r = "sdist"
                      /\ PyStr.endswith (ParsePypi.filename r) ".zip" = true) ->
                   ~ (ParsePypi.packagetype r = "sdist"
                      /\ PyStr.endswith (ParsePypi.filename r) ".tar.gz" = true) ->
                   forall body, exists msg,
                     ParsePypi.scan_release r body
                     = ParsePypi.Raised (ParsePypi.AssertionError msg)).
  { intros Hwhl Hzip' Htar' body. unfold ParsePypi.scan_release.
    destruct (String.eqb (ParsePypi.packagetype r) "bdist_wheel") eqn:Ew.
    - apply String.eqb_eq in Ew.
      destruct (PyStr.endswith (ParsePypi.filename r) ".whl"); [|eauto].
      destruct Hwhl. split; [exact Ew | reflexivity].
    - destruct (String.eqb (ParsePypi.packagetype r) "sdist") eqn:Es; [|eauto].
      apply String.eqb_eq in Es.
      destruct (PyStr.endswith (ParsePypi.filename r) ".tar.gz").
      { destruct Htar'. split; [exact Es | reflexivity]. }
      destruct (PyStr.endswith (ParsePypi.filename r) ".zip"); [|eauto].
      destruct Hzip'. split; [exact Es | reflexivity]. }
  assert (Hnone : Spec.unrecognised (ParsePypi.filename r)
                  \/ (~ (ParsePypi.packagetype r = "bdist_wheel"
                         /\ PyStr.endswith (ParsePypi.filename r) ".whl" = true)
                      /\ ~ (ParsePypi.packagetype r = "sdist"
                            /\ PyStr.endswith (ParsePypi.filename r) ".zip" = true)
                      /\ ~ (ParsePypi.packagetype r = "sdist"
                            /\ PyStr.endswith (ParsePypi.filename r) ".tar.gz" = true)) ->
                  forall body, exists msg,
                    ParsePypi.scan_release r body
                    = ParsePypi.Raised (ParsePypi.AssertionError msg)).
  { intros [(Hwhl & Hzip' & Htar') | (H1 & H2 & H3)]; [|exact (Hpairs H1 H2 H3)].
    apply Hpairs; intros [_ Habs]; congruence. }
  split; [|split; [|split; [split|]]].
  - intros body Hcase. specialize (Hzip body Hcase). split.
    + intros infolist Hbody. rewrite Hbody in Hzip.
      split; [exact Hzip | apply OrchestratorFacts.scanned_verdict; exact Hzip].
    + intros Hbody. rewrite Hbody in Hzip. exact Hzip.
  - intros body Hk Hs. specialize (Htar body Hk Hs). split.
    + intros members Hbody. rewrite Hbody in Htar.
      split; [exact Htar | apply OrchestratorFacts.scanned_verdict; exact Htar].
    + intros Hbody. rewrite Hbody in Htar. exact Htar.
  - exact (Hnone H).
  - intros net pkg i total w w1 response Hfetch Hreply.
    destruct (Hnone H (Aiohttp.read response)) as [msg Hmsg].
    rewrite (OrchestratorFacts.run_process_failure net pkg pkg i total w
               (ParsePypi.AssertionError msg) (ParsePypi.record_request pkg (ParsePypi.url r) w1)).
    + reflexivity.
    + rewrite OrchestratorFacts.run_is_typed_package, Hfetch,
        OrchestratorFacts.run_release_contains, Hreply, Hmsg. reflexivity.
  - intros Hwhl Hk. apply Hpairs.
    + intros [Habs _]. contradiction.
    + intros [_ Habs]. rewrite (OrchestratorFacts.whl_is_not_zip _ Hwhl) in Habs.
      discriminate Habs.
    + intros [_ Habs]. rewrite (OrchestratorFacts.whl_is_not_tar_gz _ Hwhl) in Habs.
      discriminate Habs.
Qed.

Lemma C4_witness :
  ParsePypi.run Spec.example_net "odd" (ParsePypi.process_package "odd" 1 3) Spec.fresh_world
  = (ParsePypi.Ok tt,
     ParsePypi.mkWorld
       [("odd", "https://pypi.org/pypi/odd/json");
        ("odd", "https://files.example/odd-0.3.win32.exe")]
       None
       [(ParsePypi.ERROR, "[1/3] Error processing odd")])
  /\ ParsePypi.scan_release (Spec.download_of "typed" Spec.typed_wheel)
       (Aiohttp.mkBody
          (Some [Zipfile.mkZipInfo "typed/py.typed" 0 false;
                 Zipfile.mkZipInfo "typed/core.py" 812 false])
          None)
     = ParsePypi.Ok true.
Proof.
  split.
  - destruct (C4_dispatch_by_suffix (Spec.download_of "odd" Spec.odd_installer))
      as (_ & _ & H & _).
    destruct H as [_ Hrun].
    + left. repeat split; reflexivity.
    + rewrite (Hrun Spec.example_net "odd" 1 3 Spec.fresh_world
                 (ParsePypi.record_request "odd" "https://pypi.org/pypi/odd/json"
                                           Spec.fresh_world)
                 (Aiohttp.mkResponse 200 None Spec.no_body)).
      * reflexivity.
      * vm_compute. reflexivity.
      * reflexivity.
  - destruct (C4_dispatch_by_suffix (Spec.download_of "typed" Spec.typed_wheel))
      as (H & _).
    destruct (H (Aiohttp.mkBody
                   (Some [Zipfile.mkZipInfo "typed/py.typed" 0 false;
                          Zipfile.mkZipInfo "typed/core.py" 812 false])
                   None)) as [Hscan _].
    + left. split; reflexivity.
    + destruct (Hscan _ eq_refl) as [Heq _]. rewrite Heq. vm_compute. reflexivity.
Defined.

(** C4 as the specification words it, with the suffix alone deciding the
    path, fails on a [.whl] file that the index lists as a source
    distribution: the package type is tested first, the file is not read
    as a zip archive, and the scan raises the format error although the
    bytes are a zip archive. *)
Lemma C4_counterexample :
  ~ (forall (r : ParsePypi.PypiReleaseDownload) (body : Aiohttp.Body)
            (infolist : list Zipfile.ZipInfo),
       PyStr.endswith (ParsePypi.filename r) ".whl" = true ->
       Aiohttp.as_zip body = Some infolist ->
       ParsePypi.scan_release r body
       = ParsePypi.Ok (ParsePypi.all_py_files_in_source_are_in_py_typed_dirs
                         (ParsePypi.ZipFile infolist))).
Proof.
  intros H.
  specialize (H (ParsePypi.mkDownload "demo" "https://files.example/demo-1.0-py3-none-any.whl"
                                      "sdist" "demo-1.0-py3-none-any.whl")
                (Aiohttp.mkBody (Some [Zipfile.mkZipInfo "demo/py.typed" 0 false;
                                       Zipfile.mkZipInfo "demo/core.py" 100 false])
                                None)
                [Zipfile.mkZipInfo "demo/py.typed" 0 false;
                 Zipfile.mkZipInfo "demo/core.py" 100 false]
                eq_refl eq_refl).
  vm_compute in H. discriminate H.
Qed.

(** C5. When the scan of a package returned false, the stub lookup
    requests the index document of [types-<package>] and answers [True]
    on status 200, [False] on status 404 and [None] on any other status
    and on a transport failure.  It never raises, so neither case fails
    the package: the task writes the row with that answer and returns. *)
Theorem C5_stub_lookup_verdict (net : nat -> string -> Aiohttp.Reply) (pkg : string) :
  (forall i total w w1,
      ParsePypi.run net pkg (ParsePypi.is_typed_package pkg) w = (ParsePypi.Ok false, w1) ->
      exists w2,
        ParsePypi.run net pkg (ParsePypi.process_package pkg i total) w = (ParsePypi.Ok tt, w2)
        /\ ParsePypi.requests w2 = ParsePypi.requests w1 ++ [(pkg, Spec.stub_url pkg)]
        /\ ParsePypi.output_file w2
           = Some (ParsePypi.rows w1
                   ++ [ParsePypi.mkRow pkg false
                         (Spec.stub_verdict
                            (net (length (ParsePypi.requests w1)) (Spec.stub_url pkg)))]))
  /\ (forall owner w,
        let out := ParsePypi.run net owner (ParsePypi.has_types_stub_package pkg) w in
        fst out = ParsePypi.Ok
                    (Spec.stub_verdict (net (length (ParsePypi.requests w)) (Spec.stub_url pkg)))
        /\ ParsePypi.requests (snd out) = ParsePypi.requests w ++ [(owner, Spec.stub_url pkg)]
        /\ ParsePypi.output_file (snd out) = ParsePypi.output_file w)
  /\ Spec.stub_url pkg
     = "https://pypi.org/pypi/" +:+ Urllib.quote ("types-" +:+ pkg) +:+ "/json"
  /\ (forall response,
        (Aiohttp.status response = 200 ->
         Spec.stub_verdict (Aiohttp.Received response) = Some true)
        /\ (Aiohttp.status response = 404 ->
            Spec.stub_verdict (Aiohttp.Received response) = Some false)
        /\ (Aiohttp.status response <> 200 -> Aiohttp.status response <> 404 ->
            Spec.stub_verdict (Aiohttp.Received response) = None))
  /\ (forall reason, Spec.stub_verdict (Aiohttp.Failed reason) = None).
Proof.
  split; [|split; [|split; [|split]]].
  - intros i total w w1 H.
    destruct (OrchestratorFacts.run_process_untyped net pkg pkg i total w w1 H)
      as (w2 & Hrun & Hout & Hreq).
    exists w2. auto.
  - intros owner w. apply OrchestratorFacts.run_stub_lookup.
  - reflexivity.
  - intros response. unfold Spec.stub_verdict. repeat split.
    + intros ->. reflexivity.
    + intros ->. reflexivity.
    + intros H200 H404. apply Z.eqb_neq in H200, H404. rewrite H200, H404. reflexivity.
  - reflexivity.
Qed.

Lemma C5_witness :
  exists w2,
    ParsePypi.run Spec.example_net "untyped" (ParsePypi.process_package "untyped" 2 3)
                  Spec.fresh_world
    = (ParsePypi.Ok tt, w2)
    /\ ParsePypi.output_file w2 = Some [ParsePypi.mkRow "untyped" false (Some false)].
Proof.
  destruct (C5_stub_lookup_verdict Spec.example_net "untyped") as [H _].
  destruct (H 2 3 Spec.fresh_world
              (ParsePypi.mkWorld
                 [("untyped", "https://pypi.org/pypi/untyped/json");
                  ("untyped", "https://files.example/untyped-2.1.tar.gz")] None []))
    as (w2 & Hrun & _ & Hout).
  - vm_compute. reflexivity.
  - exists w2. split; [exact Hrun|]. rewrite Hout. reflexivity.
Defined.

(** ** The batch *)

Module BatchFacts.

Import ParsePypi Spec.

Lemma extends_refl processed w : extends processed w w.
Proof.
  exists [], []. rewrite !app_nil_r. repeat split; auto.
Qed.

Lemma extends_log processed w0 w lg :
  extends processed w0 w ->
  extends processed w0 (mkWorld (requests w) (output_file w) lg).
Proof. intros H. exact H. Qed.

Lemma task_step_ok processed w0 owner t w t' w' :
  task_ok processed (owner, t) ->
  extends processed w0 w ->
  task_step owner t w t' w' ->
  task_ok processed (owner, t') /\ extends processed w0 w'.
Proof.
  intros [Hown Hok] (appended & issued & Hrows & Hfile & Hreq & Happ & Hiss) Hstep.
  simpl in Hown, Hok. destruct Hstep as [url k reply w | row k w | level msg k w]; simpl in Hok.
  - destruct Hok as [_ Hk]. split; [split; [exact Hown | apply Hk]|].
    exists appended, (issued ++ [(owner, url)]). simpl.
    rewrite Hreq, <- app_assoc. repeat split; auto.
    apply Forall_app_2; [exact Hiss|]. constructor; [exact Hown | constructor].
  - destruct Hok as [Hrow Hk]. split; [split; assumption|].
    exists (appended ++ [row]), issued.
    change (rows (append_result_to_csv row w)) with (rows w ++ [row]).
    change (requests (append_result_to_csv row w)) with (requests w).
    rewrite Hrows, <- app_assoc. repeat split; auto.
    + intros Habs. apply app_eq_nil in Habs as [_ Habs]. discriminate.
    + apply Forall_app_2; [exact Happ|]. constructor; [|constructor].
      rewrite Hrow. exact Hown.
  - destruct Hok as [_ Hk]. split; [split; assumption|].
    exists appended, issued. repeat split; auto.
Qed.

Lemma pool_step_ok processed w0 st st' :
  pool_step st st' ->
  Forall (task_ok processed) (fst st) -> extends processed w0 (snd st) ->
  Forall (task_ok processed) (fst st') /\ extends processed w0 (snd st').
Proof.
  intros Hstep. destruct Hstep as [i owner t t' w w' pool Hi _ Hstep]. simpl.
  intros Hpool Hext.
  destruct (task_step_ok processed w0 owner t w t' w'
              (Forall_lookup_1 _ _ _ _ Hpool Hi) Hext Hstep) as [Hok Hext'].
  split; [apply Forall_insert; assumption | exact Hext'].
Qed.

Lemma reachable_ok processed w0 st st' :
  rtc pool_step st st' ->
  Forall (task_ok processed) (fst st) -> extends processed w0 (snd st) ->
  Forall (task_ok processed) (fst st') /\ extends processed w0 (snd st').
Proof.
  induction 1 as [st | st st1 st2 Hstep _ IH]; [auto|].
  intros Hpool Hext.
  destruct (pool_step_ok processed w0 st st1 Hstep Hpool Hext). apply IH; assumption.
Qed.

Lemma task_ok_not_raised processed ot : task_ok processed ot -> has_raised (snd ot) = false.
Proof.
  intros [_ H]. destruct (snd ot); try reflexivity. simpl in H. discriminate H.
Qed.

Lemma pool_ok_not_raised processed (pool : Pool) :
  Forall (task_ok processed) pool -> Forall (fun ot => has_raised (snd ot) = false) pool.
Proof.
  intros H. apply List.Forall_forall. intros ot Hot.
  apply (task_ok_not_raised processed). revert ot Hot. apply List.Forall_forall. exact H.
Qed.

(** A task of the batch that has not returned can advance. *)
Lemma pool_progress processed (pool : Pool) w i owner t :
  Forall (task_ok processed) pool ->
  pool !! i = Some (owner, t) ->
  has_returned t = false ->
  exists st, pool_step (pool, w) st.
Proof.
  intros Hpool Hi Hret.
  pose proof (task_ok_not_raised _ _ (Forall_lookup_1 _ _ _ _ Hpool Hi)) as Hraise.
  simpl in Hraise. apply pool_ok_not_raised in Hpool.
  destruct t as [a | e | url k | row k | level msg k]; try discriminate.
  - eexists. eapply pool_step_at; [exact Hi | exact Hpool |].
    apply (step_get owner url k (Aiohttp.Failed EmptyString)).
  - eexists. eapply pool_step_at; [exact Hi | exact Hpool | apply step_append].
  - eexists. eapply pool_step_at; [exact Hi | exact Hpool | apply step_log].
Qed.

Lemma spawn_ok processed total packages : forall i st,
  Forall (task_ok processed) (tasks st) ->
  Forall (task_ok processed) (tasks (spawn processed total i packages st)).
Proof.
  induction packages as [|pkg rest IH]; intros i st Hst; simpl; [exact Hst|].
  destruct (bool_decide (pkg ∈ processed)) eqn:Hin; apply IH; simpl; [exact Hst|].
  apply Forall_app_2; [exact Hst|]. constructor; [|constructor].
  split; simpl.
  - apply bool_decide_eq_false in Hin. exact Hin.
  - apply TaskFacts.process_package_ok.
Qed.

Lemma main_start_ok file w :
  Forall (task_ok (load_processed_packages w)) (fst (main_start file w))
  /\ extends (load_processed_packages w) w (snd (main_start file w)).
Proof.
  unfold main_start, main_spawn. simpl. split.
  - apply spawn_ok. constructor.
  - apply extends_log, extends_refl.
Qed.

Lemma load_fold (table : list Row) : forall (acc : gset string) (x : string),
  x ∈ foldl (fun processed row => processed ∪ {[ package row ]}) acc table
  <-> x ∈ acc \/ exists row, In row table /\ package row = x.
Proof.
  induction table as [|row table IH]; intros acc x; simpl.
  - split; [auto | intros [H | (row & [] & _)]; exact H].
  - rewrite IH, elem_of_union, elem_of_singleton. split.
    + intros [[H | ->] | (row' & Hin & Heq)]; eauto.
    + intros [H | (row' & [<- | Hin] & Heq)]; eauto.
Qed.

(** The processed set holds the packages that have a row in the table. *)
Lemma load_processed_spec w x :
  x ∈ load_processed_packages w <-> exists row, In row (rows w) /\ package row = x.
Proof.
  unfold load_processed_packages, rows. destruct (output_file w) as [table|]; simpl.
  - rewrite load_fold. split; [intros [H | H]; [|exact H] | auto].
    apply not_elem_of_empty in H. destruct H.
  - split; [intros H; apply not_elem_of_empty in H; destruct H | intros (row & [] & _)].
Qed.

Section Sequential.
Context (net : nat -> string -> Aiohttp.Reply).

Lemma run_outcome {A} (E : Event -> Prop) (Q : Result A -> Prop) owner (t : Task A) w :
  holds E Q t -> Q (fst (run net owner t w)).
Proof.
  revert w. induction t as [a | e | url k IH | row k IH | level msg k IH]; intros w; simpl; auto.
  - intros [_ Hk]. apply IH, Hk.
  - intros [_ Hk]. apply IH, Hk.
  - intros [_ Hk]. apply IH, Hk.
Qed.

(** Running one task of the pool to its end is a schedule of the pool. *)
Lemma run_task_reachable owner (t : Task unit) : forall (pre post : Pool) w,
  Forall (fun ot => has_raised (snd ot) = false) pre ->
  Forall (fun ot => has_raised (snd ot) = false) post ->
  rtc pool_step (pre ++ (owner, t) :: post, w)
      (pre ++ (owner, finished (fst (run net owner t w))) :: post,
       snd (run net owner t w)).
Proof.
  assert (Hstep : forall (pre post : Pool) t t' w w',
             Forall (fun ot => has_raised (snd ot) = false) pre ->
             Forall (fun ot => has_raised (snd ot) = false) post ->
             has_raised t = false ->
             task_step owner t w t' w' ->
             pool_step (pre ++ (owner, t) :: post, w) (pre ++ (owner, t') :: post, w')).
  { intros pre post t0 t' w w' Hpre Hpost Ht Hs.
    replace (pre ++ (owner, t') :: post)
      with (<[length pre := (owner, t')]> (pre ++ (owner, t0) :: post)).
    - eapply pool_step_at; [apply list_lookup_middle; reflexivity | | exact Hs].
      apply Forall_app_2; [exact Hpre|]. constructor; [exact Ht | exact Hpost].
    - rewrite insert_app_r_alt by lia. rewrite Nat.sub_diag. reflexivity. }
  induction t as [a | e | url k IH | row k IH | level msg k IH]; intros pre post w Hpre Hpost;
    simpl.
  - apply rtc_refl.
  - apply rtc_refl.
  - eapply rtc_l; [|apply IH; assumption].
    apply Hstep; [assumption | assumption | reflexivity | apply step_get].
  - eapply rtc_l; [|apply IH; assumption].
    apply Hstep; [assumption | assumption | reflexivity | apply step_append].
  - eapply rtc_l; [|apply IH; assumption].
    apply Hstep; [assumption | assumption | reflexivity | apply step_log].
Qed.

(** Running the tasks one after the other is a schedule of the pool. *)
Lemma run_pool_reachable (pool : Pool) : forall (pre : Pool) w,
  Forall (fun ot => has_raised (snd ot) = false) pre ->
  Forall (fun ot => has_raised (snd ot) = false) pool ->
  rtc pool_step (pre ++ pool, w)
      (pre ++ fst (run_pool net pool w), snd (run_pool net pool w)).
Proof.
  induction pool as [|[owner t] rest IH]; intros pre w Hpre Hpool; simpl.
  - apply rtc_refl.
  - apply Forall_cons in Hpool as [_ Hrest].
    pose proof (run_task_reachable owner t pre rest w Hpre Hrest) as Hrun.
    destruct (run net owner t w) as [[a | e] w1]; simpl in *.
    + specialize (IH (pre ++ [(owner, Ret a)]) w1).
      destruct (run_pool net rest w1) as [rest' w2]; simpl in *.
      eapply rtc_trans; [exact Hrun|].
      rewrite <- !app_assoc in IH. apply IH; [|exact Hrest].
      apply Forall_app_2; [exact Hpre|]. constructor; [reflexivity | constructor].
    + exact Hrun.
Qed.

(** Tasks that never raise all return under the sequential schedule. *)
Lemma run_pool_returns processed (pool : Pool) : forall w,
  Forall (task_ok processed) pool ->
  Forall (fun ot => snd ot = Ret tt) (fst (run_pool net pool w)).
Proof.
  induction pool as [|[owner t] rest IH]; intros w Hpool; simpl; [constructor|].
  apply Forall_cons in Hpool as [[_ Hok] Hrest]. simpl in Hok.
  pose proof (run_outcome _ _ owner t w Hok) as Hout. unfold returns_unit in Hout.
  destruct (run net owner t w) as [r w1]. simpl in Hout. subst r.
  specialize (IH w1 Hrest). destruct (run_pool net rest w1) as [rest' w2]. simpl in *.
  constructor; [reflexivity | exact IH].
Qed.

Lemma main_seq_returns file w : fst (main_seq net file w) = Ok tt.
Proof.
  unfold main_seq.
  destruct (main_start_ok file w) as [Hpool _].
  destruct (main_start file w) as [pool w0]. simpl in Hpool.
  pose proof (run_pool_returns _ pool w0 Hpool) as Hret.
  destruct (run_pool net pool w0) as [pool' w1]. simpl in Hret.
  assert (List.find (fun ot : string * Task unit => has_raised (snd ot)) pool' = None) as ->.
  { induction Hret as [|[o t] l Ht Hl IHl]; simpl; [reflexivity|].
    simpl in Ht. subst t. exact IHl. }
  reflexivity.
Qed.

End Sequential.

End BatchFacts.

Module ContainmentFacts.

Import ParsePypi Spec.

Lemma filter_app_none {A} (P : A -> bool) (l extra : list A) :
  Forall (fun x => P x = false) extra -> List.filter P (l ++ extra) = List.filter P l.
Proof.
  intros H. rewrite List.filter_app.
  rewrite (ResolverFacts.filter_none P extra); [apply app_nil_r|].
  apply List.Forall_forall. exact H.
Qed.

Lemma seq_end_reachable net file w : rtc pool_step (main_start file w) (seq_end net file w).
Proof.
  unfold seq_end.
  pose proof (BatchFacts.pool_ok_not_raised _ _ (proj1 (BatchFacts.main_start_ok file w)))
    as Hpool.
  pose proof (BatchFacts.run_pool_reachable net (fst (main_start file w)) []
                (snd (main_start file w)) (List.Forall_nil _) Hpool) as H.
  rewrite (surjective_pairing (run_pool net (fst (main_start file w)) (snd (main_start file w)))).
  exact H.
Qed.

End ContainmentFacts.

(** C6. When the classification of a package raises, at the resolution,
    the download or the scan, the task of the package logs the error,
    writes no row and returns: the output table is as it was.  No
    exception leaves a task, so under every schedule of the batch no task
    is ever in a raised state, every task that has not returned can still
    advance, and the batch itself returns. *)
Theorem C6_failed_package_is_contained :
  (forall net pkg i total w e w1,
      ParsePypi.run net pkg (ParsePypi.is_typed_package pkg) w = (ParsePypi.Raised e, w1) ->
      ParsePypi.run net pkg (ParsePypi.process_package pkg i total) w
      = (ParsePypi.Ok tt,
         ParsePypi.mkWorld (ParsePypi.requests w1) (ParsePypi.output_file w)
                           (ParsePypi.log w1 ++ [Spec.error_line pkg i total])))
  /\ (forall pkg i total,
        Spec.holds (Spec.rows_for pkg) Spec.returns_unit (ParsePypi.process_package pkg i total))
  /\ (forall file w pool' w',
        rtc ParsePypi.pool_step (ParsePypi.main_start file w) (pool', w') ->
        Forall (fun ot => ParsePypi.has_raised (snd ot) = false) pool'
        /\ (forall i owner t,
              pool' !! i = Some (owner, t) ->
              ParsePypi.has_returned t = false ->
              exists st, ParsePypi.pool_step (pool', w') st))
  /\ (forall net file w, fst (ParsePypi.main_seq net file w) = ParsePypi.Ok tt).
Proof.
  split; [|split; [|split]].
  - intros net pkg i total w e w1 H.
    rewrite (OrchestratorFacts.run_process_failure net pkg pkg i total w e w1 H).
    destruct (TaskFacts.run_no_row net pkg Spec.anything (ParsePypi.is_typed_package pkg) w
                (TaskFacts.quiet_is_typed_package pkg)) as [Hout _].
    rewrite H in Hout. simpl in Hout. unfold ParsePypi.logging. rewrite Hout. reflexivity.
  - apply TaskFacts.process_package_ok.
  - intros file w pool' w' Hreach.
    destruct (BatchFacts.main_start_ok file w) as [Hpool Hext].
    destruct (BatchFacts.reachable_ok _ w _ _ Hreach Hpool Hext) as [Hpool' _].
    simpl in Hpool'. split.
    + apply (BatchFacts.pool_ok_not_raised _ _ Hpool').
    + intros i owner t Hi Hret.
      apply (BatchFacts.pool_progress _ pool' w' i owner t Hpool' Hi Hret).
  - apply BatchFacts.main_seq_returns.
Qed.

Lemma C6_witness :
  ParsePypi.run Spec.example_net "ghost" (ParsePypi.process_package "ghost" 1 2)
                Spec.resumed_world
  = (ParsePypi.Ok tt,
     ParsePypi.mkWorld [("ghost", "https://pypi.org/pypi/ghost/json")]
                       (Some [ParsePypi.mkRow "typed" true None])
                       [(ParsePypi.ERROR, "[1/2] Error processing ghost")])
  /\ Forall (fun ot => ParsePypi.has_raised (snd ot) = false)
            (fst (Spec.seq_end Spec.example_net ["ghost"; "untyped"] Spec.fresh_world)).
Proof.
  destruct C6_failed_package_is_contained as (Htask & _ & Hbatch & _). split.
  - rewrite (Htask Spec.example_net "ghost" 1 2 Spec.resumed_world
               (ParsePypi.ClientConnectionError "Cannot connect to host")
               (ParsePypi.mkWorld [("ghost", "https://pypi.org/pypi/ghost/json")]
                                  (Some [ParsePypi.mkRow "typed" true None]) [])).
    + reflexivity.
    + vm_compute. reflexivity.
  - apply (Hbatch ["ghost"; "untyped"] Spec.fresh_world
             (fst (Spec.seq_end Spec.example_net ["ghost"; "untyped"] Spec.fresh_world))
             (snd (Spec.seq_end Spec.example_net ["ghost"; "untyped"] Spec.fresh_world))).
    rewrite <- surjective_pairing. apply ContainmentFacts.seq_end_reachable.
Defined.

Module OnceFacts.

Import ParsePypi Spec.

Lemma quiet_writes_once {A} (t : Task A) : holds no_row anything t -> writes_once t.
Proof.
  induction t as [a | e | url k IH | row k IH | level msg k IH]; simpl; auto.
  - intros [_ Hk] reply. apply IH, Hk.
  - intros [[] _].
  - intros [_ Hk]. apply IH, Hk.
Qed.

Lemma writes_once_bind {A B} (t : Task A) (f : A -> Task B) :
  holds no_row anything t -> (forall a, writes_once (f a)) -> writes_once (bind t f).
Proof.
  intros Ht Hf. induction t as [a | e | url k IH | row k IH | level msg k IH]; simpl; auto.
  - intros reply. apply IH. apply Ht.
  - destruct Ht as [[] _].
  - apply IH. apply Ht.
Qed.

Lemma quiet_try_except {A} (t : Task A) (h : Exn -> Task A) :
  holds no_row anything t -> (forall e, holds no_row anything (h e)) ->
  holds no_row anything (try_except t h).
Proof.
  intros Ht Hh. apply TaskFacts.holds_try_except. revert Ht.
  apply TaskFacts.holds_mono; [auto|]. intros [a | e] _; [exact I | apply Hh].
Qed.

Lemma process_package_writes_once pkg i total : writes_once (process_package pkg i total).
Proof.
  unfold process_package. apply writes_once_bind.
  - apply quiet_try_except.
    + apply TaskFacts.quiet_bind; [apply TaskFacts.quiet_classify_package|]. intros r. exact I.
    + intros e. split; exact I.
  - intros [[has_py_typed has_types_package]|]; simpl; [|exact I]. split; exact I.
Qed.

Lemma same_owner_same_index (pool : Pool) i j owner t1 t2 :
  NoDup (fst <$> pool) ->
  pool !! i = Some (owner, t1) -> pool !! j = Some (owner, t2) -> i = j.
Proof.
  unfold Pool in *.
  intros Hnd Hi Hj. apply (NoDup_lookup (fst <$> pool) i j owner Hnd).
  - rewrite list_lookup_fmap, Hi. reflexivity.
  - rewrite list_lookup_fmap, Hj. reflexivity.
Qed.

Lemma task_step_quiet owner t w t' w' :
  task_step owner t w t' w' -> holds no_row anything t -> holds no_row anything t'.
Proof. intros Hs. destruct Hs; simpl; intros [H1 H2]; auto. Qed.

Lemma task_step_once owner t w t' w' :
  task_step owner t w t' w' -> writes_once t -> writes_once t'.
Proof.
  intros Hs. destruct Hs; simpl; auto. apply quiet_writes_once.
Qed.

Lemma once_step processed w0 st st' :
  pool_step st st' -> once_inv processed w0 st -> once_inv processed w0 st'.
Proof.
  intros Hstep (Hok & Honce & Hnd & appended & Hrows & Happ & Hby).
  pose proof (BatchFacts.pool_step_ok processed (snd st) st st' Hstep Hok
                (BatchFacts.extends_refl _ _)) as [Hok' _].
  destruct Hstep as [i owner t t' w w' pool Hi _ Hstep]. simpl in *. unfold Pool in *.
  pose proof (lookup_lt_Some _ _ _ Hi) as Hlt.
  assert (Hnd' : NoDup (fst <$> <[i:=(owner, t')]> pool)).
  { rewrite list_fmap_insert. simpl. rewrite list_insert_id; [exact Hnd|].
    rewrite list_lookup_fmap, Hi. reflexivity. }
  assert (Honce' : Forall (fun ot => writes_once (snd ot)) (<[i:=(owner, t')]> pool)).
  { apply Forall_insert; [exact Honce|]. simpl.
    apply (task_step_once owner t w t' w' Hstep).
    apply (Forall_lookup_1 _ _ _ _ Honce Hi). }
  assert (Hkeep : forall row, row ∈ appended ->
             (package row ∉ processed)
             /\ exists j u, <[i:=(owner, t')]> pool !! j = Some (package row, u)
                            /\ holds no_row anything u).
  { intros row Hin. destruct (Hby row Hin) as (Hnp & j & u & Hj & Hu). split; [exact Hnp|].
    destruct (decide (i = j)) as [<- | Hne].
    - rewrite Hi in Hj. injection Hj as Ho <-. exists i, t'. split.
      + rewrite list_lookup_insert_eq by exact Hlt. rewrite Ho. reflexivity.
      + apply (task_step_quiet owner t w t' w' Hstep Hu).
    - exists j, u. split; [|exact Hu]. rewrite list_lookup_insert_ne by exact Hne. exact Hj. }
  split; [exact Hok'|]. split; [exact Honce'|]. split; [exact Hnd'|].
  destruct Hstep as [url k reply w | row k w | level msg k w].
  - exists appended. split; [exact Hrows|]. split; [exact Happ | exact Hkeep].
  - assert (Htask := Forall_lookup_1 _ _ _ _ Hok Hi). destruct Htask as [Hown [Hrow _]].
    simpl in Hown, Hrow.
    assert (Hquiet : holds no_row anything k).
    { exact (Forall_lookup_1 _ _ _ _ Honce Hi). }
    exists (appended ++ [row]). cbn [fst snd].
    split; [|split].
    + change (rows (append_result_to_csv row w)) with (rows w ++ [row]).
      rewrite Hrows, <- app_assoc. reflexivity.
    + rewrite fmap_app. apply NoDup_app. split; [exact Happ|]. split; [|apply NoDup_singleton].
      intros x Hx Hx'. apply list_elem_of_singleton in Hx'. subst x.
      apply list_elem_of_fmap in Hx as (row' & Heq & Hin').
      destruct (Hby row' Hin') as (_ & j & u & Hj & Hu).
      rewrite <- Heq, Hrow in Hj.
      pose proof (same_owner_same_index pool i j owner _ _ Hnd Hi Hj) as <-.
      rewrite Hi in Hj. injection Hj as <-. destruct Hu as [[] _].
    + intros row' Hin'. apply elem_of_app in Hin' as [Hin' | Hin'].
      * apply Hkeep. exact Hin'.
      * apply list_elem_of_singleton in Hin'. subst row'. rewrite Hrow.
        split; [exact Hown|]. exists i, k. split; [|exact Hquiet].
        apply list_lookup_insert_eq. exact Hlt.
  - exists appended. split; [exact Hrows|]. split; [exact Happ | exact Hkeep].
Qed.

Lemma once_reachable processed w0 st st' :
  rtc pool_step st st' -> once_inv processed w0 st -> once_inv processed w0 st'.
Proof.
  induction 1 as [st | st st1 st2 Hstep _ IH]; [auto|].
  intros H. apply IH. apply (once_step processed w0 st st1 Hstep H).
Qed.

Lemma spawn_owners processed total packages : forall i st,
  fst <$> tasks (spawn processed total i packages st)
  = (fst <$> tasks st) ++ filter (fun pkg => pkg ∉ processed) packages.
Proof.
  induction packages as [|pkg rest IH]; intros i st; simpl.
  - rewrite app_nil_r. reflexivity.
  - destruct (decide (pkg ∈ processed)) as [Hin | Hnin].
    + rewrite bool_decide_eq_true_2 by exact Hin. rewrite IH. simpl.
      rewrite filter_cons_False by (intros H; exact (H Hin)). reflexivity.
    + rewrite bool_decide_eq_false_2 by exact Hnin. rewrite IH. simpl.
      rewrite filter_cons_True by exact Hnin.
      rewrite fmap_app, <- app_assoc. reflexivity.
Qed.

Lemma spawn_once processed total packages : forall i st,
  Forall (fun ot => writes_once (snd ot)) (tasks st) ->
  Forall (fun ot => writes_once (snd ot)) (tasks (spawn processed total i packages st)).
Proof.
  induction packages as [|pkg rest IH]; intros i st Hst; simpl; [exact Hst|].
  destruct (bool_decide (pkg ∈ processed)); apply IH; simpl; [exact Hst|].
  apply Forall_app_2; [exact Hst|]. constructor; [|constructor].
  apply process_package_writes_once.
Qed.

Lemma main_start_once file w :
  NoDup (get_package_names file (Some 100)) ->
  once_inv (load_processed_packages w) w (main_start file w).
Proof.
  intros Hnd. destruct (BatchFacts.main_start_ok file w) as [Hok _].
  split; [exact Hok|]. split; [|split].
  - apply spawn_once. constructor.
  - unfold main_start, main_spawn. simpl. rewrite spawn_owners. simpl.
    apply NoDup_filter. exact Hnd.
  - exists []. rewrite app_nil_r. split; [reflexivity|]. split; [constructor|].
    intros row Hin. apply elem_of_nil in Hin. destruct Hin.
Qed.

Lemma once_inv_table w0 st :
  once_inv (load_processed_packages w0) w0 st ->
  NoDup (package <$> rows w0) ->
  NoDup (package <$> rows (snd st)).
Proof.
  intros (_ & _ & _ & appended & Hrows & Hnd & Hby) Hnd0.
  rewrite Hrows, fmap_app. apply NoDup_app. split; [exact Hnd0|]. split; [|exact Hnd].
  intros x Hx Hx'.
  apply list_elem_of_fmap in Hx as (row0 & -> & Hin0).
  apply list_elem_of_fmap in Hx' as (row & Heq & Hin).
  destruct (Hby row Hin) as [Hnp _]. apply Hnp.
  apply BatchFacts.load_processed_spec. exists row0.
  split; [apply list_elem_of_In; exact Hin0 | exact Heq].
Qed.

End OnceFacts.

(** C7, as the code has it.  When the output table loaded at the start of
    a run holds a row for package [P], the run skips [P]: no task is
    created for it, and under every schedule the run appends no row for
    [P] and issues no request for [P], so [P] has as many rows after the
    run as before.  The processed set is read from the table once, before
    the tasks are created.  A table in which no package has two rows stays
    such a table through a run whose input list names no package twice;
    a name listed twice gets two tasks. *)
Theorem C7_processed_package_is_skipped (file : list string) (w : ParsePypi.World) :
  (forall P,
      (exists row, In row (ParsePypi.rows w) /\ ParsePypi.package row = P) ->
      P ∈ ParsePypi.load_processed_packages w
      /\ Forall (fun ot => fst ot <> P) (fst (ParsePypi.main_start file w))
      /\ forall pool' w',
           rtc ParsePypi.pool_step (ParsePypi.main_start file w) (pool', w') ->
           (exists appended issued,
               ParsePypi.rows w' = ParsePypi.rows w ++ appended
               /\ ParsePypi.requests w' = ParsePypi.requests w ++ issued
               /\ Forall (fun row => ParsePypi.package row <> P) appended
               /\ Forall (fun q => fst q <> P) issued)
           /\ Spec.rows_of P (ParsePypi.rows w') = Spec.rows_of P (ParsePypi.rows w)
           /\ Spec.requests_of P (ParsePypi.requests w')
              = Spec.requests_of P (ParsePypi.requests w)
           /\ Forall (fun ot => fst ot <> P) pool')
  /\ (NoDup (ParsePypi.get_package_names file (Some 100)) ->
      NoDup (ParsePypi.package <$> ParsePypi.rows w) ->
      forall pool' w',
        rtc ParsePypi.pool_step (ParsePypi.main_start file w) (pool', w') ->
        NoDup (ParsePypi.package <$> ParsePypi.rows w')).
Proof.
  split.
  - intros P Hrow. apply BatchFacts.load_processed_spec in Hrow as HP.
    destruct (BatchFacts.main_start_ok file w) as [Hpool Hext].
    assert (Hnot : forall (pool : ParsePypi.Pool),
               Forall (Spec.task_ok (ParsePypi.load_processed_packages w)) pool ->
               Forall (fun ot => fst ot <> P) pool).
    { intros pool H. apply List.Forall_forall. intros ot Hot.
      destruct (proj1 (List.Forall_forall _ _) H ot Hot) as [Hown _].
      intros Heq. rewrite Heq in Hown. exact (Hown HP). }
    split; [exact HP|]. split; [apply Hnot; exact Hpool|].
    intros pool' w' Hreach.
    destruct (BatchFacts.reachable_ok _ w _ _ Hreach Hpool Hext) as [Hpool' Hext'].
    simpl in Hpool', Hext'.
    destruct Hext' as (appended & issued & Hrows & _ & Hreq & Happ & Hiss).
    assert (Happ' : Forall (fun row => ParsePypi.package row <> P) appended).
    { apply List.Forall_forall. intros row Hin Heq.
      pose proof (proj1 (List.Forall_forall _ _) Happ row Hin) as Hn. simpl in Hn.
      rewrite Heq in Hn. exact (Hn HP). }
    assert (Hiss' : Forall (fun q : string * string => fst q <> P) issued).
    { apply List.Forall_forall. intros q Hin Heq.
      pose proof (proj1 (List.Forall_forall _ _) Hiss q Hin) as Hn. simpl in Hn.
      rewrite Heq in Hn. exact (Hn HP). }
    split; [exists appended, issued; auto|]. split; [|split].
    + unfold Spec.rows_of. rewrite Hrows. apply ContainmentFacts.filter_app_none.
      revert Happ'. apply List.Forall_impl. intros row Hne. apply String.eqb_neq. exact Hne.
    + unfold Spec.requests_of. rewrite Hreq. apply ContainmentFacts.filter_app_none.
      revert Hiss'. apply List.Forall_impl. intros q Hne. apply String.eqb_neq. exact Hne.
    + apply Hnot. exact Hpool'.
  - intros Hnames Htable pool' w' Hreach.
    apply (OnceFacts.once_inv_table w (pool', w')); [|exact Htable].
    apply (OnceFacts.once_reachable _ w _ _ Hreach).
    apply OnceFacts.main_start_once. exact Hnames.
Qed.

Lemma C7_witness :
  Spec.rows_of "typed"
    (ParsePypi.rows
       (snd (Spec.seq_end Spec.example_net ["typed"; "untyped"; "odd"] Spec.resumed_world)))
  = [ParsePypi.mkRow "typed" true None]
  /\ Spec.requests_of "typed"
       (ParsePypi.requests
          (snd (Spec.seq_end Spec.example_net ["typed"; "untyped"; "odd"] Spec.resumed_world)))
     = []
  /\ NoDup (ParsePypi.package
              <$> ParsePypi.rows
                    (snd (Spec.seq_end Spec.example_net ["typed"; "untyped"; "odd"]
                                       Spec.resumed_world))).
Proof.
  destruct (C7_processed_package_is_skipped ["typed"; "untyped"; "odd"] Spec.resumed_world)
    as [Hskip Honce].
  assert (Hreach : rtc ParsePypi.pool_step
                     (ParsePypi.main_start ["typed"; "untyped"; "odd"] Spec.resumed_world)
                     (fst (Spec.seq_end Spec.example_net ["typed"; "untyped"; "odd"]
                                        Spec.resumed_world),
                      snd (Spec.seq_end Spec.example_net ["typed"; "untyped"; "odd"]
                                        Spec.resumed_world))).
  { rewrite <- surjective_pairing. apply ContainmentFacts.seq_end_reachable. }
  destruct (Hskip "typed") as (_ & _ & H).
  - exists (ParsePypi.mkRow "typed" true None). split; [left; reflexivity | reflexivity].
  - destruct (H _ _ Hreach) as (_ & Hrows & Hreqs & _).
    rewrite Hrows, Hreqs. split; [reflexivity|]. split; [reflexivity|].
    apply (Honce ltac:(compute_done) ltac:(compute_done) _ _ Hreach).
Defined.

(** C7 as the specification words it, with at most one row for a package
    in every run, fails on an input list that names a package twice: both
    names get a task, since neither is in the table when the tasks are
    created, and each task appends its row. *)
Lemma C7_counterexample :
  ~ (forall (file : list string) (w : ParsePypi.World)
            (pool' : ParsePypi.Pool) (w' : ParsePypi.World),
       NoDup (ParsePypi.package <$> ParsePypi.rows w) ->
       rtc ParsePypi.pool_step (ParsePypi.main_start file w) (pool', w') ->
       NoDup (ParsePypi.package <$> ParsePypi.rows w')).
Proof.
  intros H.
  specialize (H ["typed"; "typed"] Spec.fresh_world
                (fst (Spec.seq_end Spec.example_net ["typed"; "typed"] Spec.fresh_world))
                (snd (Spec.seq_end Spec.example_net ["typed"; "typed"] Spec.fresh_world))).
  assert (Hrows : ParsePypi.package
                  <$> ParsePypi.rows
                        (snd (Spec.seq_end Spec.example_net ["typed"; "typed"]
                                           Spec.fresh_world))
                  = ["typed"; "typed"]) by (vm_compute; reflexivity).
  rewrite Hrows in H.
  assert (Hdup : NoDup ["typed"; "typed"]).
  { apply H; [apply NoDup_nil_2|].
    rewrite <- surjective_pairing. apply ContainmentFacts.seq_end_reachable. }
  apply NoDup_cons in Hdup as [Hnot _]. apply Hnot. left.
Qed.

(** ** The new-package detector *)

Module SortFacts.

Section Insertion.
Context {A K : Type} (key : A -> K) (leb : K -> K -> bool).
Hypothesis leb_total : forall a b, leb a b = true \/ leb b a = true.
Hypothesis leb_trans : forall a b c, leb a b = true -> leb b c = true -> leb a c = true.

Let R (x y : A) : Prop := leb (key x) (key y) = true.

Lemma insert_by_perm x l : Permutation (Builtins.insert_by key leb x l) (x :: l).
Proof.
  induction l as [|y l IH]; simpl; [reflexivity|].
  destruct (leb (key x) (key y)); [reflexivity|].
  rewrite IH. apply perm_swap.
Qed.

Lemma sorted_perm l : Permutation (Builtins.sorted key leb l) l.
Proof.
  induction l as [|x l IH]; simpl; [reflexivity|].
  rewrite insert_by_perm, IH. reflexivity.
Qed.

Lemma insert_by_hd x y l :
  R y x -> HdRel R y l -> HdRel R y (Builtins.insert_by key leb x l).
Proof.
  intros Hyx Hyl. destruct l as [|z l]; simpl; [constructor; exact Hyx|].
  destruct (leb (key x) (key z)); constructor; [exact Hyx|].
  inversion Hyl; assumption.
Qed.

Lemma insert_by_sorted x l :
  Sorted R l -> Sorted R (Builtins.insert_by key leb x l).
Proof.
  induction 1 as [|y l Hl IH Hhd]; simpl; [repeat constructor|].
  destruct (leb (key x) (key y)) eqn:Hxy.
  - constructor; [constructor; assumption | constructor; exact Hxy].
  - constructor; [exact IH|]. apply insert_by_hd; [|exact Hhd].
    destruct (leb_total (key x) (key y)) as [H | H]; [congruence | exact H].
Qed.

Lemma sorted_is_sorted l : StronglySorted R (Builtins.sorted key leb l).
Proof.
  apply Sorted_StronglySorted.
  - intros a b c. apply leb_trans.
  - induction l as [|x l IH]; simpl; [constructor | apply insert_by_sorted; exact IH].
Qed.

End Insertion.

Lemma string_leb_trans a b c :
  String.leb a b = true -> String.leb b c = true -> String.leb a c = true.
Proof.
  intros H1 H2. apply Is_true_true. apply Is_true_true in H1, H2.
  exact (transitivity (R := String.le) H1 H2).
Qed.


End SortFacts.

Module DetectFacts.

Import DetectProjects Spec.


Lemma sorted_packages_sorted packages :
  StronglySorted (fun a b => String.leb a b = true) (sorted_packages packages).
Proof.
  unfold sorted_packages.
  apply (SortFacts.sorted_is_sorted (fun x : string => x) String.leb).
  - apply String.leb_total.
  - apply SortFacts.string_leb_trans.
Qed.

Lemma sorted_packages_perm packages :
  Permutation (sorted_packages packages) (elements packages).
Proof. apply SortFacts.sorted_perm. Qed.

Lemma sorted_packages_length packages :
  length (sorted_packages packages) = size packages.
Proof. rewrite (Permutation_length (sorted_packages_perm packages)). reflexivity. Qed.

Lemma cell_spec column_name (row : CsvRow) x :
  cell column_name row = Some x <-> row !! column_name = Some (Some x) /\ x <> EmptyString.
Proof.
  unfold cell. destruct (row !! column_name) as [[v|]|]; try (split; [discriminate | intros [[=] _]]).
  destruct (String.eqb v EmptyString) eqn:E.
  - apply String.eqb_eq in E. subst v. split; [discriminate | intros [[= <-] H]; congruence].
  - apply String.eqb_neq in E. split.
    + intros [= <-]. auto.
    + intros [[= <-] _]. reflexivity.
Qed.

Lemma get_names_spec file_obj column_name x :
  x ∈ get_names_from_csv file_obj column_name
  <-> exists row, In row file_obj /\ row !! column_name = Some (Some x) /\ x <> EmptyString.
Proof.
  unfold get_names_from_csv. rewrite elem_of_list_to_set, list_elem_of_omap. split.
  - intros (row & Hin & Hcell). exists row. split; [apply list_elem_of_In; exact Hin|].
    apply cell_spec. exact Hcell.
  - intros (row & Hin & Hcell). exists row. split; [apply list_elem_of_In; exact Hin|].
    apply cell_spec. exact Hcell.
Qed.

End DetectFacts.

(** C8. The set of new packages is the remote set minus the local set minus
    the exclusion set, whatever the three sets are: with remote [{a,b,c}],
    local [{a}] and exclusion [{c}] it is [{b}].  The script runs a [gh]
    command, on that set, exactly when the set is not empty. *)
Theorem C8_new_packages_is_difference (excluded : gset string)
    (remote_csv local_csv : list DetectProjects.CsvRow) (issues : list DetectProjects.Issue) :
  let remote := DetectProjects.get_names_from_csv remote_csv "project" in
  let local := DetectProjects.get_names_from_csv local_csv "package" in
  let reported := DetectProjects.new_packages remote local excluded in
  (forall x, x ∈ reported <-> x ∈ remote /\ (x ∉ local) /\ (x ∉ excluded))
  /\ reported = remote ∖ local ∖ excluded
  /\ (reported <> ∅ ->
      DetectProjects.main_with excluded remote_csv local_csv issues
      = Some (DetectProjects.create_or_update_issue reported issues))
  /\ (reported = ∅ ->
      DetectProjects.main_with excluded remote_csv local_csv issues = None)
  /\ DetectProjects.new_packages {[ "a"; "b"; "c" ]} {[ "a" ]} {[ "c" ]} = {[ "b" ]}
  /\ DetectProjects.main remote_csv local_csv issues
     = DetectProjects.main_with DetectProjects.NON_EXISTENT_PROJECTS remote_csv local_csv issues
  /\ (forall x, x ∈ remote <->
        exists row, In row remote_csv /\ row !! "project" = Some (Some x) /\ x <> EmptyString).
Proof.
  intros remote local reported. split; [|split; [|split; [|split; [|split; [|split]]]]].
  - intros x. unfold reported, DetectProjects.new_packages.
    rewrite !elem_of_difference. tauto.
  - reflexivity.
  - intros Hne. unfold DetectProjects.main_with. fold remote local reported.
    rewrite bool_decide_eq_true_2 by exact Hne. reflexivity.
  - intros He. unfold DetectProjects.main_with. fold remote local reported.
    rewrite bool_decide_eq_false_2; [reflexivity|]. intros Hne. exact (Hne He).
  - unfold DetectProjects.new_packages. apply set_eq. intros x.
    rewrite !elem_of_difference, !elem_of_union, !elem_of_singleton. split.
    + intros [[[[-> | ->] | ->] Hl] Hx]; congruence.
    + intros ->. repeat split; [auto | intros [=] | intros [=]].
  - reflexivity.
  - intros x. apply DetectFacts.get_names_spec.
Qed.

Lemma C8_witness :
  DetectProjects.main_with {[ "c" ]} Spec.remote_table Spec.local_table []
  = Some (DetectProjects.create_or_update_issue
            (DetectProjects.new_packages
               (DetectProjects.get_names_from_csv Spec.remote_table "project")
               (DetectProjects.get_names_from_csv Spec.local_table "package")
               {[ "c" ]}) []).
Proof.
  destruct (C8_new_packages_is_difference {[ "c" ]} Spec.remote_table Spec.local_table [])
    as (Hmem & _ & Hsome & _).
  apply Hsome. intros Hempty.
  assert ("b" ∈ (∅ : gset string)) as Hb.
  { rewrite <- Hempty. apply Hmem. repeat split; compute_done. }
  exact (not_elem_of_empty _ Hb).
Defined.



(* ===================================================================== *)
(** * Further properties of the code *)
(* ===================================================================== *)

(** ** The archive scan *)

Module ScanMore.

Import ParsePypi Spec More.

Lemma filter_perm {A} (P : A -> bool) (l l' : list A) :
  Permutation l l' -> Permutation (List.filter P l) (List.filter P l').
Proof.
  induction 1 as [| x l l' _ IH | x y l | l l' l'' _ IH1 _ IH2]; simpl.
  - constructor.
  - destruct (P x); [constructor|]; exact IH.
  - destruct (P x), (P y); try reflexivity. apply perm_swap.
  - etransitivity; eassumption.
Qed.

Lemma files_perm s s' : same_members s s' -> Permutation (files s) (files s').
Proof.
  intros H. destruct H as [l l' Hp | l l' Hp]; simpl;
    apply Permutation_map, filter_perm; exact Hp.
Qed.

Lemma files_sources_perm fl fl' :
  Permutation fl fl' -> Permutation (files_sources fl) (files_sources fl').
Proof. intros H. unfold files_sources. apply filter_perm, Permutation_map, filter_perm, H. Qed.

Lemma files_markers_perm fl fl' :
  Permutation fl fl' -> Permutation (files_markers fl) (files_markers fl').
Proof. intros H. unfold files_markers. apply Permutation_map, filter_perm, H. Qed.

(** The evaluator sees the two lists only through their members. *)
Lemma evaluator_by_members s s' :
  (forall d, In d (marker_dirs s) <-> In d (marker_dirs s')) ->
  (forall p, In p (source_files s) <-> In p (source_files s')) ->
  all_py_files_in_source_are_in_py_typed_dirs s
  = all_py_files_in_source_are_in_py_typed_dirs s'.
Proof.
  intros Hd Hf.
  assert (Hnil : forall {A} (l l' : list A),
             (forall x, In x l <-> In x l') -> l <> [] -> l' <> []).
  { intros A l l' H Hne ->. destruct l as [|x l]; [congruence|].
    apply (proj1 (H x)). left. reflexivity. }
  assert (Hdir : forall a b,
             (forall d, In d (marker_dirs a) <-> In d (marker_dirs b)) ->
             (forall p, In p (source_files a) <-> In p (source_files b)) ->
             all_py_files_in_source_are_in_py_typed_dirs a = true ->
             all_py_files_in_source_are_in_py_typed_dirs b = true).
  { intros a b Hd' Hf' Ha. apply ScanFacts.evaluator_spec in Ha as (H1 & H2 & H3).
    apply ScanFacts.evaluator_spec. split; [exact (Hnil _ _ _ Hd' H1)|].
    split; [exact (Hnil _ _ _ Hf' H2)|].
    intros p Hp. destruct (H3 p (proj2 (Hf' p) Hp)) as (d & Hin & Hanc).
    exists d. split; [apply Hd'; exact Hin | exact Hanc]. }
  destruct (all_py_files_in_source_are_in_py_typed_dirs s) eqn:Es.
  - symmetry. apply (Hdir s s' Hd Hf Es).
  - destruct (all_py_files_in_source_are_in_py_typed_dirs s') eqn:Es'; [|reflexivity].
    rewrite <- Es. apply (Hdir s' s); [| |exact Es'].
    + intros d. symmetry. apply Hd.
    + intros p. symmetry. apply Hf.
Qed.

Lemma evaluator_by_files s s' :
  files s = files s' ->
  all_py_files_in_source_are_in_py_typed_dirs s
  = all_py_files_in_source_are_in_py_typed_dirs s'.
Proof.
  intros H. apply evaluator_by_members.
  - intros d. rewrite !InitFacts.marker_dirs_eq, H. reflexivity.
  - intros p. rewrite !InitFacts.source_files_eq, H. reflexivity.
Qed.

Lemma source_has_name p : has_py_suffix p = true -> Pathlib.parts p <> [].
Proof.
  intros H Hnil. unfold has_py_suffix, Pathlib.suffix, Pathlib.name in H.
  rewrite Hnil in H. discriminate H.
Qed.

Lemma source_files_have_suffix s p : In p (source_files s) -> has_py_suffix p = true.
Proof. unfold source_files. intros H. apply List.filter_In in H as [_ H]. exact H. Qed.

End ScanMore.

(** X1. The verdict on an archive does not depend on the order of its
    members. *)
Theorem X1_member_order_is_irrelevant (s s' : ParsePypi.Source) :
  More.same_members s s' ->
  ParsePypi.all_py_files_in_source_are_in_py_typed_dirs s
  = ParsePypi.all_py_files_in_source_are_in_py_typed_dirs s'.
Proof.
  intros H. pose proof (ScanMore.files_perm s s' H) as Hp.
  apply ScanMore.evaluator_by_members.
  - intros d. rewrite !InitFacts.marker_dirs_eq.
    pose proof (ScanMore.files_markers_perm _ _ Hp) as Hm.
    split; intros Hin; [apply (Permutation_in _ Hm Hin)|].
    apply (Permutation_in _ (Permutation_sym Hm) Hin).
  - intros p. rewrite !InitFacts.source_files_eq.
    pose proof (ScanMore.files_sources_perm _ _ Hp) as Hm.
    split; intros Hin; [apply (Permutation_in _ Hm Hin)|].
    apply (Permutation_in _ (Permutation_sym Hm) Hin).
Qed.

Lemma X1_witness :
  ParsePypi.all_py_files_in_source_are_in_py_typed_dirs
    (ParsePypi.ZipFile [ScanExamples.module; ScanExamples.stray; ScanExamples.marker])
  = ParsePypi.all_py_files_in_source_are_in_py_typed_dirs
      (ParsePypi.ZipFile [ScanExamples.marker; ScanExamples.module; ScanExamples.stray]).
Proof.
  apply X1_member_order_is_irrelevant. constructor.
  change (Permutation ([ScanExamples.module; ScanExamples.stray] ++ [ScanExamples.marker])
                      ([ScanExamples.marker] ++ [ScanExamples.module; ScanExamples.stray])).
  apply Permutation_app_comm.
Defined.

(** X2. Members that are neither source files nor markers do not count:
    a directory entry, a tar member that is not a regular file, and a file
    whose suffix is neither [.py] nor [.pyi] and whose name is not
    [py.typed] can be added anywhere without changing the verdict. *)
Theorem X2_other_members_are_ignored :
  (forall pre post e,
      Zipfile.is_dir e = true ->
      ParsePypi.all_py_files_in_source_are_in_py_typed_dirs (ParsePypi.ZipFile (pre ++ e :: post))
      = ParsePypi.all_py_files_in_source_are_in_py_typed_dirs (ParsePypi.ZipFile (pre ++ post)))
  /\ (forall pre post e,
      Tarfile.isfile e = false ->
      ParsePypi.all_py_files_in_source_are_in_py_typed_dirs (ParsePypi.TarFile (pre ++ e :: post))
      = ParsePypi.all_py_files_in_source_are_in_py_typed_dirs (ParsePypi.TarFile (pre ++ post)))
  /\ (forall src f sz src',
      Spec.adds_file src f sz src' ->
      ParsePypi.has_py_suffix (Pathlib.Path_of f) = false ->
      Pathlib.name (Pathlib.Path_of f) <> "py.typed" ->
      ParsePypi.all_py_files_in_source_are_in_py_typed_dirs src'
      = ParsePypi.all_py_files_in_source_are_in_py_typed_dirs src).
Proof.
  split; [|split].
  - intros pre post e He. apply ScanMore.evaluator_by_files. simpl.
    rewrite !List.filter_app. simpl. rewrite He. reflexivity.
  - intros pre post e He. apply ScanMore.evaluator_by_files. simpl.
    rewrite !List.filter_app. simpl. rewrite He. reflexivity.
  - intros src f sz src' Hadd Hpy Hnm.
    destruct (InitFacts.adds_file_files _ _ _ _ Hadd) as (pre & post & Hsrc & Hsrc').
    apply InitFacts.evaluator_by_lists.
    + rewrite !ScanFacts.scanned_dirs_spec, !InitFacts.marker_dirs_eq, Hsrc, Hsrc'.
      replace (pre ++ (f, sz) :: post) with (pre ++ [(f, sz)] ++ post) by reflexivity.
      rewrite !InitFacts.files_markers_app, InitFacts.files_markers_other; [reflexivity|].
      exact Hnm.
    + rewrite !ScanFacts.scanned_files_spec, !InitFacts.source_files_eq, Hsrc, Hsrc'.
      replace (pre ++ (f, sz) :: post) with (pre ++ [(f, sz)] ++ post) by reflexivity.
      rewrite !InitFacts.files_sources_app.
      assert (Spec.files_sources [(f, sz)] = []) as ->; [|reflexivity].
      unfold Spec.files_sources. simpl.
      destruct (negb (Spec.is_placeholder_init (f, sz))); simpl; [|reflexivity].
      rewrite Hpy. reflexivity.
Qed.

Lemma X2_witness :
  ParsePypi.all_py_files_in_source_are_in_py_typed_dirs
    (ParsePypi.ZipFile [ScanExamples.marker; Zipfile.mkZipInfo "README.md" 900 false;
                        ScanExamples.module])
  = true.
Proof.
  destruct X2_other_members_are_ignored as (_ & _ & H).
  etransitivity.
  - apply (H _ _ _ _ (Spec.adds_zip [ScanExamples.marker] [ScanExamples.module]
                         (Zipfile.mkZipInfo "README.md" 900 false) eq_refl)).
    + reflexivity.
    + discriminate.
  - reflexivity.
Defined.

Module StrMore.

Lemma app_cons a s t : String a s +:+ t = String a (s +:+ t).
Proof. reflexivity. Qed.

Lemma app_nil_l t : EmptyString +:+ t = t.
Proof. reflexivity. Qed.

Lemma length_app s t : String.length (s +:+ t) = (String.length s + String.length t)%nat.
Proof.
  induction s as [|a s IH]; [reflexivity|].
  rewrite app_cons. simpl. rewrite IH. reflexivity.
Qed.

Lemma rfind_range c s : -1 <= PyStr.rfind c s < PyStr.len s.
Proof.
  unfold PyStr.len. induction s as [|a s IH]; simpl; [lia|].
  destruct (0 <=? PyStr.rfind c s) eqn:E.
  - apply Z.leb_le in E. lia.
  - destruct (Ascii.eqb a c); lia.
Qed.

Lemma rfind_app c s t :
  0 <= PyStr.rfind c t -> PyStr.rfind c (s +:+ t) = PyStr.len s + PyStr.rfind c t.
Proof.
  intros Ht. unfold PyStr.len. induction s as [|a s IH]; [rewrite app_nil_l; simpl; lia|].
  rewrite app_cons. simpl PyStr.rfind. rewrite IH.
  replace (0 <=? Z.of_nat (String.length s) + PyStr.rfind c t) with true
    by (symmetry; apply Z.leb_le; lia).
  simpl String.length. lia.
Qed.

Lemma substring_all t : String.substring 0 (String.length t) t = t.
Proof. induction t as [|a t IH]; simpl; [reflexivity|]. rewrite IH. reflexivity. Qed.

Lemma substring_app_r s t :
  String.substring (String.length s) (String.length t) (s +:+ t) = t.
Proof.
  induction s as [|a s IH]; [apply substring_all|].
  rewrite app_cons. simpl. exact IH.
Qed.

Lemma substring_split s : forall n,
  (n <= String.length s)%nat ->
  s = String.substring 0 n s +:+ String.substring n (String.length s - n) s.
Proof.
  induction s as [|a s IH]; intros n Hn; simpl in *.
  - destruct n; [reflexivity | lia].
  - destruct n as [|n]; simpl.
    + rewrite substring_all. reflexivity.
    + rewrite app_cons. f_equal. apply IH. lia.
Qed.

(** [name.suffix] is [t], a dot followed by characters without a dot,
    exactly when the name is [t] after a stem that is not empty. *)
Lemma suffix_spec t nm :
  PyStr.rfind PyStr.dot t = 0 -> (2 <= String.length t)%nat ->
  Pathlib.suffix_of_name nm = t <-> exists stem, stem <> EmptyString /\ nm = stem +:+ t.
Proof.
  intros Ht0 Hlen. unfold Pathlib.suffix_of_name, PyStr.slice_from, PyStr.len. split.
  - pose proof (rfind_range PyStr.dot nm) as Hr. unfold PyStr.len in Hr.
    destruct ((0 <? PyStr.rfind PyStr.dot nm)
              && (PyStr.rfind PyStr.dot nm <? Z.of_nat (String.length nm) - 1)) eqn:E.
    + apply andb_true_iff in E as [E1 E2]. apply Z.ltb_lt in E1, E2. intros Hsub.
      exists (String.substring 0 (Z.to_nat (PyStr.rfind PyStr.dot nm)) nm).
      assert (Hnm : nm = String.substring 0 (Z.to_nat (PyStr.rfind PyStr.dot nm)) nm +:+ t).
      { rewrite <- Hsub at 1. apply substring_split. lia. }
      split; [|exact Hnm].
      intros Hstem. rewrite Hstem, app_nil_l in Hnm. rewrite Hnm, Ht0 in E1. lia.
    + intros <-. simpl in Hlen. lia.
  - intros (stem & Hstem & ->).
    assert (0 < String.length stem)%nat as Hpos.
    { destruct stem; [congruence | simpl; lia]. }
    rewrite rfind_app by lia. rewrite Ht0, length_app. unfold PyStr.len.
    replace ((0 <? Z.of_nat (String.length stem) + 0)
             && (Z.of_nat (String.length stem) + 0
                 <? Z.of_nat (String.length stem + String.length t) - 1))
      with true.
    + replace (Z.to_nat (Z.of_nat (String.length stem) + 0)) with (String.length stem) by lia.
      replace (String.length stem + String.length t - String.length stem)%nat
        with (String.length t) by lia.
      apply substring_app_r.
    + symmetry. apply andb_true_iff. split; apply Z.ltb_lt; lia.
Qed.

End StrMore.

(** X3. An archive without a [py.typed] file is never typed, whatever its
    source files, and neither is an archive without a source file, whatever
    its markers: in particular one whose only Python files are zero-size
    [__init__.py] placeholders. *)
Theorem X3_no_marker_or_no_source_is_untyped (source : ParsePypi.Source) :
  ((forall f sz, In (f, sz) (Spec.files source) ->
      Pathlib.name (Pathlib.Path_of f) <> "py.typed") ->
   ParsePypi.all_py_files_in_source_are_in_py_typed_dirs source = false)
  /\ ((forall f sz, In (f, sz) (Spec.files source) ->
        ParsePypi.has_py_suffix (Pathlib.Path_of f) = true ->
        Pathlib.name (Pathlib.Path_of f) = "__init__.py" /\ sz = 0) ->
      ParsePypi.all_py_files_in_source_are_in_py_typed_dirs source = false).
Proof.
  split; intros H;
    destruct (ParsePypi.all_py_files_in_source_are_in_py_typed_dirs source) eqn:E;
    try reflexivity; apply ScanFacts.evaluator_spec in E as (Hd & Hf & _); exfalso.
  - apply Hd. unfold Spec.marker_dirs.
    rewrite (ResolverFacts.filter_none _ (Spec.files source)); [reflexivity|].
    intros [f sz] Hin. apply String.eqb_neq. exact (H f sz Hin).
  - destruct (Spec.source_files source) as [|p l] eqn:Hs; [congruence|].
    assert (In p (Spec.source_files source)) as Hp by (rewrite Hs; left; reflexivity).
    unfold Spec.source_files in Hp. apply List.filter_In in Hp as [Hp Hpy].
    apply List.in_map_iff in Hp as ([f sz] & <- & Hin).
    apply List.filter_In in Hin as [Hin Hph]. simpl in Hpy.
    destruct (H f sz Hin Hpy) as [Hnm ->].
    unfold Spec.is_placeholder_init, Spec.file_name in Hph. simpl in Hph.
    rewrite Hnm in Hph. discriminate Hph.
Qed.

Lemma X3_witness :
  ParsePypi.all_py_files_in_source_are_in_py_typed_dirs
    (ParsePypi.ZipFile [ScanExamples.marker; Zipfile.mkZipInfo "pkg/__init__.py" 0 false])
  = false
  /\ ParsePypi.all_py_files_in_source_are_in_py_typed_dirs
       (ParsePypi.ZipFile [ScanExamples.module; ScanExamples.stray]) = false.
Proof.
  split.
  - apply (proj2 (X3_no_marker_or_no_source_is_untyped _)).
    intros f sz [[= <- <-] | [[= <- <-] | []]]; [discriminate|]. intros _. split; reflexivity.
  - apply (proj1 (X3_no_marker_or_no_source_is_untyped _)).
    intros f sz [[= <- <-] | [[= <- <-] | []]]; discriminate.
Defined.

(** X4. The zip branch and the tar branch agree: a tar archive with the
    members of a zip archive, regular files where the zip has no directory
    entry, gets the same verdict. *)
Theorem X4_zip_and_tar_agree (infolist : list Zipfile.ZipInfo) :
  ParsePypi.all_py_files_in_source_are_in_py_typed_dirs
    (ParsePypi.TarFile (List.map More.as_tar_member infolist))
  = ParsePypi.all_py_files_in_source_are_in_py_typed_dirs (ParsePypi.ZipFile infolist).
Proof.
  apply ScanMore.evaluator_by_files. simpl.
  induction infolist as [|z l IH]; simpl; [reflexivity|].
  destruct (Zipfile.is_dir z); simpl; [exact IH | f_equal; exact IH].
Qed.

(** X5. A file counts as Python source exactly when its name is a stem
    that is not empty followed by [.py] or [.pyi]: a file named just
    [.py] or [.pyi] does not count. *)
Theorem X5_source_suffix (p : Pathlib.Path) :
  (ParsePypi.has_py_suffix p = true
   <-> exists stem, stem <> EmptyString
                    /\ (Pathlib.name p = stem +:+ ".py" \/ Pathlib.name p = stem +:+ ".pyi"))
  /\ (Pathlib.name p = ".py" \/ Pathlib.name p = ".pyi" -> ParsePypi.has_py_suffix p = false).
Proof.
  assert (Hiff : ParsePypi.has_py_suffix p = true
                 <-> exists stem, stem <> EmptyString
                       /\ (Pathlib.name p = stem +:+ ".py" \/ Pathlib.name p = stem +:+ ".pyi")).
  { unfold ParsePypi.has_py_suffix, ParsePypi.py_file_suffixes, Pathlib.suffix.
    rewrite bool_decide_eq_true, !elem_of_cons, elem_of_nil.
    rewrite (StrMore.suffix_spec ".py") by (reflexivity || (simpl; lia)).
    rewrite (StrMore.suffix_spec ".pyi") by (reflexivity || (simpl; lia)).
    split.
    - intros [(stem & H1 & H2) | [(stem & H1 & H2) | []]]; exists stem; auto.
    - intros (stem & H1 & [H2 | H2]); [left | right; left]; exists stem; auto. }
  split; [exact Hiff|].
  intros H. unfold ParsePypi.has_py_suffix, Pathlib.suffix.
  destruct H as [-> | ->]; reflexivity.
Qed.

Lemma X5_witness :
  Pathlib.name (Pathlib.Path_of "pkg/.py") = ".py"
  /\ ParsePypi.has_py_suffix (Pathlib.Path_of "pkg/.py") = false.
Proof.
  split; [reflexivity|].
  apply (proj2 (X5_source_suffix (Pathlib.Path_of "pkg/.py"))). left. reflexivity.
Defined.

Module MarkerMore.

Import ParsePypi Spec More.

Lemma top_level_ancestor p :
  is_ancestor top_level p <-> Pathlib.root p = EmptyString /\ Pathlib.parts p <> [].
Proof.
  unfold is_ancestor, top_level. simpl. split.
  - intros (Hr & rest & Hne & Hp). split; [symmetry; exact Hr | rewrite Hp; exact Hne].
  - intros (Hr & Hp). split; [symmetry; exact Hr|]. exists (Pathlib.parts p). auto.
Qed.

Lemma files_markers_marker f sz :
  file_name (f, sz) = "py.typed" ->
  files_markers [(f, sz)] = [Pathlib.parent (Pathlib.Path_of f)].
Proof. intros H. unfold files_markers. simpl. rewrite H. reflexivity. Qed.

Lemma files_sources_marker f sz :
  file_name (f, sz) = "py.typed" -> files_sources [(f, sz)] = [].
Proof.
  intros H. unfold files_sources, is_placeholder_init. simpl. rewrite H. simpl.
  rewrite (ScanFacts.marker_not_source (Pathlib.Path_of f) H). reflexivity.
Qed.

End MarkerMore.

(** X6. A [py.typed] at the top level of the archive covers every source
    file with a relative path: with it, an archive whose source paths are
    all relative is typed as soon as it has a source file.  And a typed
    archive with a source file at its top level has a top-level
    [py.typed]: no deeper marker covers that file. *)
Theorem X6_top_level_marker (source : ParsePypi.Source) :
  (In More.top_level (Spec.marker_dirs source) ->
   (forall p, In p (Spec.source_files source) -> Pathlib.root p = EmptyString) ->
   (ParsePypi.all_py_files_in_source_are_in_py_typed_dirs source = true
    <-> Spec.source_files source <> []))
  /\ (ParsePypi.all_py_files_in_source_are_in_py_typed_dirs source = true ->
      forall p, In p (Spec.source_files source) ->
        Pathlib.root p = EmptyString -> length (Pathlib.parts p) = 1%nat ->
        In More.top_level (Spec.marker_dirs source)).
Proof.
  split.
  - intros Htop Hrel. rewrite ScanFacts.evaluator_spec. split.
    + intros (_ & Hf & _). exact Hf.
    + intros Hf. split; [intros Hnil; rewrite Hnil in Htop; destruct Htop|].
      split; [exact Hf|]. intros p Hp. exists More.top_level. split; [exact Htop|].
      apply MarkerMore.top_level_ancestor. split; [apply Hrel; exact Hp|].
      apply ScanMore.source_has_name. apply (ScanMore.source_files_have_suffix source p Hp).
  - intros Htyped p Hp Hroot Hone.
    apply ScanFacts.evaluator_spec in Htyped as (_ & _ & Hall).
    destruct (Hall p Hp) as (d & Hd & Hr & rest & Hne & Hparts).
    assert (Pathlib.parts d = []) as Hd0.
    { rewrite Hparts, length_app in Hone.
      destruct (Pathlib.parts d) as [|x l]; [reflexivity|].
      destruct rest; [congruence | simpl in Hone; lia]. }
    assert (d = More.top_level) as <-; [|exact Hd].
    destruct d as [r ps]. simpl in *. unfold More.top_level. congruence.
Qed.

Lemma X6_witness :
  ParsePypi.all_py_files_in_source_are_in_py_typed_dirs
    (ParsePypi.ZipFile [Zipfile.mkZipInfo "py.typed" 0 false;
                        Zipfile.mkZipInfo "single.py" 55 false;
                        ScanExamples.stray]) = true.
Proof.
  apply (proj1 (X6_top_level_marker _)).
  - left. reflexivity.
  - intros p [<- | [<- | []]]; reflexivity.
  - discriminate.
Defined.

(** X7. Adding a [py.typed] file never costs a verdict: the source files
    stay the same, the markers gain the parent of the new file, and a
    typed archive stays typed. *)
Theorem X7_adding_a_marker_keeps_typed
    (src : ParsePypi.Source) (f : string) (sz : Z) (src' : ParsePypi.Source) :
  Spec.adds_file src f sz src' ->
  Pathlib.name (Pathlib.Path_of f) = "py.typed" ->
  Spec.source_files src' = Spec.source_files src
  /\ (forall d, In d (Spec.marker_dirs src') <->
                In d (Spec.marker_dirs src) \/ d = Pathlib.parent (Pathlib.Path_of f))
  /\ (ParsePypi.all_py_files_in_source_are_in_py_typed_dirs src = true ->
      ParsePypi.all_py_files_in_source_are_in_py_typed_dirs src' = true).
Proof.
  intros Hadd Hnm.
  destruct (InitFacts.adds_file_files _ _ _ _ Hadd) as (pre & post & Hsrc & Hsrc').
  assert (Hs : Spec.source_files src' = Spec.source_files src).
  { rewrite !InitFacts.source_files_eq, Hsrc, Hsrc'.
    replace (pre ++ (f, sz) :: post) with (pre ++ [(f, sz)] ++ post) by reflexivity.
    rewrite !InitFacts.files_sources_app, (MarkerMore.files_sources_marker f sz Hnm).
    reflexivity. }
  assert (Hm : forall d, In d (Spec.marker_dirs src') <->
                         In d (Spec.marker_dirs src) \/ d = Pathlib.parent (Pathlib.Path_of f)).
  { intros d. rewrite !InitFacts.marker_dirs_eq, Hsrc, Hsrc'.
    replace (pre ++ (f, sz) :: post) with (pre ++ [(f, sz)] ++ post) by reflexivity.
    rewrite !InitFacts.files_markers_app, (MarkerMore.files_markers_marker f sz Hnm).
    rewrite !List.in_app_iff. simpl. intuition. }
  split; [exact Hs|]. split; [exact Hm|].
  intros Htyped. apply ScanFacts.evaluator_spec in Htyped as (Hd & Hf & Hall).
  apply ScanFacts.evaluator_spec. split; [|split].
  - intros Hnil. assert (In (Pathlib.parent (Pathlib.Path_of f)) (Spec.marker_dirs src')) as Hin
      by (apply Hm; right; reflexivity).
    rewrite Hnil in Hin. destruct Hin.
  - rewrite Hs. exact Hf.
  - intros p Hp. rewrite Hs in Hp. destruct (Hall p Hp) as (d & Hin & Hanc).
    exists d. split; [apply Hm; left; exact Hin | exact Hanc].
Qed.

Lemma X7_witness :
  ParsePypi.all_py_files_in_source_are_in_py_typed_dirs
    (ParsePypi.ZipFile [ScanExamples.marker; ScanExamples.module;
                        Zipfile.mkZipInfo "tests/py.typed" 0 false]) = true.
Proof.
  destruct (X7_adding_a_marker_keeps_typed _ _ _ _
              (Spec.adds_zip [ScanExamples.marker; ScanExamples.module] []
                             (Zipfile.mkZipInfo "tests/py.typed" 0 false) eq_refl) eq_refl)
    as (_ & _ & H).
  apply H. reflexivity.
Defined.

(** ** Resolution, download and scan *)

Module FetchMore.

Import ParsePypi Spec More.

(** The last element of a filtered list, located in the list itself. *)
Lemma last_filter {A} (P : A -> bool) (l : list A) (x : A) :
  Builtins.last_item (List.filter P l) = Some x ->
  exists pre post, l = pre ++ x :: post /\ P x = true /\ Forall (fun y => P y = false) post.
Proof.
  induction l as [|y l IH] using List.rev_ind; [discriminate|].
  rewrite List.filter_app. simpl. destruct (P y) eqn:Hy.
  - rewrite ResolverFacts.last_item_snoc. intros [= <-].
    exists l, []. split; [reflexivity|]. split; [exact Hy | constructor].
  - rewrite app_nil_r. intros H. destruct (IH H) as (pre & post & -> & Hx & Hpost).
    exists pre, (post ++ [y]). split; [rewrite <- app_assoc; reflexivity|].
    split; [exact Hx|]. apply Forall_app. split; [exact Hpost|]. constructor; [exact Hy|].
    constructor.
Qed.

Lemma is_wheel_false (x : PypiApi.Release) :
  is_wheel x = false <-> PypiApi.packagetype x <> "bdist_wheel".
Proof. unfold is_wheel. apply String.eqb_neq. Qed.

(** Of a list that is not empty the resolver takes the last wheel, or the
    last entry when the list holds no wheel. *)
Lemma select_release_located rels :
  rels <> [] ->
  exists pre r post,
    rels = pre ++ r :: post
    /\ select_release rels = Some r
    /\ ((PypiApi.packagetype r = "bdist_wheel"
         /\ Forall (fun x => PypiApi.packagetype x <> "bdist_wheel") post)
        \/ (post = [] /\ Forall (fun x => PypiApi.packagetype x <> "bdist_wheel") rels)).
Proof.
  intros Hne.
  destruct (Builtins.last_item (List.filter is_wheel rels)) as [r|] eqn:Hw.
  - destruct (last_filter _ _ _ Hw) as (pre & post & Hrels & Hr & Hpost).
    exists pre, r, post. split; [exact Hrels|]. split.
    + rewrite ResolverFacts.select_release_partition, Hw. reflexivity.
    + left. split; [apply String.eqb_eq; exact Hr|].
      revert Hpost. apply List.Forall_impl. intros x. apply is_wheel_false.
  - apply ResolverFacts.last_item_nil_iff in Hw.
    assert (Hno : forall x, In x rels -> is_wheel x = false).
    { intros x Hx. destruct (is_wheel x) eqn:E; [|reflexivity].
      assert (In x (List.filter is_wheel rels)) as Hin by (apply List.filter_In; auto).
      rewrite Hw in Hin. destruct Hin. }
    destruct rels as [|r pre _] using List.rev_ind; [congruence|].
    exists pre, r, []. split; [reflexivity|]. split.
    + rewrite (ResolverFacts.select_release_no_wheel _ Hno). apply ResolverFacts.last_item_snoc.
    + right. split; [reflexivity|]. apply List.Forall_forall. intros x Hx.
      apply is_wheel_false. apply Hno. exact Hx.
Qed.

Section Run.
Context (net : nat -> string -> Aiohttp.Reply) (owner : string).

Lemma run_fetch pkg w :
  run net owner (fetch_latest_pypi_release pkg) w
  = (fetch_outcome pkg (net (length (requests w)) (metadata_url pkg)),
     record_request owner (metadata_url pkg) w).
Proof.
  unfold fetch_latest_pypi_release. rewrite TaskFacts.run_bind, TaskFacts.run_session_get.
  fold (metadata_url pkg). unfold fetch_outcome.
  destruct (net (length (requests w)) (metadata_url pkg)) as [response | reason]; [|reflexivity].
  rewrite TaskFacts.run_bind, TaskFacts.run_lift. unfold raise_for_status.
  destruct (400 <=? Aiohttp.status response); [reflexivity|].
  rewrite TaskFacts.run_bind, TaskFacts.run_lift. unfold response_json.
  destruct (Aiohttp.json response); [apply TaskFacts.run_lift | reflexivity].
Qed.

Lemma resolve_ok pkg j d :
  resolve pkg j = Ok d <->
  exists rels r, PypiApi.releases j !! PypiApi.version j = Some rels
                 /\ select_release rels = Some r /\ d = download_of pkg r.
Proof.
  unfold resolve. destruct (PypiApi.releases j !! PypiApi.version j) as [rels|].
  - destruct (select_release rels) as [r|] eqn:Hr.
    + split.
      * intros [= <-]. exists rels, r. auto.
      * intros (rels' & r' & [= <-] & Hr' & ->). rewrite Hr in Hr'. injection Hr' as <-.
        reflexivity.
    + split; [discriminate|]. intros (rels' & r' & [= <-] & Hr' & _). congruence.
  - split; [discriminate|]. intros (rels' & r' & Habs & _). discriminate.
Qed.

Lemma run_is_typed pkg w :
  run net owner (is_typed_package pkg) w
  = match fetch_outcome pkg (net (length (requests w)) (metadata_url pkg)) with
    | Ok r =>
        (match net (S (length (requests w))) (url r) with
         | Aiohttp.Received response => scan_release r (Aiohttp.read response)
         | Aiohttp.Failed reason => Raised (ClientConnectionError reason)
         end,
         record_request owner (url r) (record_request owner (metadata_url pkg) w))
    | Raised e => (Raised e, record_request owner (metadata_url pkg) w)
    end.
Proof.
  rewrite OrchestratorFacts.run_is_typed_package, run_fetch.
  destruct (fetch_outcome pkg _) as [r | e]; [|reflexivity].
  rewrite OrchestratorFacts.run_release_contains. simpl requests.
  rewrite length_app. simpl length. rewrite Nat.add_1_r. reflexivity.
Qed.

Lemma run_stub_exact pkg w :
  run net owner (has_types_stub_package pkg) w
  = (Ok (stub_verdict (net (length (requests w)) (stub_url pkg))),
     mkWorld (requests w ++ [(owner, stub_url pkg)]) (output_file w)
             (log w ++ stub_warnings pkg (net (length (requests w)) (stub_url pkg)))).
Proof.
  unfold has_types_stub_package, stub_url, stub_warnings, stub_verdict. simpl.
  destruct (net _ _) as [response | reason]; simpl.
  - destruct (Aiohttp.status response =? 200); simpl;
      [unfold record_request; rewrite app_nil_r; reflexivity|].
    destruct (Aiohttp.status response =? 404); simpl;
      [unfold record_request; rewrite app_nil_r; reflexivity | reflexivity].
  - reflexivity.
Qed.

End Run.

(** The whole of [process_package], by the outcome of the classification. *)
Lemma run_process_exact net pkg i total w :
  run net pkg (process_package pkg i total) w
  = match run net pkg (is_typed_package pkg) w with
    | (Raised e, w1) => (Ok tt, logging ERROR (snd (error_line pkg i total)) w1)
    | (Ok true, w1) => (Ok tt, record_result pkg i total true None w1)
    | (Ok false, w1) =>
        let reply := net (length (requests w1)) (stub_url pkg) in
        (Ok tt, record_result pkg i total false (stub_verdict reply)
                  (record_stub_lookup pkg reply w1))
    end.
Proof.
  unfold process_package, classify_package.
  rewrite TaskFacts.run_bind, TaskFacts.run_try_except, !TaskFacts.run_bind.
  destruct (run net pkg (is_typed_package pkg) w) as [[[|] | e] w1]; simpl negb; cbv iota.
  - reflexivity.
  - rewrite TaskFacts.run_bind, run_stub_exact. reflexivity.
  - reflexivity.
Qed.

End FetchMore.

(** X8. The resolution of a package issues one request, for the metadata
    document of the package, and has no other effect.  A transport failure
    and a status of 400 or more each raise their own error, whatever the
    body.  For a reply with a status below 400 that carries the document:
    a version without entry in the release table raises [KeyError], an
    empty release list raises [IndexError], and a list that is not empty
    gives the descriptor of its last wheel, or of its last entry when it
    holds no wheel, under the name that was asked for. *)
Theorem X8_resolution_outcomes (net : nat -> string -> Aiohttp.Reply)
    (owner pkg : string) (w : ParsePypi.World) :
  let reply := net (length (ParsePypi.requests w)) (More.metadata_url pkg) in
  let out := ParsePypi.run net owner (ParsePypi.fetch_latest_pypi_release pkg) w in
  snd out = ParsePypi.record_request owner (More.metadata_url pkg) w
  /\ (forall reason,
        reply = Aiohttp.Failed reason ->
        fst out = ParsePypi.Raised (ParsePypi.ClientConnectionError reason))
  /\ (forall response,
        reply = Aiohttp.Received response -> 400 <= Aiohttp.status response ->
        fst out = ParsePypi.Raised (ParsePypi.ClientResponseError (Aiohttp.status response)))
  /\ (forall response j,
        reply = Aiohttp.Received response -> Aiohttp.status response < 400 ->
        Aiohttp.json response = Some j ->
        (PypiApi.releases j !! PypiApi.version j = None ->
         fst out = ParsePypi.Raised (ParsePypi.KeyError (PypiApi.version j)))
        /\ (PypiApi.releases j !! PypiApi.version j = Some [] ->
            fst out = ParsePypi.Raised ParsePypi.IndexError)
        /\ (forall rels,
              PypiApi.releases j !! PypiApi.version j = Some rels -> rels <> [] ->
              exists pre r post,
                rels = pre ++ r :: post
                /\ ((PypiApi.packagetype r = "bdist_wheel"
                     /\ Forall (fun x => PypiApi.packagetype x <> "bdist_wheel") post)
                    \/ (post = []
                        /\ Forall (fun x => PypiApi.packagetype x <> "bdist_wheel") rels))
                /\ fst out
                   = ParsePypi.Ok
                       (ParsePypi.mkDownload pkg (PypiApi.url r) (PypiApi.packagetype r)
                                             (PypiApi.filename r)))).
Proof.
  intros reply out. unfold out. rewrite FetchMore.run_fetch. fold reply. simpl.
  split; [reflexivity|]. split; [|split].
  - intros reason ->. reflexivity.
  - intros response -> Hs. unfold More.fetch_outcome.
    replace (400 <=? Aiohttp.status response) with true by (symmetry; apply Z.leb_le; lia).
    reflexivity.
  - intros response j -> Hs Hj. unfold More.fetch_outcome.
    replace (400 <=? Aiohttp.status response) with false by (symmetry; apply Z.leb_gt; lia).
    rewrite Hj. unfold ParsePypi.resolve. split; [intros ->; reflexivity|].
    split; [intros ->; reflexivity|].
    intros rels -> Hne.
    destruct (FetchMore.select_release_located rels Hne) as (pre & r & post & Hrels & Hr & Hpos).
    exists pre, r, post. split; [exact Hrels|]. split; [exact Hpos|].
    rewrite Hr. reflexivity.
Qed.

Lemma X8_witness :
  fst (ParsePypi.run Spec.example_net "ghost" (ParsePypi.fetch_latest_pypi_release "ghost")
                     Spec.fresh_world)
  = ParsePypi.Raised (ParsePypi.ClientConnectionError "Cannot connect to host")
  /\ exists pre r post,
       [Spec.typed_wheel; Spec.typed_sdist] = pre ++ r :: post
       /\ fst (ParsePypi.run Spec.example_net "typed"
                             (ParsePypi.fetch_latest_pypi_release "typed") Spec.fresh_world)
          = ParsePypi.Ok
              (ParsePypi.mkDownload "typed" (PypiApi.url r) (PypiApi.packagetype r)
                                    (PypiApi.filename r)).
Proof.
  split.
  - destruct (X8_resolution_outcomes Spec.example_net "ghost" "ghost" Spec.fresh_world)
      as (_ & H & _).
    apply H. reflexivity.
  - destruct (X8_resolution_outcomes Spec.example_net "typed" "typed" Spec.fresh_world)
      as (_ & _ & _ & H).
    destruct (H (Aiohttp.mkResponse 200
                   (Some (PypiApi.mkMetadata
                            {[ "1.0" := [Spec.typed_wheel; Spec.typed_sdist] ]} "1.0"))
                   Spec.no_body)
                (PypiApi.mkMetadata {[ "1.0" := [Spec.typed_wheel; Spec.typed_sdist] ]} "1.0")
                eq_refl ltac:(simpl; lia) eq_refl) as (_ & _ & Hsome).
    destruct (Hsome [Spec.typed_wheel; Spec.typed_sdist] eq_refl ltac:(discriminate))
      as (pre & r & post & Hrels & _ & Hout).
    exists pre, r, post. split; [exact Hrels | exact Hout].
Defined.

(** X9. The download does not look at the status of the response: whatever
    the status, the bytes received are handed to the archive reader, and
    the outcome is decided by the release and those bytes alone.  The
    download step therefore never raises a response-status error. *)
Theorem X9_download_status_is_ignored (net : nat -> string -> Aiohttp.Reply)
    (owner : string) (r : ParsePypi.PypiReleaseDownload) (w : ParsePypi.World) :
  (forall response,
      net (length (ParsePypi.requests w)) (ParsePypi.url r) = Aiohttp.Received response ->
      ParsePypi.run net owner (ParsePypi.release_contains_py_typed r) w
      = (ParsePypi.scan_release r (Aiohttp.read response),
         ParsePypi.record_request owner (ParsePypi.url r) w))
  /\ (forall status,
        fst (ParsePypi.run net owner (ParsePypi.release_contains_py_typed r) w)
        <> ParsePypi.Raised (ParsePypi.ClientResponseError status)).
Proof.
  split.
  - intros response H. rewrite OrchestratorFacts.run_release_contains, H. reflexivity.
  - intros status. rewrite OrchestratorFacts.run_release_contains. simpl.
    destruct (net _ _) as [response | reason]; [|discriminate].
    unfold ParsePypi.scan_release, ParsePypi.scan_with, ParsePypi.open_zip,
      ParsePypi.open_tar_gz.
    repeat match goal with
           | |- context [if ?b then _ else _] => destruct b
           | |- context [match ?o with Some _ => _ | None => _ end] => destruct o
           end; discriminate.
Qed.

Lemma X9_witness :
  ParsePypi.run (fun _ _ => Spec.status_reply 503) "p"
    (ParsePypi.release_contains_py_typed (Spec.download_of "p" Spec.wheel_release))
    Spec.fresh_world
  = (ParsePypi.Raised ParsePypi.BadZipFile,
     ParsePypi.record_request "p" "https://files.example/p-1.0-py3-none-any.whl"
                              Spec.fresh_world).
Proof.
  destruct (X9_download_status_is_ignored (fun _ _ => Spec.status_reply 503) "p"
              (Spec.download_of "p" Spec.wheel_release) Spec.fresh_world) as [H _].
  rewrite (H (Aiohttp.mkResponse 503 None Spec.no_body) eq_refl). reflexivity.
Defined.

(** X10. The package type is tested before the filename: a release that
    is neither a wheel nor a source distribution raises the assertion
    error for an unknown package type whatever its filename, even [.whl]
    or [.zip], with a message that names the distribution and ends in the
    [repr] of the type, which for a type of plain characters is the type
    between single quotes; a wheel whose filename does not end in [.whl]
    raises an assertion error even when it ends in [.zip]; and a scan
    that returns a verdict went through one of the three accepted pairs of
    type and suffix, on bytes the matching reader accepted. *)
Theorem X10_package_type_comes_first (r : ParsePypi.PypiReleaseDownload) (body : Aiohttp.Body) :
  (ParsePypi.packagetype r <> "bdist_wheel" -> ParsePypi.packagetype r <> "sdist" ->
   exists quoted,
     ParsePypi.scan_release r body
     = ParsePypi.Raised
         (ParsePypi.AssertionError
            ("Unknown package type for " +:+ ParsePypi.distribution r +:+ ": " +:+ quoted))
     /\ (More.plain (ParsePypi.packagetype r) = true ->
         quoted = "'" +:+ ParsePypi.packagetype r +:+ "'"))
  /\ (ParsePypi.packagetype r = "bdist_wheel" ->
      PyStr.endswith (ParsePypi.filename r) ".whl" = false ->
      ParsePypi.scan_release r body = ParsePypi.Raised (ParsePypi.AssertionError EmptyString))
  /\ (forall b,
        ParsePypi.scan_release r body = ParsePypi.Ok b ->
        (ParsePypi.packagetype r = "bdist_wheel"
         /\ PyStr.endswith (ParsePypi.filename r) ".whl" = true
         /\ exists infolist, Aiohttp.as_zip body = Some infolist
              /\ b = ParsePypi.all_py_files_in_source_are_in_py_typed_dirs
                       (ParsePypi.ZipFile infolist))
        \/ (ParsePypi.packagetype r = "sdist"
            /\ PyStr.endswith (ParsePypi.filename r) ".tar.gz" = true
            /\ exists members, Aiohttp.as_tar_gz body = Some members
                 /\ b = ParsePypi.all_py_files_in_source_are_in_py_typed_dirs
                          (ParsePypi.TarFile members))
        \/ (ParsePypi.packagetype r = "sdist"
            /\ PyStr.endswith (ParsePypi.filename r) ".zip" = true
            /\ exists infolist, Aiohttp.as_zip body = Some infolist
                 /\ b = ParsePypi.all_py_files_in_source_are_in_py_typed_dirs
                          (ParsePypi.ZipFile infolist))).
Proof.
  split; [|split].
  - intros H1 H2. exists (ParsePypi.repr_str (ParsePypi.packagetype r)).
    split; [|intros _; reflexivity]. unfold ParsePypi.scan_release.
    apply String.eqb_neq in H1, H2. rewrite H1, H2. reflexivity.
  - intros H1 H2. unfold ParsePypi.scan_release. rewrite H1, H2. reflexivity.
  - intros b. unfold ParsePypi.scan_release, ParsePypi.scan_with, ParsePypi.open_zip,
      ParsePypi.open_tar_gz.
    destruct (String.eqb (ParsePypi.packagetype r) "bdist_wheel") eqn:Hw.
    + apply String.eqb_eq in Hw.
      destruct (PyStr.endswith (ParsePypi.filename r) ".whl"); [|discriminate].
      destruct (Aiohttp.as_zip body) as [infolist|]; [|discriminate].
      intros [= <-]. left. eauto.
    + destruct (String.eqb (ParsePypi.packagetype r) "sdist") eqn:Hs; [|discriminate].
      apply String.eqb_eq in Hs.
      destruct (PyStr.endswith (ParsePypi.filename r) ".tar.gz").
      * destruct (Aiohttp.as_tar_gz body) as [members|]; [|discriminate].
        intros [= <-]. right. left. eauto.
      * destruct (PyStr.endswith (ParsePypi.filename r) ".zip"); [|discriminate].
        destruct (Aiohttp.as_zip body) as [infolist|]; [|discriminate].
        intros [= <-]. right. right. eauto.
Qed.

Lemma X10_witness :
  ParsePypi.scan_release
    (ParsePypi.mkDownload "p" "https://files.example/p-1.0.zip" "bdist_wheel" "p-1.0.zip")
    (Aiohttp.mkBody (Some [ScanExamples.marker; ScanExamples.module]) None)
  = ParsePypi.Raised (ParsePypi.AssertionError EmptyString)
  /\ ParsePypi.scan_release
       (ParsePypi.mkDownload "p" "https://files.example/p-1.0.zip" "bdist_egg" "p-1.0.zip")
       (Aiohttp.mkBody (Some [ScanExamples.marker; ScanExamples.module]) None)
     = ParsePypi.Raised
         (ParsePypi.AssertionError "Unknown package type for p: 'bdist_egg'").
Proof.
  split.
  - apply (proj1 (proj2 (X10_package_type_comes_first _ _))); reflexivity.
  - destruct (proj1 (X10_package_type_comes_first
                       (ParsePypi.mkDownload "p" "https://files.example/p-1.0.zip" "bdist_egg"
                                             "p-1.0.zip")
                       (Aiohttp.mkBody (Some [ScanExamples.marker; ScanExamples.module]) None)))
      as (quoted & Hscan & Hplain); [discriminate | discriminate |].
    rewrite Hscan, (Hplain eq_refl). reflexivity.
Defined.

(** X11. The classification of a package requests the metadata first and
    the artifact only when the resolution succeeded, at the URL the
    resolution returned; it requests nothing else, writes no row and logs
    nothing.  When the resolution fails, its error is the error of the
    classification. *)
Theorem X11_classification_requests (net : nat -> string -> Aiohttp.Reply)
    (owner pkg : string) (w : ParsePypi.World) :
  let resolved := fst (ParsePypi.run net owner (ParsePypi.fetch_latest_pypi_release pkg) w) in
  let out := ParsePypi.run net owner (ParsePypi.is_typed_package pkg) w in
  ParsePypi.output_file (snd out) = ParsePypi.output_file w
  /\ ParsePypi.log (snd out) = ParsePypi.log w
  /\ (forall r,
        resolved = ParsePypi.Ok r ->
        ParsePypi.requests (snd out)
        = ParsePypi.requests w ++ [(owner, More.metadata_url pkg); (owner, ParsePypi.url r)])
  /\ (forall e,
        resolved = ParsePypi.Raised e ->
        fst out = ParsePypi.Raised e
        /\ ParsePypi.requests (snd out)
           = ParsePypi.requests w ++ [(owner, More.metadata_url pkg)]).
Proof.
  intros resolved out. unfold resolved, out.
  rewrite FetchMore.run_is_typed, FetchMore.run_fetch. simpl.
  destruct (More.fetch_outcome pkg _) as [r | e]; simpl.
  - split; [reflexivity|]. split; [reflexivity|]. split.
    + intros r' [= <-]. rewrite <- app_assoc. reflexivity.
    + intros e [=].
  - split; [reflexivity|]. split; [reflexivity|]. split.
    + intros r [=].
    + intros e' [= <-]. split; reflexivity.
Qed.

Lemma X11_witness :
  ParsePypi.requests
    (snd (ParsePypi.run Spec.example_net "odd" (ParsePypi.is_typed_package "odd")
                        Spec.fresh_world))
  = [("odd", "https://pypi.org/pypi/odd/json");
     ("odd", "https://files.example/odd-0.3.win32.exe")].
Proof.
  destruct (X11_classification_requests Spec.example_net "odd" "odd" Spec.fresh_world)
    as (_ & _ & H & _).
  apply (H (Spec.download_of "odd" Spec.odd_installer)). vm_compute. reflexivity.
Defined.

(** X12. When the scan finds bundled typing, the stub distribution is not
    looked up: the task issues no further request and writes the row of
    the package with [True] and an empty third column. *)
Theorem X12_typed_package_skips_stub_lookup (net : nat -> string -> Aiohttp.Reply)
    (pkg : string) (i total : Z) (w w1 : ParsePypi.World) :
  ParsePypi.run net pkg (ParsePypi.is_typed_package pkg) w = (ParsePypi.Ok true, w1) ->
  ParsePypi.run net pkg (ParsePypi.process_package pkg i total) w
  = (ParsePypi.Ok tt,
     ParsePypi.mkWorld
       (ParsePypi.requests w1)
       (Some (ParsePypi.rows w1 ++ [ParsePypi.mkRow pkg true None]))
       (ParsePypi.log w1 ++ [More.result_line pkg i total true None])).
Proof. intros H. rewrite FetchMore.run_process_exact, H. reflexivity. Qed.

Lemma X12_witness :
  ParsePypi.run Spec.example_net "typed" (ParsePypi.process_package "typed" 1 1)
                Spec.fresh_world
  = (ParsePypi.Ok tt,
     ParsePypi.mkWorld
       [("typed", "https://pypi.org/pypi/typed/json");
        ("typed", "https://files.example/typed-1.0-py3-none-any.whl")]
       (Some [ParsePypi.mkRow "typed" true None])
       [(ParsePypi.INFO, "[1/1] Result for typed: has_py_typed=True has_types_package=None")]).
Proof.
  rewrite (X12_typed_package_skips_stub_lookup Spec.example_net "typed" 1 1 Spec.fresh_world
             (ParsePypi.mkWorld
                [("typed", "https://pypi.org/pypi/typed/json");
                 ("typed", "https://files.example/typed-1.0-py3-none-any.whl")] None [])).
  - reflexivity.
  - vm_compute. reflexivity.
Defined.

Module EffectMore.

Import ParsePypi Spec More.

Lemma stub_warnings_short pkg reply : (length (stub_warnings pkg reply) <= 1)%nat.
Proof.
  unfold stub_warnings. destruct reply as [response | reason]; simpl; [|lia].
  destruct (Aiohttp.status response =? 200); simpl; [lia|].
  destruct (Aiohttp.status response =? 404); simpl; lia.
Qed.

Ltac conjuncts :=
  repeat match goal with |- _ /\ _ => split end.

End EffectMore.

(** X13. Whatever the network answers, the task of a package returns
    after one to three requests, all its own, at most one row, which is
    for its package, and one or two log records; the rows, the requests
    and the log it found are kept as they were, in front of what it adds. *)
Theorem X13_task_effects_are_bounded (net : nat -> string -> Aiohttp.Reply)
    (pkg : string) (i total : Z) (w : ParsePypi.World) :
  let out := ParsePypi.run net pkg (ParsePypi.process_package pkg i total) w in
  fst out = ParsePypi.Ok tt
  /\ exists issued appended lines,
       ParsePypi.requests (snd out) = ParsePypi.requests w ++ issued
       /\ (1 <= length issued <= 3)%nat
       /\ Forall (fun q => fst q = pkg) issued
       /\ ParsePypi.rows (snd out) = ParsePypi.rows w ++ appended
       /\ (length appended <= 1)%nat
       /\ Forall (fun row => ParsePypi.package row = pkg) appended
       /\ (appended = [] -> ParsePypi.output_file (snd out) = ParsePypi.output_file w)
       /\ ParsePypi.log (snd out) = ParsePypi.log w ++ lines
       /\ (1 <= length lines <= 2)%nat.
Proof.
  intros out. unfold out. rewrite FetchMore.run_process_exact, FetchMore.run_is_typed.
  destruct (More.fetch_outcome pkg _) as [r | e].
  - destruct (match net (S (length (ParsePypi.requests w))) (ParsePypi.url r) with
              | Aiohttp.Received response => ParsePypi.scan_release r (Aiohttp.read response)
              | Aiohttp.Failed reason =>
                  ParsePypi.Raised (ParsePypi.ClientConnectionError reason)
              end) as [[|] | e]; (split; [reflexivity|]).
    + exists [(pkg, More.metadata_url pkg); (pkg, ParsePypi.url r)],
             [ParsePypi.mkRow pkg true None], [More.result_line pkg i total true None].
      cbn [fst snd]. unfold More.record_result, ParsePypi.rows. simpl.
      rewrite <- ?app_assoc. EffectMore.conjuncts;
        try reflexivity; try lia; try discriminate; repeat constructor.
    + set (reply := net _ (Spec.stub_url pkg)).
      exists [(pkg, More.metadata_url pkg); (pkg, ParsePypi.url r); (pkg, Spec.stub_url pkg)],
             [ParsePypi.mkRow pkg false (Spec.stub_verdict reply)],
             (More.stub_warnings pkg reply
              ++ [More.result_line pkg i total false (Spec.stub_verdict reply)]).
      pose proof (EffectMore.stub_warnings_short pkg reply) as Hshort.
      cbn [fst snd]. unfold More.record_result, More.record_stub_lookup, ParsePypi.rows. simpl.
      rewrite <- ?app_assoc, ?length_app. simpl. EffectMore.conjuncts;
        try reflexivity; try lia; try discriminate; repeat constructor.
    + exists [(pkg, More.metadata_url pkg); (pkg, ParsePypi.url r)], [],
             [Spec.error_line pkg i total].
      cbn [fst snd]. unfold ParsePypi.rows. simpl.
      rewrite <- ?app_assoc, ?app_nil_r. EffectMore.conjuncts;
        try reflexivity; try lia; repeat constructor.
  - split; [reflexivity|].
    exists [(pkg, More.metadata_url pkg)], [], [Spec.error_line pkg i total].
    cbn [fst snd]. unfold ParsePypi.rows. simpl.
    rewrite ?app_nil_r. EffectMore.conjuncts; try reflexivity; try lia; repeat constructor.
Qed.

(** X14. The stub lookup issues one request, for the index document of
    the stub distribution, leaves the output table alone and never raises.
    It logs one warning exactly when its answer is [None], that is on a
    status other than 200 and 404 and on a transport failure, and logs
    nothing exactly when it answers [True] or [False]. *)
Theorem X14_stub_lookup_warns_when_unknown (net : nat -> string -> Aiohttp.Reply)
    (owner pkg : string) (w : ParsePypi.World) :
  let reply := net (length (ParsePypi.requests w)) (Spec.stub_url pkg) in
  let out := ParsePypi.run net owner (ParsePypi.has_types_stub_package pkg) w in
  ParsePypi.requests (snd out) = ParsePypi.requests w ++ [(owner, Spec.stub_url pkg)]
  /\ ParsePypi.output_file (snd out) = ParsePypi.output_file w
  /\ (exists answer, fst out = ParsePypi.Ok answer)
  /\ (fst out = ParsePypi.Ok None
      <-> exists msg, ParsePypi.log (snd out) = ParsePypi.log w ++ [(ParsePypi.WARNING, msg)])
  /\ ((exists b, fst out = ParsePypi.Ok (Some b))
      <-> ParsePypi.log (snd out) = ParsePypi.log w)
  /\ (forall response,
        reply = Aiohttp.Received response ->
        Aiohttp.status response <> 200 -> Aiohttp.status response <> 404 ->
        fst out = ParsePypi.Ok None
        /\ ParsePypi.log (snd out)
           = ParsePypi.log w
             ++ [(ParsePypi.WARNING,
                  "Unexpected status " +:+ pretty (Aiohttp.status response)
                  +:+ " when checking " +:+ ("types-" +:+ pkg))])
  /\ (forall reason,
        reply = Aiohttp.Failed reason ->
        fst out = ParsePypi.Ok None
        /\ ParsePypi.log (snd out)
           = ParsePypi.log w
             ++ [(ParsePypi.WARNING,
                  "Error checking types stub for " +:+ pkg +:+ ": " +:+ reason)]).
Proof.
  intros reply out. unfold out. rewrite FetchMore.run_stub_exact. fold reply. simpl.
  assert (Hgrow : forall (l : list (ParsePypi.Level * string)) x, l ++ [x] <> l).
  { intros l x H. rewrite <- (app_nil_r l) in H at 2. apply app_inv_head in H. discriminate H. }
  split; [reflexivity|]. split; [reflexivity|]. split; [eauto|].
  unfold Spec.stub_verdict, More.stub_warnings.
  destruct reply as [response | reason].
  - destruct (Aiohttp.status response =? 200) eqn:E200.
    { rewrite app_nil_r. split; [split; [discriminate | intros [msg H]; destruct (Hgrow _ _ (eq_sym H))]|].
      split; [split; [reflexivity | eauto]|].
      split; [|discriminate]. intros r [= <-] H. apply Z.eqb_eq in E200. contradiction. }
    destruct (Aiohttp.status response =? 404) eqn:E404.
    { rewrite app_nil_r. split; [split; [discriminate | intros [msg H]; destruct (Hgrow _ _ (eq_sym H))]|].
      split; [split; [reflexivity | eauto]|].
      split; [|discriminate]. intros r [= <-] _ H. apply Z.eqb_eq in E404. contradiction. }
    split; [split; [eauto | reflexivity]|].
    split; [split; [intros [b H]; discriminate H | intros H; destruct (Hgrow _ _ H)]|].
    split; [|discriminate]. intros r [= <-] _ _. split; reflexivity.
  - split; [split; [eauto | reflexivity]|].
    split; [split; [intros [b H]; discriminate H | intros H; destruct (Hgrow _ _ H)]|].
    split; [discriminate|]. intros r [= <-]. split; reflexivity.
Qed.

Lemma X14_witness :
  ParsePypi.log
    (snd (ParsePypi.run (fun _ _ => Spec.status_reply 429) "p"
                        (ParsePypi.has_types_stub_package "p") Spec.fresh_world))
  = [(ParsePypi.WARNING, "Unexpected status 429 when checking types-p")].
Proof.
  destruct (X14_stub_lookup_warns_when_unknown (fun _ _ => Spec.status_reply 429) "p" "p"
              Spec.fresh_world) as (_ & _ & _ & _ & _ & Hstatus & _).
  destruct (Hstatus (Aiohttp.mkResponse 429 None Spec.no_body) eq_refl) as [_ Hlog];
    [discriminate | discriminate |].
  rewrite Hlog. reflexivity.
Defined.

(** ** The batch: what is read, what is created, how it ends *)

Module BatchMore.

Import ParsePypi Spec More.

Lemma loop_some rows : forall num m acc,
  get_package_names_loop num rows (Some m) acc = acc ++ take (Z.to_nat (m + 1 - num)) rows.
Proof.
  induction rows as [|project rest IH]; intros num m acc; simpl.
  - rewrite take_nil, app_nil_r. reflexivity.
  - destruct (num <=? m) eqn:E.
    + apply Z.leb_le in E. rewrite IH.
      replace (Z.to_nat (m + 1 - num)) with (S (Z.to_nat (m + 1 - (num + 1)))) by lia.
      simpl. rewrite <- app_assoc. reflexivity.
    + apply Z.leb_gt in E. replace (Z.to_nat (m + 1 - num)) with 0%nat by lia.
      simpl. rewrite app_nil_r. reflexivity.
Qed.

Lemma loop_none rows : forall num acc,
  get_package_names_loop num rows None acc = acc ++ rows.
Proof.
  induction rows as [|project rest IH]; intros num acc; simpl.
  - rewrite app_nil_r. reflexivity.
  - rewrite IH, <- app_assoc. reflexivity.
Qed.

Lemma spawn_new_tasks processed total packages : forall i st,
  tasks (spawn processed total i packages st)
  = tasks st ++ new_tasks processed total i packages.
Proof.
  induction packages as [|pkg rest IH]; intros i st; simpl.
  - rewrite app_nil_r. reflexivity.
  - destruct (bool_decide (pkg ∈ processed)); rewrite IH; simpl; [reflexivity|].
    rewrite <- app_assoc. reflexivity.
Qed.

Lemma spawn_counts processed total packages : forall i st,
  skipped (spawn processed total i packages st)
  + Z.of_nat (length (tasks (spawn processed total i packages st)))
  = skipped st + Z.of_nat (length (tasks st)) + Z.of_nat (length packages)
  /\ Z.of_nat (length (skip_log (spawn processed total i packages st)))
     - skipped (spawn processed total i packages st)
     = Z.of_nat (length (skip_log st)) - skipped st.
Proof.
  induction packages as [|pkg rest IH]; intros i st; simpl; [lia|].
  destruct (bool_decide (pkg ∈ processed));
    destruct (IH (i + 1) (mkSpawned
                            (if bool_decide (pkg ∈ processed) then skipped st + 1 else skipped st)
                            (tasks st) (skip_log st))) as [_ _].
  - match goal with |- context [spawn _ _ _ _ ?s] => destruct (IH (i + 1) s) as [H1 H2] end.
    simpl in H1, H2. rewrite length_app in H2. simpl in H2. lia.
  - match goal with |- context [spawn _ _ _ _ ?s] => destruct (IH (i + 1) s) as [H1 H2] end.
    simpl in H1, H2. rewrite length_app in H1. simpl in H1. lia.
Qed.

Lemma new_tasks_lookup processed total packages : forall i k pkg t,
  new_tasks processed total i packages !! k = Some (pkg, t) ->
  exists j, packages !! j = Some pkg
            /\ (pkg ∉ processed)
            /\ t = process_package pkg (i + Z.of_nat j) total.
Proof.
  induction packages as [|p rest IH]; intros i k pkg t; simpl; [discriminate|].
  destruct (bool_decide (p ∈ processed)) eqn:E.
  - intros H. destruct (IH _ _ _ _ H) as (j & Hj & Hn & ->).
    exists (S j). split; [exact Hj|]. split; [exact Hn|]. f_equal. lia.
  - destruct k as [|k]; simpl.
    + intros [= <- <-]. exists 0%nat. split; [reflexivity|].
      split; [apply bool_decide_eq_false in E; exact E|]. f_equal. lia.
    + intros H. destruct (IH _ _ _ _ H) as (j & Hj & Hn & ->).
      exists (S j). split; [exact Hj|]. split; [exact Hn|]. f_equal. lia.
Qed.

End BatchMore.

(** X15. The list of packages read from the dataset holds one name more
    than [max_count]: the first [max_count + 1] names in file order, all
    of them when the file has fewer, so [main], with [max_count=100],
    works on at most 101 packages.  Without a count the whole file is
    read. *)
Theorem X15_package_list_bound (file : list string) :
  (forall m, ParsePypi.get_package_names file (Some m) = take (Z.to_nat (m + 1)) file)
  /\ ParsePypi.get_package_names file None = file
  /\ length (ParsePypi.get_package_names file (Some 100)) = Nat.min 101 (length file).
Proof.
  assert (H : forall m, ParsePypi.get_package_names file (Some m)
                        = take (Z.to_nat (m + 1)) file).
  { intros m. unfold ParsePypi.get_package_names. rewrite BatchMore.loop_some. simpl.
    f_equal. lia. }
  split; [exact H|]. split.
  - unfold ParsePypi.get_package_names. apply BatchMore.loop_none.
  - rewrite H, length_take. reflexivity.
Qed.

(** X16. [main] creates one task for every listed package that has no row
    in the output table, in list order, and none for the others; each
    task carries the position of its package in the whole list, counted
    from 1, and the length of that list.  The packages skipped and the
    tasks created add up to the list, and every skipped package has its
    log record. *)
Theorem X16_tasks_created (file : list string) (w : ParsePypi.World) :
  let packages := ParsePypi.get_package_names file (Some 100) in
  let total := Z.of_nat (length packages) in
  let s := ParsePypi.main_spawn file w in
  fst <$> ParsePypi.tasks s
  = filter (fun pkg => pkg ∉ ParsePypi.load_processed_packages w) packages
  /\ (forall pkg,
        pkg ∈ (fst <$> ParsePypi.tasks s) <->
        pkg ∈ packages
        /\ ~ exists row, In row (ParsePypi.rows w) /\ ParsePypi.package row = pkg)
  /\ (forall k pkg t,
        ParsePypi.tasks s !! k = Some (pkg, t) ->
        exists j, packages !! j = Some pkg
                  /\ t = ParsePypi.process_package pkg (Z.of_nat j + 1) total)
  /\ ParsePypi.skipped s + Z.of_nat (length (ParsePypi.tasks s)) = total
  /\ Z.of_nat (length (ParsePypi.skip_log s)) = ParsePypi.skipped s.
Proof.
  intros packages total s.
  assert (Howners : fst <$> ParsePypi.tasks s
                    = filter (fun pkg => pkg ∉ ParsePypi.load_processed_packages w) packages).
  { unfold s, ParsePypi.main_spawn. rewrite OnceFacts.spawn_owners. reflexivity. }
  split; [exact Howners|]. split; [|split; [|split]].
  - intros pkg. rewrite Howners, list_elem_of_filter, BatchFacts.load_processed_spec. tauto.
  - intros k pkg t Hk. unfold s, ParsePypi.main_spawn in Hk.
    rewrite BatchMore.spawn_new_tasks in Hk. simpl in Hk.
    destruct (BatchMore.new_tasks_lookup _ _ _ _ _ _ _ Hk) as (j & Hj & _ & ->).
    exists j. split; [exact Hj|]. f_equal. lia.
  - unfold s, ParsePypi.main_spawn.
    destruct (BatchMore.spawn_counts (ParsePypi.load_processed_packages w) total packages 1
                (ParsePypi.mkSpawned 0 [] [])) as [H _].
    simpl in H. fold packages total. lia.
  - unfold s, ParsePypi.main_spawn.
    destruct (BatchMore.spawn_counts (ParsePypi.load_processed_packages w) total packages 1
                (ParsePypi.mkSpawned 0 [] [])) as [_ H].
    simpl in H. fold packages total. lia.
Qed.

Lemma X16_witness :
  exists j,
    ParsePypi.get_package_names ["typed"; "untyped"; "odd"] (Some 100) !! j = Some "odd"
    /\ ParsePypi.process_package "odd" 3 3
       = ParsePypi.process_package "odd" (Z.of_nat j + 1)
           (Z.of_nat (length (ParsePypi.get_package_names ["typed"; "untyped"; "odd"]
                                                          (Some 100)))).
Proof.
  destruct (X16_tasks_created ["typed"; "untyped"; "odd"] Spec.resumed_world)
    as (_ & _ & H & _).
  exact (H 1%nat "odd" (ParsePypi.process_package "odd" 3 3) eq_refl).
Defined.

(** ** The batch: no package is dropped *)

Module AccountMore.

Import ParsePypi Spec More.

Lemma owes_after_classification pkg i total (t : Task (bool * option bool)) :
  holds no_row anything t ->
  owes pkg i total
    (bind (try_except (bind t (fun r => Ret (Some r)))
             (fun _ => Log ERROR (progress i total +:+ " Error processing " +:+ pkg)
                           (Ret None)))
          (fun outcome =>
             match outcome with
             | None => Ret tt
             | Some (has_py_typed, has_types_package) =>
                 AppendCsv (mkRow pkg has_py_typed has_types_package)
                   (Log INFO
                      (progress i total +:+ " Result for " +:+ pkg
                       +:+ ": has_py_typed=" +:+ Builtins.repr_bool has_py_typed
                       +:+ " has_types_package="
                       +:+ Builtins.repr_option_bool has_types_package)
                      (Ret tt))
             end)).
Proof.
  induction t as [[b o] | e | url k IH | row k IH | level msg k IH]; simpl.
  - intros _. split; reflexivity.
  - intros _. left. split; reflexivity.
  - intros [_ H] reply. apply IH. apply H.
  - intros [[] _].
  - intros [_ H]. right. apply IH. exact H.
Qed.

Lemma owes_process pkg i total : owes pkg i total (process_package pkg i total).
Proof.
  unfold process_package. apply owes_after_classification.
  apply TaskFacts.quiet_classify_package.
Qed.

Lemma accounted_grows pkg i total appended lines a l :
  accounted pkg i total appended lines ->
  accounted pkg i total (appended ++ a) (lines ++ l).
Proof.
  intros [H | (row & Hrow & Hpkg & Hline)].
  - left. apply List.in_or_app. left. exact H.
  - right. exists row. split; [apply List.in_or_app; left; exact Hrow|].
    split; [exact Hpkg | apply List.in_or_app; left; exact Hline].
Qed.

Lemma standing_grows pkg i total appended lines a l t :
  standing pkg i total appended lines t ->
  standing pkg i total (appended ++ a) (lines ++ l) t.
Proof.
  intros [H | [(row & Hrow & Hpkg & Ht) | [Ht H]]].
  - left. exact H.
  - right. left. exists row. split; [apply List.in_or_app; left; exact Hrow | auto].
  - right. right. split; [exact Ht | apply accounted_grows; exact H].
Qed.

Lemma standing_all_grow total appended lines a l (labels : list (string * Z)) (pool : Pool) :
  Forall2 (fun lab ot =>
             fst ot = fst lab /\ standing (fst lab) (snd lab) total appended lines (snd ot))
          labels pool ->
  Forall2 (fun lab ot =>
             fst ot = fst lab
             /\ standing (fst lab) (snd lab) total (appended ++ a) (lines ++ l) (snd ot))
          labels pool.
Proof.
  intros H. eapply Forall2_impl; [exact H|]. intros lab ot [Hown Hst].
  split; [exact Hown | apply standing_grows; exact Hst].
Qed.

(** One effect of a task moves it along: what it did is appended to what
    the batch has done. *)
Lemma standing_step owner pkg i total appended lines t w t' w' :
  task_step owner t w t' w' ->
  standing pkg i total appended lines t ->
  exists a l,
    rows w' = rows w ++ a /\ log w' = log w ++ l
    /\ standing pkg i total (appended ++ a) (lines ++ l) t'.
Proof.
  intros Hstep Hst. destruct Hstep as [url k reply w | row k w | level msg k w].
  - exists [], []. rewrite !app_nil_r. split; [reflexivity|]. split; [reflexivity|].
    destruct Hst as [H | [(row & _ & _ & Ht) | [Ht _]]]; [|discriminate Ht | discriminate Ht].
    left. apply H.
  - exists [row], []. rewrite !app_nil_r. split; [reflexivity|]. split; [reflexivity|].
    destruct Hst as [[Hpkg Hk] | [(row' & _ & _ & Ht) | [Ht _]]];
      [|discriminate Ht | discriminate Ht].
    right. left. exists row. split; [apply List.in_or_app; right; left; reflexivity|].
    split; [exact Hpkg | exact Hk].
  - exists [], [(level, msg)]. rewrite !app_nil_r. split; [reflexivity|].
    split; [reflexivity|].
    destruct Hst as [[[Hline Hk] | H] | [(row & Hrow & Hpkg & Ht) | [Ht _]]];
      [| | | discriminate Ht].
    + right. right. split; [exact Hk|]. left. rewrite <- Hline.
      apply List.in_or_app. right. left. reflexivity.
    + left. exact H.
    + injection Ht as -> -> ->. right. right. split; [reflexivity|]. right.
      exists row. split; [exact Hrow|]. split; [exact Hpkg|].
      apply List.in_or_app. right. left. unfold result_line. reflexivity.
Qed.

Lemma account_step w0 total labels st st' :
  pool_step st st' -> account_inv w0 total labels st -> account_inv w0 total labels st'.
Proof.
  intros Hstep (appended & lines & Hrows & Hlog & Hall).
  destruct Hstep as [n owner t t' w w' pool Hn _ Hstep]. simpl in *. unfold Pool in *.
  destruct (Forall2_lookup_r _ _ _ _ _ Hall Hn) as ([pkg i] & Hlab & Hown & Hst).
  simpl in Hown, Hst.
  destruct (standing_step owner pkg i total appended lines t w t' w' Hstep Hst)
    as (a & l & Hrows' & Hlog' & Hst').
  exists (appended ++ a), (lines ++ l). simpl.
  split; [rewrite Hrows', Hrows, <- app_assoc; reflexivity|].
  split; [rewrite Hlog', Hlog, <- app_assoc; reflexivity|].
  rewrite <- (list_insert_id labels n (pkg, i) Hlab).
  apply Forall2_insert; [apply standing_all_grow; exact Hall|].
  split; [exact Hown | exact Hst'].
Qed.

Lemma account_reachable w0 total labels st st' :
  rtc pool_step st st' -> account_inv w0 total labels st -> account_inv w0 total labels st'.
Proof.
  induction 1 as [st | st st1 st2 Hstep _ IH]; [auto|].
  intros H. apply IH. apply (account_step w0 total labels st st1 Hstep H).
Qed.

Lemma new_tasks_standing processed total packages : forall i,
  Forall2 (fun (lab : string * Z) (ot : string * Task unit) =>
             fst ot = fst lab /\ standing (fst lab) (snd lab) total [] [] (snd ot))
          (new_labels processed i packages) (new_tasks processed total i packages).
Proof.
  induction packages as [|pkg rest IH]; intros i; simpl; [constructor|].
  destruct (bool_decide (pkg ∈ processed)); [apply IH|].
  constructor; [|apply IH]. split; [reflexivity|]. left. apply owes_process.
Qed.

Lemma new_labels_position processed packages : forall i j pkg,
  packages !! j = Some pkg -> pkg ∉ processed ->
  exists k, new_labels processed i packages !! k = Some (pkg, i + Z.of_nat j).
Proof.
  induction packages as [|p rest IH]; intros i j pkg Hj Hnot; [discriminate|].
  simpl. destruct j as [|j]; simpl in Hj.
  - injection Hj as ->. rewrite bool_decide_eq_false_2 by exact Hnot.
    exists 0%nat. simpl. do 2 f_equal. lia.
  - destruct (IH (i + 1) j pkg Hj Hnot) as [k Hk].
    replace (i + Z.of_nat (S j)) with (i + 1 + Z.of_nat j) by lia.
    destruct (bool_decide (p ∈ processed)); [exists k | exists (S k)]; exact Hk.
Qed.

Lemma main_start_account file w :
  account_inv (snd (main_start file w))
    (Z.of_nat (length (get_package_names file (Some 100))))
    (new_labels (load_processed_packages w) 1 (get_package_names file (Some 100)))
    (main_start file w).
Proof.
  exists [], []. rewrite !app_nil_r. split; [reflexivity|]. split; [reflexivity|].
  unfold main_start, main_spawn. simpl. rewrite BatchMore.spawn_new_tasks. simpl.
  apply new_tasks_standing.
Qed.

End AccountMore.

(** X17. No package is dropped silently.  Under every schedule, every
    listed package without a row in the loaded table has its task in the
    pool, and once that task has returned the batch has logged the error
    record of the package, or it has appended a row of the package and
    logged the result record of that row, each with the number of the
    package in the list. *)
Theorem X17_no_package_is_dropped (file : list string) (w : ParsePypi.World)
    (pool' : ParsePypi.Pool) (w' : ParsePypi.World) :
  rtc ParsePypi.pool_step (ParsePypi.main_start file w) (pool', w') ->
  let packages := ParsePypi.get_package_names file (Some 100) in
  let total := Z.of_nat (length packages) in
  exists appended lines,
    ParsePypi.rows w' = ParsePypi.rows w ++ appended
    /\ ParsePypi.log w' = ParsePypi.log (snd (ParsePypi.main_start file w)) ++ lines
    /\ forall j pkg,
         packages !! j = Some pkg ->
         pkg ∉ ParsePypi.load_processed_packages w ->
         exists k t,
           pool' !! k = Some (pkg, t)
           /\ (ParsePypi.has_returned t = true ->
               In (Spec.error_line pkg (Z.of_nat j + 1) total) lines
               \/ exists row,
                    In row appended /\ ParsePypi.package row = pkg
                    /\ In (More.result_line pkg (Z.of_nat j + 1) total
                             (ParsePypi.has_py_typed row) (ParsePypi.has_types_package row))
                          lines).
Proof.
  intros Hreach packages total.
  destruct (AccountMore.account_reachable _ _ _ _ _ Hreach
              (AccountMore.main_start_account file w))
    as (appended & lines & Hrows & Hlog & Hall).
  simpl in Hrows, Hlog, Hall.
  exists appended, lines. split; [exact Hrows|]. split; [exact Hlog|].
  intros j pkg Hj Hnot.
  destruct (AccountMore.new_labels_position _ _ 1 j pkg Hj Hnot) as [k Hk].
  destruct (Forall2_lookup_l _ _ _ _ _ Hall Hk) as ([owner t] & Hpool & Hown & Hst).
  simpl in Hown, Hst. subst owner.
  exists k, t. split; [exact Hpool|]. intros Hret.
  replace (Z.of_nat j + 1) with (1 + Z.of_nat j) by lia.
  destruct Hst as [Howes | [(row & _ & _ & Ht) | [_ Hacc]]].
  - destruct t; try discriminate. destruct Howes.
  - rewrite Ht in Hret. discriminate Hret.
  - exact Hacc.
Qed.

Lemma X17_witness :
  exists appended lines,
    ParsePypi.rows (snd (Spec.seq_end Spec.example_net ["ghost"; "untyped"] Spec.fresh_world))
    = ParsePypi.rows Spec.fresh_world ++ appended
    /\ exists k t,
         fst (Spec.seq_end Spec.example_net ["ghost"; "untyped"] Spec.fresh_world) !! k
         = Some ("untyped", t)
         /\ (ParsePypi.has_returned t = true -> More.accounted "untyped" 2 2 appended lines).
Proof.
  destruct (X17_no_package_is_dropped ["ghost"; "untyped"] Spec.fresh_world
              (fst (Spec.seq_end Spec.example_net ["ghost"; "untyped"] Spec.fresh_world))
              (snd (Spec.seq_end Spec.example_net ["ghost"; "untyped"] Spec.fresh_world)))
    as (appended & lines & Hrows & _ & H).
  - rewrite <- surjective_pairing. apply ContainmentFacts.seq_end_reachable.
  - exists appended, lines. split; [exact Hrows|].
    destruct (H 1%nat "untyped" eq_refl) as (k & t & Hk & Hacc).
    + unfold ParsePypi.load_processed_packages. simpl. apply not_elem_of_empty.
    + exists k, t. split; [exact Hk | exact Hacc].
Defined.

(** ** The new-package detector: names, the issue and its body *)

Module IssueMore.

Import DetectProjects Spec More.

Lemma sorted_unique (l1 : list string) : forall l2,
  StronglySorted ascending l1 -> StronglySorted ascending l2 ->
  Permutation l1 l2 -> l1 = l2.
Proof.
  induction l1 as [|x l1 IH]; intros l2 H1 H2 Hp.
  - apply Permutation_nil in Hp. congruence.
  - destruct l2 as [|y l2].
    { apply Permutation_sym, Permutation_nil in Hp. discriminate. }
    apply StronglySorted_inv in H1 as [H1 Hx]. apply StronglySorted_inv in H2 as [H2 Hy].
    assert (x = y) as <-.
    { assert (In x (y :: l2)) as [-> | Hin]
        by (apply (Permutation_in _ Hp); left; reflexivity); [reflexivity|].
      assert (In y (x :: l1)) as [-> | Hin']
        by (apply (Permutation_in _ (Permutation_sym Hp)); left; reflexivity); [reflexivity|].
      apply String.leb_antisym.
      - exact (proj1 (List.Forall_forall _ _) Hx y Hin').
      - exact (proj1 (List.Forall_forall _ _) Hy x Hin). }
    f_equal. apply IH; [exact H1 | exact H2 |]. apply (Permutation_cons_inv Hp).
Qed.

Lemma sorted_app_order (l1 l2 : list string) :
  StronglySorted ascending (l1 ++ l2) ->
  forall a b, In a l1 -> In b l2 -> ascending a b.
Proof.
  induction l1 as [|x l1 IH]; simpl; intros H a b Ha Hb; [destruct Ha|].
  apply StronglySorted_inv in H as [H Hx]. destruct Ha as [<- | Ha].
  - apply (proj1 (List.Forall_forall _ _) Hx). apply List.in_or_app. right. exact Hb.
  - apply (IH H a b Ha Hb).
Qed.

Lemma is_tracked_spec issue :
  is_tracked issue = true
  <-> title issue = issue_title /\ In "new package" (labels issue).
Proof.
  unfold is_tracked. rewrite andb_true_iff, String.eqb_eq, bool_decide_eq_true,
    list_elem_of_In. reflexivity.
Qed.

Lemma find_first {A} (P : A -> bool) pre x post :
  P x = true -> (forall y, In y pre -> P y = false) ->
  List.find P (pre ++ x :: post) = Some x.
Proof.
  intros Hx Hpre. induction pre as [|y pre IH]; simpl.
  - rewrite Hx. reflexivity.
  - rewrite (Hpre y (or_introl eq_refl)). apply IH. intros z Hz. apply Hpre. right. exact Hz.
Qed.

Lemma find_none {A} (P : A -> bool) l :
  (forall y, In y l -> P y = false) -> List.find P l = None.
Proof.
  induction l as [|y l IH]; simpl; intros H; [reflexivity|].
  rewrite (H y (or_introl eq_refl)). apply IH. intros z Hz. apply H. right. exact Hz.
Qed.

End IssueMore.

(** X18. The names in the issue body do not depend on the order in which
    the set of packages is enumerated: sorting any enumeration of the set
    gives the same list, the only ascending listing of the set. *)
Theorem X18_listing_is_canonical (packages : gset string) (l : list string) :
  Permutation l (elements packages) ->
  Builtins.sorted (fun x : string => x) String.leb l = DetectProjects.sorted_packages packages
  /\ (StronglySorted (fun a b => String.leb a b = true) l ->
      l = DetectProjects.sorted_packages packages).
Proof.
  intros Hp.
  assert (Hsorted : forall l', StronglySorted More.ascending
                                 (Builtins.sorted (fun x : string => x) String.leb l')).
  { intros l'. apply (SortFacts.sorted_is_sorted (fun x : string => x) String.leb).
    - apply String.leb_total.
    - apply SortFacts.string_leb_trans. }
  split.
  - apply IssueMore.sorted_unique; [apply Hsorted | apply Hsorted |].
    rewrite SortFacts.sorted_perm, Hp. symmetry. apply SortFacts.sorted_perm.
  - intros Hl. apply IssueMore.sorted_unique; [exact Hl | apply Hsorted |].
    rewrite Hp. symmetry. apply SortFacts.sorted_perm.
Qed.

Lemma X18_witness :
  Builtins.sorted (fun x : string => x) String.leb ["pkg-b"; "pkg-c"; "pkg-a"]
  = DetectProjects.sorted_packages {[ "pkg-a"; "pkg-b"; "pkg-c" ]}.
Proof.
  apply (X18_listing_is_canonical {[ "pkg-a"; "pkg-b"; "pkg-c" ]} ["pkg-b"; "pkg-c"; "pkg-a"]).
  apply NoDup_Permutation.
  - compute_done.
  - apply NoDup_elements.
  - intros x. rewrite elem_of_elements, !elem_of_union, !elem_of_singleton,
      !elem_of_cons, elem_of_nil. tauto.
Defined.

(** X19. The names listed in the body are the smallest: every listed name
    is at most every name left out.  The listing has each package once,
    and the names listed and the number announced as hidden add up to the
    number of packages. *)
Theorem X19_listed_names_come_first (packages : gset string) :
  let names := DetectProjects.sorted_packages packages in
  let count := Z.of_nat (size packages) in
  (forall a b, In a (take 20 names) -> In b (drop 20 names) -> String.leb a b = true)
  /\ NoDup names
  /\ (forall x, In x names <-> x ∈ packages)
  /\ Z.of_nat (length (take 20 names)) + Z.max 0 (count - DetectProjects.max_display) = count.
Proof.
  intros names count.
  pose proof (DetectFacts.sorted_packages_perm packages) as Hp. fold names in Hp.
  split; [|split; [|split]].
  - apply IssueMore.sorted_app_order. rewrite take_drop.
    apply DetectFacts.sorted_packages_sorted.
  - rewrite Hp. apply NoDup_elements.
  - intros x. rewrite <- elem_of_elements, list_elem_of_In. split; intros H.
    + apply (Permutation_in _ Hp H).
    + apply (Permutation_in _ (Permutation_sym Hp) H).
  - pose proof (DetectFacts.sorted_packages_length packages) as Hlen. fold names in Hlen.
    rewrite length_take, Hlen. unfold count, DetectProjects.max_display. lia.
Qed.

Lemma X19_witness :
  In "pkg19" (take 20 (DetectProjects.sorted_packages Spec.many_packages))
  /\ In "pkg20" (drop 20 (DetectProjects.sorted_packages Spec.many_packages))
  /\ String.leb "pkg19" "pkg20" = true.
Proof.
  assert (H19 : In "pkg19" (take 20 (DetectProjects.sorted_packages Spec.many_packages))).
  { vm_compute. do 19 right. left. reflexivity. }
  assert (H20 : In "pkg20" (drop 20 (DetectProjects.sorted_packages Spec.many_packages))).
  { vm_compute. left. reflexivity. }
  split; [exact H19|]. split; [exact H20|].
  exact (proj1 (X19_listed_names_come_first Spec.many_packages) "pkg19" "pkg20" H19 H20).
Defined.

(** X20. The issue is updated when the list of open issues holds one with
    the title of the report and the label [new package]: the first such
    issue, by its number.  An issue with the title but without the label
    does not count; when no issue counts, a new one is created with the
    title and the labels [new package, enhancement].  Either way the body
    is the same. *)
Theorem X20_update_or_create (packages : gset string) (issues : list DetectProjects.Issue) :
  (forall pre issue post,
      issues = pre ++ issue :: post ->
      DetectProjects.title issue = DetectProjects.issue_title ->
      In "new package" (DetectProjects.labels issue) ->
      (forall other, In other pre ->
         ~ (DetectProjects.title other = DetectProjects.issue_title
            /\ In "new package" (DetectProjects.labels other))) ->
      DetectProjects.create_or_update_issue packages issues
      = DetectProjects.IssueEdit (pretty (DetectProjects.number issue))
                                 (DetectProjects.compose_body packages))
  /\ ((forall other, In other issues ->
         ~ (DetectProjects.title other = DetectProjects.issue_title
            /\ In "new package" (DetectProjects.labels other))) ->
      DetectProjects.create_or_update_issue packages issues
      = DetectProjects.IssueCreate DetectProjects.issue_title
                                   (DetectProjects.compose_body packages)
                                   "new package, enhancement").
Proof.
  assert (Hfalse : forall l : list DetectProjects.Issue,
             (forall other, In other l ->
                ~ (DetectProjects.title other = DetectProjects.issue_title
                   /\ In "new package" (DetectProjects.labels other))) ->
             forall y, In y l -> DetectProjects.is_tracked y = false).
  { intros l H y Hy. destruct (DetectProjects.is_tracked y) eqn:E; [|reflexivity].
    apply IssueMore.is_tracked_spec in E. destruct (H y Hy E). }
  split.
  - intros pre issue post -> Ht Hl Hpre. unfold DetectProjects.create_or_update_issue.
    rewrite (IssueMore.find_first DetectProjects.is_tracked pre issue post); [reflexivity | |].
    + apply IssueMore.is_tracked_spec. auto.
    + apply Hfalse. exact Hpre.
  - intros Hnone. unfold DetectProjects.create_or_update_issue.
    rewrite (IssueMore.find_none DetectProjects.is_tracked issues); [reflexivity|].
    apply Hfalse. exact Hnone.
Qed.

Lemma X20_witness :
  DetectProjects.create_or_update_issue {[ "b" ]}
    [DetectProjects.mkIssue DetectProjects.issue_title 4 ["enhancement"];
     DetectProjects.mkIssue DetectProjects.issue_title 9 ["new package"; "enhancement"];
     DetectProjects.mkIssue DetectProjects.issue_title 12 ["new package"]]
  = DetectProjects.IssueEdit "9" (DetectProjects.compose_body {[ "b" ]}).
Proof.
  destruct (X20_update_or_create {[ "b" ]}
              [DetectProjects.mkIssue DetectProjects.issue_title 4 ["enhancement"];
               DetectProjects.mkIssue DetectProjects.issue_title 9 ["new package"; "enhancement"];
               DetectProjects.mkIssue DetectProjects.issue_title 12 ["new package"]])
    as [H _].
  apply (H [DetectProjects.mkIssue DetectProjects.issue_title 4 ["enhancement"]]
           (DetectProjects.mkIssue DetectProjects.issue_title 9 ["new package"; "enhancement"])
           [DetectProjects.mkIssue DetectProjects.issue_title 12 ["new package"]]).
  - reflexivity.
  - reflexivity.
  - left. reflexivity.
  - intros other [<- | []] [_ [H4 | []]]. discriminate H4.
Defined.

Module NamesMore.

Import DetectProjects.

Lemma cell_missing column_name (row : CsvRow) :
  row !! column_name = None -> cell column_name row = None.
Proof. unfold cell. intros ->. reflexivity. Qed.

Lemma names_without_column file_obj column_name :
  (forall row, In row file_obj -> row !! column_name = None) ->
  get_names_from_csv file_obj column_name = ∅.
Proof.
  intros H. apply set_eq. intros x. rewrite DetectFacts.get_names_spec. split.
  - intros (row & Hin & Hcol & _). rewrite (H row Hin) in Hcol. discriminate.
  - intros Hx. apply not_elem_of_empty in Hx. destruct Hx.
Qed.

End NamesMore.

(** X21. The detector runs no command exactly when every name of the
    remote dataset is in the local table or is one of the two names known
    not to exist on PyPI; those two names are never reported.  A local
    table without a [package] column raises no error: it counts as empty,
    and every remote name but the two is reported as new. *)
Theorem X21_detector_reports (remote_csv local_csv : list DetectProjects.CsvRow)
    (issues : list DetectProjects.Issue) :
  let remote := DetectProjects.get_names_from_csv remote_csv "project" in
  let local := DetectProjects.get_names_from_csv local_csv "package" in
  let reported := DetectProjects.new_packages remote local DetectProjects.NON_EXISTENT_PROJECTS in
  (DetectProjects.main remote_csv local_csv issues = None
   <-> forall x, x ∈ remote -> x ∈ local \/ x = "aaaaaaaaa" \/ x = "pyairports")
  /\ ("aaaaaaaaa" ∉ reported) /\ ("pyairports" ∉ reported)
  /\ ((forall row, In row local_csv -> row !! "package" = None) ->
      forall x, x ∈ reported <-> x ∈ remote /\ x <> "aaaaaaaaa" /\ x <> "pyairports").
Proof.
  intros remote local reported.
  assert (Hex : forall x, x ∈ DetectProjects.NON_EXISTENT_PROJECTS
                          <-> x = "aaaaaaaaa" \/ x = "pyairports").
  { intros x. unfold DetectProjects.NON_EXISTENT_PROJECTS.
    rewrite elem_of_union, !elem_of_singleton. reflexivity. }
  assert (Hrep : forall x, x ∈ reported
                           <-> x ∈ remote /\ (x ∉ local) /\ ~ (x = "aaaaaaaaa" \/ x = "pyairports")).
  { intros x. unfold reported, DetectProjects.new_packages.
    rewrite !elem_of_difference, Hex. tauto. }
  split; [|split; [|split]].
  - unfold DetectProjects.main, DetectProjects.main_with. fold remote local reported.
    destruct (decide (reported ≠ ∅)) as [Hne | He].
    + rewrite bool_decide_eq_true_2 by exact Hne. split; [discriminate|].
      intros Hall. exfalso. apply Hne. apply set_eq. intros x. split.
      * intros Hx. apply Hrep in Hx as (Hr & Hl & Hn). destruct (Hall x Hr) as [H | H]; tauto.
      * intros Hx. apply not_elem_of_empty in Hx. destruct Hx.
    + rewrite bool_decide_eq_false_2 by exact He. split; [|reflexivity].
      intros _ x Hr. destruct (decide (x ∈ local)) as [Hl | Hl]; [left; exact Hl|].
      destruct (decide (x = "aaaaaaaaa")) as [H1 | H1]; [right; left; exact H1|].
      destruct (decide (x = "pyairports")) as [H2 | H2]; [right; right; exact H2|].
      exfalso. apply He. intros Hempty.
      assert (x ∈ reported) as Hx by (apply Hrep; tauto).
      rewrite Hempty in Hx. apply not_elem_of_empty in Hx. exact Hx.
  - intros H. apply Hrep in H. tauto.
  - intros H. apply Hrep in H. tauto.
  - intros Hcol x. rewrite Hrep.
    assert (local = ∅) as Hl by (apply NamesMore.names_without_column; exact Hcol).
    rewrite Hl. split.
    + intros (Hr & _ & Hn). tauto.
    + intros (Hr & H1 & H2). split; [exact Hr|]. split; [apply not_elem_of_empty|]. tauto.
Qed.

Lemma X21_witness :
  "a" ∈ DetectProjects.new_packages
          (DetectProjects.get_names_from_csv Spec.remote_table "project")
          (DetectProjects.get_names_from_csv Spec.remote_table "package")
          DetectProjects.NON_EXISTENT_PROJECTS.
Proof.
  destruct (X21_detector_reports Spec.remote_table Spec.remote_table []) as (_ & _ & _ & H).
  apply H.
  - intros row Hrow.
    repeat (destruct Hrow as [<- | Hrow]; [compute_done|]). destruct Hrow.
  - split; [compute_done|]. split; discriminate.
Defined.

(** X22. The names read from a table are the values of the column that
    are not empty: rows without the column, with a missing value or with
    an empty value add nothing, a repeated row adds nothing, and the names
    of two tables read one after the other are the union of their names.
    The empty string is never a name. *)
Theorem X22_names_of_a_table (column_name : string) :
  (forall f1 f2,
      DetectProjects.get_names_from_csv (f1 ++ f2) column_name
      = DetectProjects.get_names_from_csv f1 column_name
        ∪ DetectProjects.get_names_from_csv f2 column_name)
  /\ (forall file_obj, EmptyString ∉ DetectProjects.get_names_from_csv file_obj column_name)
  /\ (forall file_obj (row : DetectProjects.CsvRow),
        row !! column_name = None \/ row !! column_name = Some None
        \/ row !! column_name = Some (Some EmptyString) \/ In row file_obj ->
        DetectProjects.get_names_from_csv (row :: file_obj) column_name
        = DetectProjects.get_names_from_csv file_obj column_name)
  /\ (forall file_obj (row : DetectProjects.CsvRow) v,
        row !! column_name = Some (Some v) -> v <> EmptyString ->
        DetectProjects.get_names_from_csv (row :: file_obj) column_name
        = {[ v ]} ∪ DetectProjects.get_names_from_csv file_obj column_name).
Proof.
  split; [|split; [|split]].
  - intros f1 f2. apply set_eq. intros x.
    rewrite elem_of_union, !DetectFacts.get_names_spec. split.
    + intros (row & Hin & H). apply List.in_app_or in Hin as [Hin | Hin]; [left | right];
        exists row; auto.
    + intros [(row & Hin & H) | (row & Hin & H)]; exists row;
        (split; [apply List.in_or_app; auto | exact H]).
  - intros file_obj Hin. apply DetectFacts.get_names_spec in Hin as (row & _ & _ & Hne).
    congruence.
  - intros file_obj row Hrow. apply set_eq. intros x.
    rewrite !DetectFacts.get_names_spec. split.
    + intros (row' & [<- | Hin] & Hcol & Hne); [|exists row'; auto].
      destruct Hrow as [H | [H | [H | H]]].
      * rewrite H in Hcol. discriminate.
      * rewrite H in Hcol. discriminate.
      * rewrite H in Hcol. injection Hcol as <-. congruence.
      * exists row. auto.
    + intros (row' & Hin & H). exists row'. split; [right; exact Hin | exact H].
  - intros file_obj row v Hcol Hne. apply set_eq. intros x.
    rewrite elem_of_union, elem_of_singleton, !DetectFacts.get_names_spec. split.
    + intros (row' & [<- | Hin] & Hcol' & Hne').
      * rewrite Hcol in Hcol'. injection Hcol' as <-. left. reflexivity.
      * right. exists row'. auto.
    + intros [-> | (row' & Hin & H)].
      * exists row. split; [left; reflexivity | auto].
      * exists row'. split; [right; exact Hin | exact H].
Qed.

Lemma X22_witness :
  DetectProjects.get_names_from_csv Spec.remote_table "project" = {[ "a" ]} ∪ ({[ "b" ]} ∪ {[ "c" ]}).
Proof.
  destruct (X22_names_of_a_table "project") as (_ & _ & Hskip & Hadd).
  unfold Spec.remote_table.
  rewrite (Hadd _ _ "a") by (compute_done || discriminate).
  rewrite (Hadd _ _ "b") by (compute_done || discriminate).
  rewrite (Hadd _ _ "c") by (compute_done || discriminate).
  rewrite Hskip by (right; right; left; compute_done).
  unfold DetectProjects.get_names_from_csv. simpl.
  apply set_eq. intros x. rewrite !elem_of_union, !elem_of_singleton, elem_of_empty. tauto.
Defined.

(** ** The batch: how much it can do *)

Module BudgetMore.

Import ParsePypi Spec More.

Lemma within_mono {A} (t : Task A) : forall g r g' r',
  (g <= g')%nat -> (r <= r')%nat -> within g r t -> within g' r' t.
Proof.
  induction t as [a | e | url k IH | row k IH | level msg k IH]; intros g r g' r' Hg Hr; simpl;
    auto.
  - destruct g as [|g]; [intros []|]. destruct g' as [|g']; [lia|].
    intros H reply. apply (IH reply g r g' r'); [lia | lia | apply H].
  - destruct r as [|r]; [intros []|]. destruct r' as [|r']; [lia|].
    apply IH; lia.
  - apply IH; assumption.
Qed.

Lemma within_bind {A B} (t : Task A) (f : A -> Task B) : forall g1 r1 g2 r2,
  within g1 r1 t -> (forall a, within g2 r2 (f a)) -> within (g1 + g2) (r1 + r2) (bind t f).
Proof.
  induction t as [a | e | url k IH | row k IH | level msg k IH]; intros g1 r1 g2 r2 Ht Hf; simpl.
  - apply (within_mono (f a) g2 r2); [lia | lia | apply Hf].
  - exact I.
  - destruct g1 as [|g1]; [destruct Ht|]. simpl. intros reply. apply IH; [apply Ht | exact Hf].
  - destruct r1 as [|r1]; [destruct Ht|]. simpl. apply IH; [exact Ht | exact Hf].
  - apply IH; [exact Ht | exact Hf].
Qed.

Lemma within_try_except {A} (t : Task A) (h : Exn -> Task A) : forall g1 r1 g2 r2,
  within g1 r1 t -> (forall e, within g2 r2 (h e)) ->
  within (g1 + g2) (r1 + r2) (try_except t h).
Proof.
  induction t as [a | e | url k IH | row k IH | level msg k IH]; intros g1 r1 g2 r2 Ht Hh; simpl.
  - exact I.
  - apply (within_mono (h e) g2 r2); [lia | lia | apply Hh].
  - destruct g1 as [|g1]; [destruct Ht|]. simpl. intros reply. apply IH; [apply Ht | exact Hh].
  - destruct r1 as [|r1]; [destruct Ht|]. simpl. apply IH; [exact Ht | exact Hh].
  - apply IH; [exact Ht | exact Hh].
Qed.

Lemma within_lift {A} (r : Result A) : within 0 0 (lift r).
Proof. destruct r; exact I. Qed.

Lemma within_session_get url : within 1 0 (session_get url).
Proof. simpl. intros [response | reason]; exact I. Qed.

Lemma within_is_typed pkg : within 2 0 (is_typed_package pkg).
Proof.
  unfold is_typed_package, fetch_latest_pypi_release, release_contains_py_typed.
  apply (within_bind _ _ 1 0 1 0).
  - apply (within_bind _ _ 1 0 0 0); [apply within_session_get|]. intros response.
    apply (within_bind _ _ 0 0 0 0); [apply within_lift|]. intros _.
    apply (within_bind _ _ 0 0 0 0); [apply within_lift|]. intros j. apply within_lift.
  - intros r. apply (within_bind _ _ 1 0 0 0); [apply within_session_get|].
    intros response. apply within_lift.
Qed.

Lemma within_stub pkg : within 1 0 (has_types_stub_package pkg).
Proof.
  unfold has_types_stub_package. apply (within_try_except _ _ 1 0 0 0).
  - apply (within_bind _ _ 1 0 0 0); [apply within_session_get|]. intros response.
    destruct (Aiohttp.status response =? 200); [exact I|].
    destruct (Aiohttp.status response =? 404); exact I.
  - intros e. exact I.
Qed.

Lemma within_process pkg i total : within 3 1 (process_package pkg i total).
Proof.
  unfold process_package, classify_package.
  apply (within_bind _ _ 3 0 0 1).
  - apply (within_try_except _ _ 3 0 0 0); [|intros e; exact I].
    apply (within_bind _ _ 3 0 0 0); [|intros r; exact I].
    apply (within_bind _ _ 2 0 1 0); [apply within_is_typed|]. intros has_py_typed.
    destruct (negb has_py_typed); [|exact I].
    apply (within_bind _ _ 1 0 0 0); [apply within_stub | intros o; exact I].
  - intros [[has_py_typed has_types_package]|]; exact I.
Qed.

Lemma sum_insert (l : list (nat * nat)) (f : nat * nat -> nat) i b b' :
  l !! i = Some b ->
  (list_sum (List.map f (<[i:=b']> l)) + f b = list_sum (List.map f l) + f b')%nat.
Proof.
  revert i. induction l as [|x l IH]; intros i; [discriminate|].
  destruct i as [|i]; simpl.
  - intros [= ->]. lia.
  - intros H. specialize (IH i H). lia.
Qed.

Lemma budget_step w0 st st' :
  pool_step st st' -> budget_inv w0 st -> budget_inv w0 st'.
Proof.
  intros Hstep (budgets & appended & issued & Hall & Hrows & Hreq & Hg & Hr).
  destruct Hstep as [i owner t t' w w' pool Hi _ Hstep]. simpl in *. unfold Pool in *.
  destruct (Forall2_lookup_l _ _ _ _ _ Hall Hi) as ([g r] & Hb & Hw). simpl in Hw.
  pose proof (sum_insert budgets fst i (g, r)) as Hsg.
  pose proof (sum_insert budgets snd i (g, r)) as Hsr.
  destruct Hstep as [url k reply w | row k w | level msg k w]; simpl in Hw.
  - destruct g as [|g]; [destruct Hw|].
    exists (<[i:=(g, r)]> budgets), appended, (issued ++ [(owner, url)]). simpl.
    split; [apply Forall2_insert; [exact Hall | apply Hw]|].
    split; [exact Hrows|]. split; [rewrite Hreq, <- app_assoc; reflexivity|].
    specialize (Hsg (g, r) Hb). specialize (Hsr (g, r) Hb). simpl in Hsg, Hsr.
    rewrite length_app, length_insert. simpl. lia.
  - destruct r as [|r]; [destruct Hw|].
    exists (<[i:=(g, r)]> budgets), (appended ++ [row]), issued. simpl.
    split; [apply Forall2_insert; [exact Hall | exact Hw]|].
    change (rows (append_result_to_csv row w)) with (rows w ++ [row]).
    split; [rewrite Hrows, <- app_assoc; reflexivity|]. split; [exact Hreq|].
    specialize (Hsg (g, r) Hb). specialize (Hsr (g, r) Hb). simpl in Hsg, Hsr.
    rewrite length_app, length_insert. simpl. lia.
  - exists (<[i:=(g, r)]> budgets), appended, issued. simpl.
    split; [apply Forall2_insert; [exact Hall | exact Hw]|].
    split; [exact Hrows|]. split; [exact Hreq|].
    specialize (Hsg (g, r) Hb). specialize (Hsr (g, r) Hb). simpl in Hsg, Hsr.
    rewrite length_insert. lia.
Qed.

Lemma budget_reachable w0 st st' :
  rtc pool_step st st' -> budget_inv w0 st -> budget_inv w0 st'.
Proof.
  induction 1 as [st | st st1 st2 Hstep _ IH]; [auto|].
  intros H. apply IH. apply (budget_step w0 st st1 Hstep H).
Qed.

Lemma new_tasks_budget processed total packages : forall i,
  Forall2 (fun (ot : string * Task unit) (b : nat * nat) => within (fst b) (snd b) (snd ot))
          (new_tasks processed total i packages)
          (List.map (fun _ => (3%nat, 1%nat)) (new_tasks processed total i packages)).
Proof.
  induction packages as [|pkg rest IH]; intros i; simpl; [constructor|].
  destruct (bool_decide (pkg ∈ processed)); [apply IH|].
  simpl. constructor; [apply within_process | apply IH].
Qed.

Lemma sum_const {A} (l : list A) (f : nat * nat -> nat) (b : nat * nat) :
  list_sum (List.map f (List.map (fun _ => b) l)) = (f b * length l)%nat.
Proof. induction l as [|x l IH]; simpl; [lia|]. rewrite IH. lia. Qed.

Lemma main_start_budget file w : budget_inv w (main_start file w).
Proof.
  unfold main_start, main_spawn. simpl.
  set (pool := tasks (spawn _ _ _ _ _)).
  assert (pool = new_tasks (load_processed_packages w)
                   (Z.of_nat (length (get_package_names file (Some 100)))) 1
                   (get_package_names file (Some 100))) as Hpool.
  { unfold pool. rewrite BatchMore.spawn_new_tasks. reflexivity. }
  exists (List.map (fun _ => (3%nat, 1%nat)) pool), [], []. simpl.
  split; [rewrite Hpool; apply new_tasks_budget|].
  rewrite !app_nil_r, !sum_const. simpl. repeat split; lia.
Qed.

Lemma new_tasks_length processed total packages : forall i,
  (length (new_tasks processed total i packages) <= length packages)%nat.
Proof.
  induction packages as [|pkg rest IH]; intros i; simpl; [lia|].
  destruct (bool_decide (pkg ∈ processed)); simpl; specialize (IH (i + 1)); lia.
Qed.

Lemma created_bound file w : (length (tasks (main_spawn file w)) <= 101)%nat.
Proof.
  unfold main_spawn. rewrite BatchMore.spawn_new_tasks. simpl.
  etransitivity; [apply new_tasks_length|].
  unfold get_package_names. rewrite BatchMore.loop_some. simpl.
  rewrite length_take. lia.
Qed.

End BudgetMore.

(** X23. Under every schedule a run of [main] issues at most three
    requests and appends at most one row for each task it created, and it
    creates at most 101 tasks; the rows and requests it found when it
    started stay in front of those it adds. *)
Theorem X23_run_is_bounded (file : list string) (w : ParsePypi.World)
    (pool' : ParsePypi.Pool) (w' : ParsePypi.World) :
  rtc ParsePypi.pool_step (ParsePypi.main_start file w) (pool', w') ->
  let created := length (ParsePypi.tasks (ParsePypi.main_spawn file w)) in
  exists appended issued,
    ParsePypi.rows w' = ParsePypi.rows w ++ appended
    /\ ParsePypi.requests w' = ParsePypi.requests w ++ issued
    /\ (length issued <= 3 * created)%nat
    /\ (length appended <= created)%nat
    /\ (created <= 101)%nat
    /\ length pool' = created.
Proof.
  intros Hreach created.
  assert (Hlen : forall st st', rtc ParsePypi.pool_step st st' -> length (fst st') = length (fst st)).
  { induction 1 as [st | st st1 st2 Hstep _ IH]; [reflexivity|].
    rewrite IH. destruct Hstep as [i owner t t' w0 w0' pool Hi _ Hs]. simpl.
    apply length_insert. }
  specialize (Hlen _ _ Hreach). simpl in Hlen.
  destruct (BudgetMore.budget_reachable w _ _ Hreach (BudgetMore.main_start_budget file w))
    as (budgets & appended & issued & _ & Hrows & Hreq & Hg & Hr).
  simpl in Hrows, Hreq, Hg, Hr. rewrite Hlen in Hg, Hr.
  exists appended, issued. fold created in Hg, Hr.
  split; [exact Hrows|]. split; [exact Hreq|]. split; [lia|]. split; [lia|].
  split; [|exact Hlen].
  apply BudgetMore.created_bound.
Qed.

Lemma X23_witness :
  exists appended issued,
    ParsePypi.rows (snd (Spec.seq_end Spec.example_net ["ghost"; "untyped"] Spec.fresh_world))
    = ParsePypi.rows Spec.fresh_world ++ appended
    /\ ParsePypi.requests
         (snd (Spec.seq_end Spec.example_net ["ghost"; "untyped"] Spec.fresh_world))
       = ParsePypi.requests Spec.fresh_world ++ issued
    /\ (length issued <= 3 * 2)%nat
    /\ (length appended <= 2)%nat.
Proof.
  destruct (X23_run_is_bounded ["ghost"; "untyped"] Spec.fresh_world
              (fst (Spec.seq_end Spec.example_net ["ghost"; "untyped"] Spec.fresh_world))
              (snd (Spec.seq_end Spec.example_net ["ghost"; "untyped"] Spec.fresh_world)))
    as (appended & issued & Hrows & Hreq & Hg & Hr & _).
  - rewrite <- surjective_pairing. apply ContainmentFacts.seq_end_reachable.
  - exists appended, issued. split; [exact Hrows|]. split; [exact Hreq|].
    split; [exact Hg | exact Hr].
Defined.
